(** * Hetzner Cloud MCP server: tool handlers, shape converters and
      credential resolution of [mcp_hetzner/server.py]

    The development embeds the Python module shallowly.

    - JSON-like return values are the inductive [value]; a Python [dict]
      literal is an association list in insertion order.
    - A Python exception is a value of [exn]; code that may raise lives in
      the [result] monad, code that also talks to the provider lives in
      [M], which threads the list of provider calls issued so far.
    - The provider SDK ([hcloud.Client]) is external: it is a record of
      functions, one per SDK method used, each free to answer or to raise
      and free to depend on the calls made before. *)

From Stdlib Require Import ZArith List String Ascii Bool Lia DecimalString.
Import ListNotations.
Open Scope string_scope.
Open Scope Z_scope.

Set Implicit Arguments.

(** ** Values handed back over the transport *)

#[warnings="-register-all"]
Inductive value : Type :=
| VNone
| VBool (b : bool)
| VInt (z : Z)
| VStr (s : string)
| VList (l : list value)
| VDict (d : list (string * value)).

(** [d.get(k)] on an insertion-ordered dict. *)
Fixpoint lookup {A : Type} (k : string) (d : list (string * A)) : option A :=
  match d with
  | [] => None
  | (k', v) :: d' => if String.eqb k k' then Some v else lookup k d'
  end.

Definition keys {A : Type} (d : list (string * A)) : list string := map fst d.

Definition has_key {A : Type} (k : string) (d : list (string * A)) : bool :=
  match lookup k d with Some _ => true | None => false end.

(** [d[k] = v]: overwrite in place when the key exists, append otherwise. *)
Fixpoint dict_set {A : Type} (k : string) (v : A) (d : list (string * A))
  : list (string * A) :=
  match d with
  | [] => [(k, v)]
  | (k', v') :: d' =>
      if String.eqb k k' then (k, v) :: d' else (k', v') :: dict_set k v d'
  end.

(** The value of field [k] of a dict value, when there is one. *)
Definition field (k : string) (v : value) : option value :=
  match v with VDict d => lookup k d | _ => None end.

Definition opt_value {A : Type} (f : A -> value) (o : option A) : value :=
  match o with Some a => f a | None => VNone end.

Definition str_list (l : list string) : value := VList (map VStr l).

Definition str_dict (d : list (string * string)) : value :=
  VDict (map (fun kv => (fst kv, VStr (snd kv))) d).

(** ** Python formatting *)

(** [f"{n}"] for an [int]. *)
Definition show_Z (z : Z) : string := NilZero.string_of_int (Z.to_int z).

(** [repr] of a [str]; exact for strings without quotes, backslashes or
    control characters, which is what resource names are. *)
Definition repr_str (s : string) : string := "'" ++ s ++ "'".

Definition repr_opt_str (o : option string) : string :=
  match o with Some s => repr_str s | None => "None" end.

Fixpoint join_comma (l : list string) : string :=
  match l with
  | [] => ""
  | [x] => x
  | x :: l' => x ++ ", " ++ join_comma l'
  end.

(** [f"{xs}"] for a list whose items are already rendered. *)
Definition repr_list (items : list string) : string :=
  "[" ++ join_comma items ++ "]".

(** [sub] occurs in [s]. *)
Definition contains (sub s : string) : Prop :=
  exists pre post, s = pre ++ sub ++ post.

(** ** Exceptions and the two monads *)

Inductive exn : Type :=
| FileNotFoundError (msg : string)
| TomlDecodeError (msg : string)
| ValueError (msg : string)
| RuntimeError (msg : string)
| AttributeError (msg : string)
| TypeError (msg : string)
| KeyError (msg : string)
| APIException (msg : string)
| OtherException (cls msg : string).

(** [str(e)]. *)
Definition str_exn (e : exn) : string :=
  match e with
  | FileNotFoundError m | TomlDecodeError m | ValueError m | RuntimeError m
  | AttributeError m | TypeError m | APIException m | OtherException _ m => m
  | KeyError m => repr_str m
  end.

Inductive result (A : Type) : Type :=
| Ok (a : A)
| Raise (e : exn).
Arguments Ok {A} a.
Arguments Raise {A} e.

Class Monad (m : Type -> Type) : Type := {
  ret : forall {A : Type}, A -> m A;
  bind : forall {A B : Type}, m A -> (A -> m B) -> m B
}.

Notation "x <- c1 ;; c2" := (bind c1 (fun x => c2))
  (at level 61, c1 at next level, right associativity).
Notation "c1 ;;; c2" := (bind c1 (fun _ => c2))
  (at level 61, right associativity).

#[global] Instance result_Monad : Monad result := {
  ret := fun A a => Ok a;
  bind := fun A B c k => match c with Ok a => k a | Raise e => Raise e end
}.

(** [for x in xs: ...; acc.append(f(x))] with a body that may raise. *)
Fixpoint mapM {m : Type -> Type} `{Monad m} {A B : Type}
  (f : A -> m B) (l : list A) : m (list B) :=
  match l with
  | [] => ret []
  | x :: l' => y <- f x ;; ys <- mapM f l' ;; ret (y :: ys)
  end.

(** Attribute access through a reference that may be [None]. *)
Definition deref {A : Type} (o : option A) : result A :=
  match o with
  | Some a => Ok a
  | None => Raise (AttributeError "'NoneType' object has no attribute")
  end.

(** [d[k]] on a dict: [KeyError] when the key is missing. *)
Definition subscript {A : Type} (d : list (string * A)) (k : string) : result A :=
  match lookup k d with
  | Some v => Ok v
  | None => Raise (KeyError k)
  end.

(** ** Truthiness *)

Definition is_some {A : Type} (o : option A) : bool :=
  match o with Some _ => true | None => false end.

Definition nonempty {A : Type} (l : list A) : bool :=
  match l with [] => false | _ :: _ => true end.

Definition truthy_str (s : string) : bool :=
  match s with EmptyString => false | String _ _ => true end.

Definition truthy_opt_str (o : option string) : bool :=
  match o with Some s => truthy_str s | None => false end.

Definition truthy_opt_list {A : Type} (o : option (list A)) : bool :=
  match o with Some l => nonempty l | None => false end.

Definition truthy_opt_Z (o : option Z) : bool :=
  match o with Some z => negb (z =? 0) | None => false end.

(** ** Provider objects

    The SDK's domain objects, with the attributes the module reads.  An
    attribute that the SDK types as optional is an [option]; attributes
    that are only copied to the output are kept as [value]. *)

(** A [datetime], held by the text that [isoformat()] renders. *)
Record datetime : Type := { isoformat : string }.

Module Location.
Record t : Type := mk {
  id : Z; name : string; description : value; country : value;
  city : value; latitude : value; longitude : value; network_zone : value }.
End Location.

Module Datacenter.
Record t : Type := mk { name : string; location : option Location.t }.
End Datacenter.

(** One entry of [server_type.prices].  [None] stands for an attribute that
    [hasattr] does not find; for [location] it also stands for a falsy
    attribute, which the source treats alike. *)
Module PriceLocation.
Record t : Type := mk { name : option value }.
End PriceLocation.

Module Price.
Record t : Type := mk {
  price_hourly : option value; price_monthly : option value;
  location : option PriceLocation.t }.
End Price.

Module ServerType.
Record t : Type := mk {
  id : Z; name : string; description : value; cores : value;
  memory : value; disk : value; storage_type : value; cpu_type : value;
  prices : option (list Price.t) }.
End ServerType.

Module Image.
Record t : Type := mk {
  id : Z; name : option string; description : value; type : value;
  status : value; os_flavor : value; os_version : value;
  architecture : value; disk_size : value; created : option datetime }.
End Image.

Module IPAddress.
Record t : Type := mk { ip : string }.
End IPAddress.

Module PublicNetwork.
Record t : Type := mk { ipv4 : option IPAddress.t; ipv6 : option IPAddress.t }.
End PublicNetwork.

(** A bound volume as it hangs off a server: only its id is read. *)
Module BoundVolume.
Record t : Type := mk { id : Z }.
End BoundVolume.

Module Server.
Record t : Type := mk {
  id : Z; name : string; status : value;
  created : option datetime;
  server_type : option ServerType.t;
  image : option Image.t;
  datacenter : option Datacenter.t;
  public_net : option PublicNetwork.t;
  included_traffic : value; outgoing_traffic : value;
  ingoing_traffic : value; backup_window : value;
  rescue_enabled : value; locked : value;
  protection : option (list (string * bool));
  labels : value;
  volumes : option (list BoundVolume.t) }.
End Server.

Module Volume.
Record t : Type := mk {
  id : Z; name : string; size : Z;
  location : option Location.t;
  server : option Server.t;
  linux_device : value;
  protection : option (list (string * bool));
  labels : value; format : value;
  created : option datetime; status : value }.
End Volume.

Module SSHKey.
Record t : Type := mk {
  id : Z; name : string; fingerprint : value; public_key : value;
  labels : value; created : option datetime }.
End SSHKey.

Module FirewallRule.
Record t : Type := mk {
  direction : string; protocol : string; source_ips : list string;
  port : option string;
  destination_ips : option (list string);
  description : option string }.
End FirewallRule.

Module FirewallResourceLabelSelector.
Record t : Type := mk { selector : string }.
End FirewallResourceLabelSelector.

(** An entry of [resource.applied_to_resources]. *)
Module AppliedResource.
Record t : Type := mk { type : string; server : option Server.t }.
End AppliedResource.

Module FirewallResource.
Record t : Type := mk {
  type : string;
  server : option Server.t;
  label_selector : option FirewallResourceLabelSelector.t;
  applied_to_resources : option (list AppliedResource.t) }.
End FirewallResource.

Module Firewall.
Record t : Type := mk {
  id : Z; name : string;
  rules : option (list FirewallRule.t);
  applied_to : option (list FirewallResource.t);
  labels : value; created : option datetime }.
End Firewall.

Module Action.
Record t : Type := mk {
  id : Z; status : value; command : value; progress : value;
  error : value;
  started : option datetime; finished : option datetime }.
End Action.

Module CreateServerResponse.
Record t : Type := mk {
  server : Server.t; action : option Action.t;
  root_password : option string }.
End CreateServerResponse.

Module CreateFirewallResponse.
Record t : Type := mk {
  firewall : Firewall.t; actions : option (list Action.t) }.
End CreateFirewallResponse.

Module CreateVolumeResponse.
Record t : Type := mk {
  volume : Volume.t; action : option Action.t;
  next_actions : option (list Action.t) }.
End CreateVolumeResponse.

(** ** Shape converters *)

(** [x.f if x else None] for a reference [x] that may be [None]. *)
Definition attr_or_none {A : Type} (o : option A) (f : A -> value)
  : result value :=
  if is_some o then a <- deref o ;; ret (f a) else ret VNone.

(** [x.g.f if x and x.g else None]: the guard is evaluated first, the
    path only when it holds. *)
Definition attr2_or_none {A B : Type} (o : option A) (g : A -> option B)
  (f : B -> value) : result value :=
  guard <- (if is_some o then a <- deref o ;; ret (is_some (g a))
            else ret false) ;;
  if guard : bool
  then a <- deref o ;; b <- deref (g a) ;; ret (f b)
  else ret VNone.

(** [x.isoformat() if x else None] *)
Definition iso_or_none (o : option datetime) : result value :=
  attr_or_none o (fun d => VStr (isoformat d)).

(** [p["k"] if p else False] *)
Definition protection_flag (p : option (list (string * bool))) (k : string)
  : result value :=
  if truthy_opt_list p
  then d <- deref p ;; b <- subscript d k ;; ret (VBool b)
  else ret (VBool false).

(** [[v.id for v in volumes] if volumes else []] *)
Definition volume_ids (volumes : option (list BoundVolume.t)) : result value :=
  if truthy_opt_list volumes
  then vs <- deref volumes ;;
       ret (VList (map (fun volume => VInt (BoundVolume.id volume)) vs))
  else ret (VList []).

Definition server_to_dict (server : Server.t) : result value :=
  created <- iso_or_none (Server.created server) ;;
  server_type <-
    attr_or_none (Server.server_type server)
      (fun st => VStr (ServerType.name st)) ;;
  image <-
    attr_or_none (Server.image server)
      (fun i => opt_value VStr (Image.name i)) ;;
  datacenter <-
    attr_or_none (Server.datacenter server)
      (fun d => VStr (Datacenter.name d)) ;;
  location <-
    attr2_or_none (Server.datacenter server) Datacenter.location
      (fun l => VStr (Location.name l)) ;;
  ipv4 <-
    attr2_or_none (Server.public_net server) PublicNetwork.ipv4
      (fun a => VStr (IPAddress.ip a)) ;;
  ipv6 <-
    attr2_or_none (Server.public_net server) PublicNetwork.ipv6
      (fun a => VStr (IPAddress.ip a)) ;;
  p_delete <- protection_flag (Server.protection server) "delete" ;;
  p_rebuild <- protection_flag (Server.protection server) "rebuild" ;;
  volumes <- volume_ids (Server.volumes server) ;;
  ret (VDict [
    ("id", VInt (Server.id server));
    ("name", VStr (Server.name server));
    ("status", Server.status server);
    ("created", created);
    ("server_type", server_type);
    ("image", image);
    ("datacenter", datacenter);
    ("location", location);
    ("public_net", VDict [("ipv4", ipv4); ("ipv6", ipv6)]);
    ("included_traffic", Server.included_traffic server);
    ("outgoing_traffic", Server.outgoing_traffic server);
    ("ingoing_traffic", Server.ingoing_traffic server);
    ("backup_window", Server.backup_window server);
    ("rescue_enabled", Server.rescue_enabled server);
    ("locked", Server.locked server);
    ("protection", VDict [("delete", p_delete); ("rebuild", p_rebuild)]);
    ("labels", Server.labels server);
    ("volumes", volumes)]).

Definition volume_to_dict (volume : Volume.t) : result value :=
  location <-
    attr_or_none (Volume.location volume) (fun l => VStr (Location.name l)) ;;
  server <-
    attr_or_none (Volume.server volume) (fun s => VInt (Server.id s)) ;;
  p_delete <- protection_flag (Volume.protection volume) "delete" ;;
  created <- iso_or_none (Volume.created volume) ;;
  ret (VDict [
    ("id", VInt (Volume.id volume));
    ("name", VStr (Volume.name volume));
    ("size", VInt (Volume.size volume));
    ("location", location);
    ("server", server);
    ("linux_device", Volume.linux_device volume);
    ("protection", VDict [("delete", p_delete)]);
    ("labels", Volume.labels volume);
    ("format", Volume.format volume);
    ("created", created);
    ("status", Volume.status volume)]).

Definition ssh_key_to_dict (ssh_key : SSHKey.t) : result value :=
  created <- iso_or_none (SSHKey.created ssh_key) ;;
  ret (VDict [
    ("id", VInt (SSHKey.id ssh_key));
    ("name", VStr (SSHKey.name ssh_key));
    ("fingerprint", SSHKey.fingerprint ssh_key);
    ("public_key", SSHKey.public_key ssh_key);
    ("labels", SSHKey.labels ssh_key);
    ("created", created)]).

(** The body of the [for rule in firewall.rules] loop. *)
Definition rule_to_dict (rule : FirewallRule.t) : result value :=
  let rule_dict := [
    ("direction", VStr (FirewallRule.direction rule));
    ("protocol", VStr (FirewallRule.protocol rule));
    ("source_ips", str_list (FirewallRule.source_ips rule))] in
  rule_dict <-
    (if truthy_opt_str (FirewallRule.port rule)
     then p <- deref (FirewallRule.port rule) ;;
          ret (dict_set "port" (VStr p) rule_dict)
     else ret rule_dict) ;;
  rule_dict <-
    (if truthy_opt_list (FirewallRule.destination_ips rule)
     then ips <- deref (FirewallRule.destination_ips rule) ;;
          ret (dict_set "destination_ips" (str_list ips) rule_dict)
     else ret rule_dict) ;;
  rule_dict <-
    (if truthy_opt_str (FirewallRule.description rule)
     then d <- deref (FirewallRule.description rule) ;;
          ret (dict_set "description" (VStr d) rule_dict)
     else ret rule_dict) ;;
  ret (VDict rule_dict).

(** [{"id": s.id, "name": s.name}] for the server a resource points at. *)
Definition server_ref_dict (o : option Server.t) : result value :=
  s <- deref o ;;
  ret (VDict [("id", VInt (Server.id s)); ("name", VStr (Server.name s))]).

(** The body of the inner [for applied_resource in ...] loop. *)
Definition applied_resource_to_dict (applied_resource : AppliedResource.t)
  : result value :=
  let applied_resource_dict :=
    [("type", VStr (AppliedResource.type applied_resource))] in
  applied_resource_dict <-
    (if is_some (AppliedResource.server applied_resource)
     then s <- server_ref_dict (AppliedResource.server applied_resource) ;;
          ret (dict_set "server" s applied_resource_dict)
     else ret applied_resource_dict) ;;
  ret (VDict applied_resource_dict).

(** The body of the [for resource in firewall.applied_to] loop. *)
Definition resource_to_dict (resource : FirewallResource.t) : result value :=
  let resource_dict := [("type", VStr (FirewallResource.type resource))] in
  resource_dict <-
    (if is_some (FirewallResource.server resource)
     then s <- server_ref_dict (FirewallResource.server resource) ;;
          ret (dict_set "server" s resource_dict)
     else ret resource_dict) ;;
  resource_dict <-
    (if is_some (FirewallResource.label_selector resource)
     then l <- deref (FirewallResource.label_selector resource) ;;
          ret (dict_set "label_selector"
                 (VDict [("selector",
                          VStr (FirewallResourceLabelSelector.selector l))])
                 resource_dict)
     else ret resource_dict) ;;
  resource_dict <-
    (if truthy_opt_list (FirewallResource.applied_to_resources resource)
     then rs <- deref (FirewallResource.applied_to_resources resource) ;;
          applied_resources <- mapM applied_resource_to_dict rs ;;
          ret (dict_set "applied_to_resources" (VList applied_resources)
                 resource_dict)
     else ret resource_dict) ;;
  ret (VDict resource_dict).

Definition firewall_to_dict (firewall : Firewall.t) : result value :=
  rules <-
    (if truthy_opt_list (Firewall.rules firewall)
     then rs <- deref (Firewall.rules firewall) ;; mapM rule_to_dict rs
     else ret []) ;;
  applied_to <-
    (if truthy_opt_list (Firewall.applied_to firewall)
     then rs <- deref (Firewall.applied_to firewall) ;; mapM resource_to_dict rs
     else ret []) ;;
  created <- iso_or_none (Firewall.created firewall) ;;
  ret (VDict [
    ("id", VInt (Firewall.id firewall));
    ("name", VStr (Firewall.name firewall));
    ("rules", VList rules);
    ("applied_to", VList applied_to);
    ("labels", Firewall.labels firewall);
    ("created", created)]).

(** The action record every handler spells out in place:
    [{"id": action.id, ..., "finished": ...}]. *)
Definition action_to_dict (action : Action.t) : result value :=
  started <- iso_or_none (Action.started action) ;;
  finished <- iso_or_none (Action.finished action) ;;
  ret (VDict [
    ("id", VInt (Action.id action));
    ("status", Action.status action);
    ("command", Action.command action);
    ("progress", Action.progress action);
    ("error", Action.error action);
    ("started", started);
    ("finished", finished)]).

(** [{...} if action else None] *)
Definition action_or_none (action : option Action.t) : result value :=
  if is_some action then a <- deref action ;; action_to_dict a else ret VNone.

(** [[{...} for action in actions] if actions else None] *)
Definition actions_or_none (actions : option (list Action.t)) : result value :=
  if truthy_opt_list actions
  then l <- deref actions ;; ds <- mapM action_to_dict l ;; ret (VList ds)
  else ret VNone.

(** ** Request models *)

(** An item of [CreateServerParams.ssh_keys]: the handler sniffs [int]
    against [str]. *)
Inductive ssh_key_ref : Type :=
| KeyId (id : Z)
| KeyName (name : string).

Module CreateServerParams.
Record t : Type := mk {
  name : string; server_type : string; image : string;
  location : option string;
  ssh_keys : option (list ssh_key_ref) }.
End CreateServerParams.

Module ServerIdParam.
Record t : Type := mk { server_id : Z }.
End ServerIdParam.

Module FirewallIdParam.
Record t : Type := mk { firewall_id : Z }.
End FirewallIdParam.

Module FirewallRuleParam.
Record t : Type := mk {
  direction : string; protocol : string; source_ips : list string;
  port : option string;
  destination_ips : option (list string);
  description : option string }.
End FirewallRuleParam.

Module FirewallResourceParam.
Record t : Type := mk {
  type : string;
  server_id : option Z;
  label_selector : option string }.
End FirewallResourceParam.

Module CreateFirewallParams.
Record t : Type := mk {
  name : string;
  rules : option (list FirewallRuleParam.t);
  resources : option (list FirewallResourceParam.t);
  labels : option (list (string * string)) }.
End CreateFirewallParams.

Module UpdateFirewallParams.
Record t : Type := mk {
  firewall_id : Z; name : option string;
  labels : option (list (string * string)) }.
End UpdateFirewallParams.

Module SetFirewallRulesParams.
Record t : Type := mk {
  firewall_id : Z; rules : list FirewallRuleParam.t }.
End SetFirewallRulesParams.

Module FirewallResourcesParams.
Record t : Type := mk {
  firewall_id : Z; resources : list FirewallResourceParam.t }.
End FirewallResourcesParams.

Module VolumeIdParam.
Record t : Type := mk { volume_id : Z }.
End VolumeIdParam.

Module CreateVolumeParams.
Record t : Type := mk {
  name : string; size : Z;
  location : option string;
  server : option Z;
  automount : option bool;
  format : option string;
  labels : option (list (string * string)) }.
End CreateVolumeParams.

Module AttachVolumeParams.
Record t : Type := mk {
  volume_id : Z; server_id : Z; automount : option bool }.
End AttachVolumeParams.

Module ResizeVolumeParams.
Record t : Type := mk { volume_id : Z; size : Z }.
End ResizeVolumeParams.

Module SSHKeyIdParam.
Record t : Type := mk { ssh_key_id : Z }.
End SSHKeyIdParam.

Module CreateSSHKeyParams.
Record t : Type := mk {
  name : string; public_key : string;
  labels : option (list (string * string)) }.
End CreateSSHKeyParams.

Module UpdateSSHKeyParams.
Record t : Type := mk {
  ssh_key_id : Z; name : string;
  labels : option (list (string * string)) }.
End UpdateSSHKeyParams.

(** ** The provider client

    Every SDK method the module calls, with its arguments, as it is logged
    in the trace.  [ActionsGetById] and [ActionWaitUntilFinished] are the
    SDK's ways of following an action up. *)

Definition labels_t : Type := option (list (string * string)).

Inductive call : Type :=
| ServersGetAll
| ServersGetById (id : Z)
| ServersCreate (name : string) (server_type : ServerType.t) (image : Image.t)
    (location : Location.t) (ssh_keys : list SSHKey.t)
| ServersDelete (server : Server.t)
| ServersPowerOn (server : Server.t)
| ServersPowerOff (server : Server.t)
| ServersReboot (server : Server.t)
| ServerTypesGetAll
| ServerTypesGetByName (name : string)
| ImagesGetAll
| ImagesGetByName (name : string)
| LocationsGetAll
| LocationsGetByName (name : option string)
| SSHKeysGetAll
| SSHKeysGetById (id : Z)
| SSHKeysGetByName (name : string)
| SSHKeysCreate (name public_key : string) (labels : labels_t)
| SSHKeysUpdate (ssh_key : SSHKey.t) (name : string) (labels : labels_t)
| SSHKeysDelete (ssh_key : SSHKey.t)
| FirewallsGetAll
| FirewallsGetById (id : Z)
| FirewallsCreate (name : string) (rules : option (list FirewallRule.t))
    (labels : labels_t) (resources : option (list FirewallResource.t))
| FirewallsUpdate (firewall : Firewall.t) (name : option string)
    (labels : labels_t)
| FirewallsDelete (firewall : Firewall.t)
| FirewallsSetRules (firewall : Firewall.t) (rules : list FirewallRule.t)
| FirewallsApplyToResources (firewall : Firewall.t)
    (resources : list FirewallResource.t)
| FirewallsRemoveFromResources (firewall : Firewall.t)
    (resources : list FirewallResource.t)
| VolumesGetAll
| VolumesGetById (id : Z)
| VolumesCreate (name : string) (size : Z) (location : option Location.t)
    (server : option Server.t) (automount : option bool)
    (format : option string) (labels : labels_t)
| VolumesDelete (volume : Volume.t)
| VolumesAttach (volume : Volume.t) (server : Server.t)
    (automount : option bool)
| VolumesDetach (volume : Volume.t)
| VolumesResize (volume : Volume.t) (size : Z)
| ActionsGetById (id : Z)
| ActionWaitUntilFinished (id : Z).

Definition trace : Type := list call.

(** What the provider answers to a call, given the calls made before it. *)
Module Client.
Record t : Type := mk {
  servers_get_all : trace -> result (list Server.t);
  servers_get_by_id : trace -> Z -> result (option Server.t);
  servers_create : trace -> string -> ServerType.t -> Image.t ->
    Location.t -> list SSHKey.t -> result CreateServerResponse.t;
  servers_delete : trace -> Server.t -> result (option Action.t);
  servers_power_on : trace -> Server.t -> result (option Action.t);
  servers_power_off : trace -> Server.t -> result (option Action.t);
  servers_reboot : trace -> Server.t -> result (option Action.t);
  server_types_get_all : trace -> result (list ServerType.t);
  server_types_get_by_name : trace -> string -> result (option ServerType.t);
  images_get_all : trace -> result (list Image.t);
  images_get_by_name : trace -> string -> result (option Image.t);
  locations_get_all : trace -> result (list Location.t);
  locations_get_by_name : trace -> option string -> result (option Location.t);
  ssh_keys_get_all : trace -> result (list SSHKey.t);
  ssh_keys_get_by_id : trace -> Z -> result (option SSHKey.t);
  ssh_keys_get_by_name : trace -> string -> result (option SSHKey.t);
  ssh_keys_create : trace -> string -> string -> labels_t -> result SSHKey.t;
  ssh_keys_update : trace -> SSHKey.t -> string -> labels_t -> result SSHKey.t;
  ssh_keys_delete : trace -> SSHKey.t -> result bool;
  firewalls_get_all : trace -> result (list Firewall.t);
  firewalls_get_by_id : trace -> Z -> result (option Firewall.t);
  firewalls_create : trace -> string -> option (list FirewallRule.t) ->
    labels_t -> option (list FirewallResource.t) ->
    result CreateFirewallResponse.t;
  firewalls_update : trace -> Firewall.t -> option string -> labels_t ->
    result Firewall.t;
  firewalls_delete : trace -> Firewall.t -> result bool;
  firewalls_set_rules : trace -> Firewall.t -> list FirewallRule.t ->
    result (option (list Action.t));
  firewalls_apply_to_resources : trace -> Firewall.t ->
    list FirewallResource.t -> result (option (list Action.t));
  firewalls_remove_from_resources : trace -> Firewall.t ->
    list FirewallResource.t -> result (option (list Action.t));
  volumes_get_all : trace -> result (list Volume.t);
  volumes_get_by_id : trace -> Z -> result (option Volume.t);
  volumes_create : trace -> string -> Z -> option Location.t ->
    option Server.t -> option bool -> option string -> labels_t ->
    result CreateVolumeResponse.t;
  volumes_delete : trace -> Volume.t -> result bool;
  volumes_attach : trace -> Volume.t -> Server.t -> option bool ->
    result (option Action.t);
  volumes_detach : trace -> Volume.t -> result (option Action.t);
  volumes_resize : trace -> Volume.t -> Z -> result (option Action.t) }.
End Client.

(** A handler computation: it reads the client, extends the trace and
    either returns or raises. *)
Definition M (A : Type) : Type := Client.t -> trace -> result A * trace.

#[global] Instance M_Monad : Monad M := {
  ret := fun A a => fun _ tr => (Ok a, tr);
  bind := fun A B c k => fun cl tr =>
    match c cl tr with
    | (Ok a, tr') => k a cl tr'
    | (Raise e, tr') => (Raise e, tr')
    end
}.

(** A pure computation that may raise, run inside a handler. *)
Definition lift {A : Type} (r : result A) : M A := fun _ tr => (r, tr).

(** One SDK call: the answer is computed from the calls made so far, then
    the call is logged. *)
Definition invoke {A : Type} (c : call) (f : Client.t -> trace -> result A)
  : M A :=
  fun cl tr => (f cl tr, (tr ++ [c])%list).

(** [try: body / except Exception as e: handler(e)] *)
Definition try_except {A : Type} (body : M A) (handler : exn -> M A) : M A :=
  fun cl tr =>
    match body cl tr with
    | (Ok a, tr') => (Ok a, tr')
    | (Raise e, tr') => handler e cl tr'
    end.

(** Run a handler from an empty trace. *)
Definition run {A : Type} (m : M A) (cl : Client.t) : result A * trace :=
  m cl [].

(** [{"error": msg}] *)
Definition error_envelope (msg : string) : value := VDict [("error", VStr msg)].

(** [except Exception as e: return {"error": f"<prefix>: {str(e)}"}] *)
Definition failed (prefix : string) (e : exn) : M value :=
  ret (error_envelope (prefix ++ ": " ++ str_exn e)).

(** *** SDK calls as the handlers spell them *)

Definition client_servers_get_all : M (list Server.t) :=
  invoke ServersGetAll Client.servers_get_all.
Definition client_servers_get_by_id (id : Z) : M (option Server.t) :=
  invoke (ServersGetById id) (fun cl tr => Client.servers_get_by_id cl tr id).
Definition client_servers_create (name : string) (server_type : ServerType.t)
  (image : Image.t) (location : Location.t) (ssh_keys : list SSHKey.t)
  : M CreateServerResponse.t :=
  invoke (ServersCreate name server_type image location ssh_keys)
    (fun cl tr => Client.servers_create cl tr name server_type image location ssh_keys).
Definition client_servers_delete (server : Server.t) : M (option Action.t) :=
  invoke (ServersDelete server) (fun cl tr => Client.servers_delete cl tr server).
Definition client_servers_power_on (server : Server.t) : M (option Action.t) :=
  invoke (ServersPowerOn server) (fun cl tr => Client.servers_power_on cl tr server).
Definition client_servers_power_off (server : Server.t) : M (option Action.t) :=
  invoke (ServersPowerOff server) (fun cl tr => Client.servers_power_off cl tr server).
Definition client_servers_reboot (server : Server.t) : M (option Action.t) :=
  invoke (ServersReboot server) (fun cl tr => Client.servers_reboot cl tr server).
Definition client_server_types_get_all : M (list ServerType.t) :=
  invoke ServerTypesGetAll Client.server_types_get_all.
Definition client_server_types_get_by_name (name : string)
  : M (option ServerType.t) :=
  invoke (ServerTypesGetByName name)
    (fun cl tr => Client.server_types_get_by_name cl tr name).
Definition client_images_get_all : M (list Image.t) :=
  invoke ImagesGetAll Client.images_get_all.
Definition client_images_get_by_name (name : string) : M (option Image.t) :=
  invoke (ImagesGetByName name) (fun cl tr => Client.images_get_by_name cl tr name).
Definition client_locations_get_all : M (list Location.t) :=
  invoke LocationsGetAll Client.locations_get_all.
Definition client_locations_get_by_name (name : option string)
  : M (option Location.t) :=
  invoke (LocationsGetByName name)
    (fun cl tr => Client.locations_get_by_name cl tr name).
Definition client_ssh_keys_get_all : M (list SSHKey.t) :=
  invoke SSHKeysGetAll Client.ssh_keys_get_all.
Definition client_ssh_keys_get_by_id (id : Z) : M (option SSHKey.t) :=
  invoke (SSHKeysGetById id) (fun cl tr => Client.ssh_keys_get_by_id cl tr id).
Definition client_ssh_keys_get_by_name (name : string) : M (option SSHKey.t) :=
  invoke (SSHKeysGetByName name)
    (fun cl tr => Client.ssh_keys_get_by_name cl tr name).
Definition client_ssh_keys_create (name public_key : string) (labels : labels_t)
  : M SSHKey.t :=
  invoke (SSHKeysCreate name public_key labels)
    (fun cl tr => Client.ssh_keys_create cl tr name public_key labels).
Definition client_ssh_keys_update (ssh_key : SSHKey.t) (name : string)
  (labels : labels_t) : M SSHKey.t :=
  invoke (SSHKeysUpdate ssh_key name labels)
    (fun cl tr => Client.ssh_keys_update cl tr ssh_key name labels).
Definition client_ssh_keys_delete (ssh_key : SSHKey.t) : M bool :=
  invoke (SSHKeysDelete ssh_key) (fun cl tr => Client.ssh_keys_delete cl tr ssh_key).
Definition client_firewalls_get_all : M (list Firewall.t) :=
  invoke FirewallsGetAll Client.firewalls_get_all.
Definition client_firewalls_get_by_id (id : Z) : M (option Firewall.t) :=
  invoke (FirewallsGetById id) (fun cl tr => Client.firewalls_get_by_id cl tr id).
Definition client_firewalls_create (name : string)
  (rules : option (list FirewallRule.t)) (labels : labels_t)
  (resources : option (list FirewallResource.t)) : M CreateFirewallResponse.t :=
  invoke (FirewallsCreate name rules labels resources)
    (fun cl tr => Client.firewalls_create cl tr name rules labels resources).
Definition client_firewalls_update (firewall : Firewall.t) (name : option string)
  (labels : labels_t) : M Firewall.t :=
  invoke (FirewallsUpdate firewall name labels)
    (fun cl tr => Client.firewalls_update cl tr firewall name labels).
Definition client_firewalls_delete (firewall : Firewall.t) : M bool :=
  invoke (FirewallsDelete firewall)
    (fun cl tr => Client.firewalls_delete cl tr firewall).
Definition client_firewalls_set_rules (firewall : Firewall.t)
  (rules : list FirewallRule.t) : M (option (list Action.t)) :=
  invoke (FirewallsSetRules firewall rules)
    (fun cl tr => Client.firewalls_set_rules cl tr firewall rules).
Definition client_firewalls_apply_to_resources (firewall : Firewall.t)
  (resources : list FirewallResource.t) : M (option (list Action.t)) :=
  invoke (FirewallsApplyToResources firewall resources)
    (fun cl tr => Client.firewalls_apply_to_resources cl tr firewall resources).
Definition client_firewalls_remove_from_resources (firewall : Firewall.t)
  (resources : list FirewallResource.t) : M (option (list Action.t)) :=
  invoke (FirewallsRemoveFromResources firewall resources)
    (fun cl tr => Client.firewalls_remove_from_resources cl tr firewall resources).
Definition client_volumes_get_all : M (list Volume.t) :=
  invoke VolumesGetAll Client.volumes_get_all.
Definition client_volumes_get_by_id (id : Z) : M (option Volume.t) :=
  invoke (VolumesGetById id) (fun cl tr => Client.volumes_get_by_id cl tr id).
Definition client_volumes_create (name : string) (size : Z)
  (location : option Location.t) (server : option Server.t)
  (automount : option bool) (format : option string) (labels : labels_t)
  : M CreateVolumeResponse.t :=
  invoke (VolumesCreate name size location server automount format labels)
    (fun cl tr =>
       Client.volumes_create cl tr name size location server automount format labels).
Definition client_volumes_delete (volume : Volume.t) : M bool :=
  invoke (VolumesDelete volume) (fun cl tr => Client.volumes_delete cl tr volume).
Definition client_volumes_attach (volume : Volume.t) (server : Server.t)
  (automount : option bool) : M (option Action.t) :=
  invoke (VolumesAttach volume server automount)
    (fun cl tr => Client.volumes_attach cl tr volume server automount).
Definition client_volumes_detach (volume : Volume.t) : M (option Action.t) :=
  invoke (VolumesDetach volume) (fun cl tr => Client.volumes_detach cl tr volume).
Definition client_volumes_resize (volume : Volume.t) (size : Z)
  : M (option Action.t) :=
  invoke (VolumesResize volume size)
    (fun cl tr => Client.volumes_resize cl tr volume size).

(** ** Tool handlers: servers *)

Definition server_not_found (id : Z) : value :=
  error_envelope ("Server with ID " ++ show_Z id ++ " not found").
Definition firewall_not_found (id : Z) : value :=
  error_envelope ("Firewall with ID " ++ show_Z id ++ " not found").
Definition volume_not_found (id : Z) : value :=
  error_envelope ("Volume with ID " ++ show_Z id ++ " not found").
Definition ssh_key_not_found (id : Z) : value :=
  error_envelope ("SSH key with ID " ++ show_Z id ++ " not found").

(** [{"success": True, "action": {...} if action else None}] *)
Definition success_action (action : option Action.t) : M value :=
  a <- lift (action_or_none action) ;;
  ret (VDict [("success", VBool true); ("action", a)]).

(** [{"success": True, "actions": [...] if actions else None}] *)
Definition success_actions (actions : option (list Action.t)) : M value :=
  a <- lift (actions_or_none actions) ;;
  ret (VDict [("success", VBool true); ("actions", a)]).

Definition list_servers : M value :=
  try_except
    (servers <- client_servers_get_all ;;
     ds <- lift (mapM server_to_dict servers) ;;
     ret (VDict [("servers", VList ds)]))
    (failed "Failed to list servers").

Definition get_server (params : ServerIdParam.t) : M value :=
  try_except
    (server <- client_servers_get_by_id (ServerIdParam.server_id params) ;;
     match server with
     | None => ret (server_not_found (ServerIdParam.server_id params))
     | Some server =>
         d <- lift (server_to_dict server) ;;
         ret (VDict [("server", d)])
     end)
    (failed "Failed to get server").

(** The [for ssh_key in params.ssh_keys] loop: a reference that resolves is
    appended, one that does not is passed over. *)
Fixpoint resolve_ssh_keys (refs : list ssh_key_ref) (ssh_keys : list SSHKey.t)
  : M (list SSHKey.t) :=
  match refs with
  | [] => ret ssh_keys
  | KeyId id :: refs' =>
      ssh_key_obj <- client_ssh_keys_get_by_id id ;;
      match ssh_key_obj with
      | Some k => resolve_ssh_keys refs' (ssh_keys ++ [k])%list
      | None => resolve_ssh_keys refs' ssh_keys
      end
  | KeyName name :: refs' =>
      ssh_key_obj <- client_ssh_keys_get_by_name name ;;
      match ssh_key_obj with
      | Some k => resolve_ssh_keys refs' (ssh_keys ++ [k])%list
      | None => resolve_ssh_keys refs' ssh_keys
      end
  end.

(** [f"{x}"] for an optional string. *)
Definition fmt_opt_str (o : option string) : string :=
  match o with Some s => s | None => "None" end.

(** The inner [try] block of [create_server]: [inl] is an envelope returned
    from inside it, [inr] the provider's create response. *)
Definition create_server_request (params : CreateServerParams.t)
  : M (value + CreateServerResponse.t) :=
  try_except
    (server_types <- client_server_types_get_all ;;
     images <- client_images_get_all ;;
     locations <- client_locations_get_all ;;
     let server_type_names := map ServerType.name server_types in
     let image_names := map Image.name images in
     let location_names := map Location.name locations in
     server_type_obj <-
       client_server_types_get_by_name (CreateServerParams.server_type params) ;;
     image_obj <- client_images_get_by_name (CreateServerParams.image params) ;;
     location_obj <-
       client_locations_get_by_name (CreateServerParams.location params) ;;
     match server_type_obj, image_obj, location_obj with
     | None, _, _ =>
         ret (inl (error_envelope
           ("Server type '" ++ CreateServerParams.server_type params ++
            "' not found. Available types: " ++
            repr_list (map repr_str server_type_names))))
     | Some _, None, _ =>
         ret (inl (error_envelope
           ("Image '" ++ CreateServerParams.image params ++
            "' not found. Available images: " ++
            repr_list (map repr_opt_str image_names))))
     | Some _, Some _, None =>
         ret (inl (error_envelope
           ("Location '" ++ fmt_opt_str (CreateServerParams.location params) ++
            "' not found. Available locations: " ++
            repr_list (map repr_str location_names))))
     | Some server_type_obj, Some image_obj, Some location_obj =>
         ssh_keys <-
           (match CreateServerParams.ssh_keys params with
            | Some refs => resolve_ssh_keys refs []
            | None => ret []
            end) ;;
         response <-
           client_servers_create (CreateServerParams.name params)
             server_type_obj image_obj location_obj ssh_keys ;;
         ret (inr response)
     end)
    (fun e => ret (inl (error_envelope
                          ("Failed to create server: " ++ str_exn e)))).

Definition create_server (params : CreateServerParams.t) : M value :=
  try_except
    (r <- create_server_request params ;;
     match r with
     | inl envelope => ret envelope
     | inr response =>
         let server := CreateServerResponse.server response in
         let action := CreateServerResponse.action response in
         s <- lift (server_to_dict server) ;;
         a <- lift (action_or_none action) ;;
         ret (VDict [
           ("server", s);
           ("action", a);
           ("root_password",
            opt_value VStr (CreateServerResponse.root_password response))])
     end)
    (failed "Failed to create server").

Definition delete_server (params : ServerIdParam.t) : M value :=
  try_except
    (server <- client_servers_get_by_id (ServerIdParam.server_id params) ;;
     match server with
     | None => ret (server_not_found (ServerIdParam.server_id params))
     | Some server =>
         action <- client_servers_delete server ;;
         success_action action
     end)
    (failed "Failed to delete server").

Definition image_to_dict (image : Image.t) : result value :=
  created <- iso_or_none (Image.created image) ;;
  ret (VDict [
    ("id", VInt (Image.id image));
    ("name", opt_value VStr (Image.name image));
    ("description", Image.description image);
    ("type", Image.type image);
    ("status", Image.status image);
    ("os_flavor", Image.os_flavor image);
    ("os_version", Image.os_version image);
    ("architecture", Image.architecture image);
    ("size_gb", Image.disk_size image);
    ("created", created)]).

Definition list_images : M value :=
  try_except
    (images <- client_images_get_all ;;
     ds <- lift (mapM image_to_dict images) ;;
     ret (VDict [("images", VList ds)]))
    (failed "Failed to list images").

(** [try: body / except Exception: handler] around code that only raises. *)
Definition try_result {A : Type} (body : result A) (handler : exn -> result A)
  : result A :=
  match body with Ok a => Ok a | Raise e => handler e end.

(** The body of the [for price in st.prices] loop. *)
Definition price_to_dict (price : Price.t) : result value :=
  let price_data : list (string * value) := [] in
  let price_data :=
    match Price.price_hourly price with
    | Some v => dict_set "price_hourly" v price_data
    | None => price_data
    end in
  let price_data :=
    match Price.price_monthly price with
    | Some v => dict_set "price_monthly" v price_data
    | None => price_data
    end in
  price_data <-
    try_result
      (match Price.location price with
       | Some l =>
           match PriceLocation.name l with
           | Some n => ret (dict_set "location" n price_data)
           | None => ret price_data
           end
       | None => ret price_data
       end)
      (fun _ => ret (dict_set "location" VNone price_data)) ;;
  ret (VDict price_data).

(** The body of the [for st in server_types] loop. *)
Definition server_type_to_dict (st : ServerType.t) : result value :=
  let server_type_info := [
    ("id", VInt (ServerType.id st));
    ("name", VStr (ServerType.name st));
    ("description", ServerType.description st);
    ("cores", ServerType.cores st);
    ("memory_gb", ServerType.memory st);
    ("disk_gb", ServerType.disk st);
    ("storage_type", ServerType.storage_type st);
    ("cpu_type", ServerType.cpu_type st);
    ("prices", VList [])] in
  server_type_info <-
    (if truthy_opt_list (ServerType.prices st)
     then ps <- deref (ServerType.prices st) ;;
          price_list <- mapM price_to_dict ps ;;
          ret (dict_set "prices" (VList price_list) server_type_info)
     else ret server_type_info) ;;
  ret (VDict server_type_info).

Definition list_server_types : M value :=
  try_except
    (server_types <- client_server_types_get_all ;;
     result <- lift (mapM server_type_to_dict server_types) ;;
     ret (VDict [("server_types", VList result)]))
    (failed "Failed to list server types").

Definition location_to_dict (location : Location.t) : value :=
  VDict [
    ("id", VInt (Location.id location));
    ("name", VStr (Location.name location));
    ("description", Location.description location);
    ("country", Location.country location);
    ("city", Location.city location);
    ("latitude", Location.latitude location);
    ("longitude", Location.longitude location);
    ("network_zone", Location.network_zone location)].

Definition list_locations : M value :=
  try_except
    (locations <- client_locations_get_all ;;
     ret (VDict [("locations", VList (map location_to_dict locations))]))
    (failed "Failed to list locations").

Definition power_on (params : ServerIdParam.t) : M value :=
  try_except
    (server <- client_servers_get_by_id (ServerIdParam.server_id params) ;;
     match server with
     | None => ret (server_not_found (ServerIdParam.server_id params))
     | Some server =>
         action <- client_servers_power_on server ;;
         success_action action
     end)
    (failed "Failed to power on server").

Definition power_off (params : ServerIdParam.t) : M value :=
  try_except
    (server <- client_servers_get_by_id (ServerIdParam.server_id params) ;;
     match server with
     | None => ret (server_not_found (ServerIdParam.server_id params))
     | Some server =>
         action <- client_servers_power_off server ;;
         success_action action
     end)
    (failed "Failed to power off server").

Definition reboot (params : ServerIdParam.t) : M value :=
  try_except
    (server <- client_servers_get_by_id (ServerIdParam.server_id params) ;;
     match server with
     | None => ret (server_not_found (ServerIdParam.server_id params))
     | Some server =>
         action <- client_servers_reboot server ;;
         success_action action
     end)
    (failed "Failed to reboot server").

(** ** Tool handlers: firewalls *)

Definition list_firewalls : M value :=
  try_except
    (firewalls <- client_firewalls_get_all ;;
     ds <- lift (mapM firewall_to_dict firewalls) ;;
     ret (VDict [("firewalls", VList ds)]))
    (failed "Failed to list firewalls").

Definition get_firewall (params : FirewallIdParam.t) : M value :=
  try_except
    (firewall <- client_firewalls_get_by_id (FirewallIdParam.firewall_id params) ;;
     match firewall with
     | None => ret (firewall_not_found (FirewallIdParam.firewall_id params))
     | Some firewall =>
         d <- lift (firewall_to_dict firewall) ;;
         ret (VDict [("firewall", d)])
     end)
    (failed "Failed to get firewall").

(** [FirewallRule(direction=..., ...)] from a rule parameter. *)
Definition rule_of_param (rule_param : FirewallRuleParam.t) : FirewallRule.t :=
  FirewallRule.mk
    (FirewallRuleParam.direction rule_param)
    (FirewallRuleParam.protocol rule_param)
    (FirewallRuleParam.source_ips rule_param)
    (FirewallRuleParam.port rule_param)
    (FirewallRuleParam.destination_ips rule_param)
    (FirewallRuleParam.description rule_param).

Definition server_id_required : value :=
  error_envelope "Server ID is required when resource type is 'server'".
Definition label_selector_required : value :=
  error_envelope
    "Label selector is required when resource type is 'label_selector'".
Definition invalid_resource_type (type : string) : value :=
  error_envelope ("Invalid resource type: " ++ type ++
                  ". Must be 'server' or 'label_selector'").

(** The [for resource_param in ...] loop that [create_firewall],
    [apply_firewall_to_resources] and [remove_firewall_from_resources]
    each carry: [inl] is the envelope returned from inside the loop, [inr]
    the resources built.  A [server_id] that is [None] or [0] and a
    [label_selector] that is [None] or empty are falsy. *)
Fixpoint convert_resources (resource_params : list FirewallResourceParam.t)
  (resources : list FirewallResource.t)
  : M (value + list FirewallResource.t) :=
  match resource_params with
  | [] => ret (inr resources)
  | resource_param :: rest =>
      let type := FirewallResourceParam.type resource_param in
      if String.eqb type "server" then
        match FirewallResourceParam.server_id resource_param with
        | None => ret (inl server_id_required)
        | Some id =>
            if id =? 0 then ret (inl server_id_required)
            else
              server <- client_servers_get_by_id id ;;
              match server with
              | None => ret (inl (server_not_found id))
              | Some server =>
                  let resource :=
                    FirewallResource.mk type (Some server) None None in
                  convert_resources rest (resources ++ [resource])%list
              end
        end
      else if String.eqb type "label_selector" then
        match FirewallResourceParam.label_selector resource_param with
        | None => ret (inl label_selector_required)
        | Some sel =>
            if negb (truthy_str sel) then ret (inl label_selector_required)
            else
              let label_selector := FirewallResourceLabelSelector.mk sel in
              let resource :=
                FirewallResource.mk type None (Some label_selector) None in
              convert_resources rest (resources ++ [resource])%list
        end
      else ret (inl (invalid_resource_type type))
  end.

Definition create_firewall (params : CreateFirewallParams.t) : M value :=
  try_except
    (let rules :=
       if truthy_opt_list (CreateFirewallParams.rules params)
       then option_map (map rule_of_param) (CreateFirewallParams.rules params)
       else None in
     r <-
       (match CreateFirewallParams.resources params with
        | Some (p :: ps) =>
            r <- convert_resources (p :: ps) [] ;;
            match r with
            | inl envelope => ret (inl envelope)
            | inr resources => ret (inr (Some resources))
            end
        | _ => ret (inr None)
        end) ;;
     match r with
     | inl envelope => ret envelope
     | inr resources =>
         response <-
           client_firewalls_create (CreateFirewallParams.name params) rules
             (CreateFirewallParams.labels params) resources ;;
         let firewall := CreateFirewallResponse.firewall response in
         let actions := CreateFirewallResponse.actions response in
         f <- lift (firewall_to_dict firewall) ;;
         a <- lift (actions_or_none actions) ;;
         ret (VDict [("firewall", f); ("actions", a)])
     end)
    (failed "Failed to create firewall").

Definition update_firewall (params : UpdateFirewallParams.t) : M value :=
  try_except
    (firewall <-
       client_firewalls_get_by_id (UpdateFirewallParams.firewall_id params) ;;
     match firewall with
     | None => ret (firewall_not_found (UpdateFirewallParams.firewall_id params))
     | Some firewall =>
         updated_firewall <-
           client_firewalls_update firewall (UpdateFirewallParams.name params)
             (UpdateFirewallParams.labels params) ;;
         d <- lift (firewall_to_dict updated_firewall) ;;
         ret (VDict [("firewall", d)])
     end)
    (failed "Failed to update firewall").

Definition delete_firewall (params : FirewallIdParam.t) : M value :=
  try_except
    (firewall <- client_firewalls_get_by_id (FirewallIdParam.firewall_id params) ;;
     match firewall with
     | None => ret (firewall_not_found (FirewallIdParam.firewall_id params))
     | Some firewall =>
         success <- client_firewalls_delete firewall ;;
         ret (VDict [("success", VBool success)])
     end)
    (failed "Failed to delete firewall").

Definition set_firewall_rules (params : SetFirewallRulesParams.t) : M value :=
  try_except
    (firewall <-
       client_firewalls_get_by_id (SetFirewallRulesParams.firewall_id params) ;;
     match firewall with
     | None =>
         ret (firewall_not_found (SetFirewallRulesParams.firewall_id params))
     | Some firewall =>
         let rules := map rule_of_param (SetFirewallRulesParams.rules params) in
         actions <- client_firewalls_set_rules firewall rules ;;
         success_actions actions
     end)
    (failed "Failed to set firewall rules").

Definition apply_firewall_to_resources (params : FirewallResourcesParams.t)
  : M value :=
  try_except
    (firewall <-
       client_firewalls_get_by_id (FirewallResourcesParams.firewall_id params) ;;
     match firewall with
     | None =>
         ret (firewall_not_found (FirewallResourcesParams.firewall_id params))
     | Some firewall =>
         r <- convert_resources (FirewallResourcesParams.resources params) [] ;;
         match r with
         | inl envelope => ret envelope
         | inr resources =>
             actions <- client_firewalls_apply_to_resources firewall resources ;;
             success_actions actions
         end
     end)
    (failed "Failed to apply firewall to resources").

Definition remove_firewall_from_resources (params : FirewallResourcesParams.t)
  : M value :=
  try_except
    (firewall <-
       client_firewalls_get_by_id (FirewallResourcesParams.firewall_id params) ;;
     match firewall with
     | None =>
         ret (firewall_not_found (FirewallResourcesParams.firewall_id params))
     | Some firewall =>
         r <- convert_resources (FirewallResourcesParams.resources params) [] ;;
         match r with
         | inl envelope => ret envelope
         | inr resources =>
             actions <-
               client_firewalls_remove_from_resources firewall resources ;;
             success_actions actions
         end
     end)
    (failed "Failed to remove firewall from resources").

(** ** Tool handlers: volumes *)

Definition list_volumes : M value :=
  try_except
    (volumes <- client_volumes_get_all ;;
     ds <- lift (mapM volume_to_dict volumes) ;;
     ret (VDict [("volumes", VList ds)]))
    (failed "Failed to list volumes").

Definition get_volume (params : VolumeIdParam.t) : M value :=
  try_except
    (volume <- client_volumes_get_by_id (VolumeIdParam.volume_id params) ;;
     match volume with
     | None => ret (volume_not_found (VolumeIdParam.volume_id params))
     | Some volume =>
         d <- lift (volume_to_dict volume) ;;
         ret (VDict [("volume", d)])
     end)
    (failed "Failed to get volume").

(** The two lookups that open [create_volume]: [inl] is an envelope
    returned early, [inr] the resolved location and server.  An empty
    [location] and a [server] of [0] are falsy and skip their lookup. *)
Definition create_volume_resolve (params : CreateVolumeParams.t)
  : M (value + option Location.t * option Server.t) :=
  l <-
    (if truthy_opt_str (CreateVolumeParams.location params)
     then location <-
            client_locations_get_by_name (CreateVolumeParams.location params) ;;
          match location with
          | None =>
              ret (inl (error_envelope
                ("Location '" ++
                 fmt_opt_str (CreateVolumeParams.location params) ++
                 "' not found")))
          | Some location => ret (inr (Some location))
          end
     else ret (inr None)) ;;
  match l with
  | inl envelope => ret (inl envelope)
  | inr location =>
      match CreateVolumeParams.server params with
      | Some id =>
          if id =? 0 then ret (inr (location, None))
          else
            server <- client_servers_get_by_id id ;;
            match server with
            | None => ret (inl (server_not_found id))
            | Some server => ret (inr (location, Some server))
            end
      | None => ret (inr (location, None))
      end
  end.

Definition create_volume (params : CreateVolumeParams.t) : M value :=
  try_except
    (r <- create_volume_resolve params ;;
     match r with
     | inl envelope => ret envelope
     | inr (location, server) =>
         response <-
           client_volumes_create (CreateVolumeParams.name params)
             (CreateVolumeParams.size params) location server
             (CreateVolumeParams.automount params)
             (CreateVolumeParams.format params)
             (CreateVolumeParams.labels params) ;;
         let volume := CreateVolumeResponse.volume response in
         let action := CreateVolumeResponse.action response in
         let next_actions := CreateVolumeResponse.next_actions response in
         v <- lift (volume_to_dict volume) ;;
         a <- lift (action_or_none action) ;;
         n <- lift (actions_or_none next_actions) ;;
         ret (VDict [("volume", v); ("action", a); ("next_actions", n)])
     end)
    (failed "Failed to create volume").

Definition delete_volume (params : VolumeIdParam.t) : M value :=
  try_except
    (volume <- client_volumes_get_by_id (VolumeIdParam.volume_id params) ;;
     match volume with
     | None => ret (volume_not_found (VolumeIdParam.volume_id params))
     | Some volume =>
         success <- client_volumes_delete volume ;;
         ret (VDict [("success", VBool success)])
     end)
    (failed "Failed to delete volume").

Definition attach_volume (params : AttachVolumeParams.t) : M value :=
  try_except
    (volume <- client_volumes_get_by_id (AttachVolumeParams.volume_id params) ;;
     match volume with
     | None => ret (volume_not_found (AttachVolumeParams.volume_id params))
     | Some volume =>
         server <-
           client_servers_get_by_id (AttachVolumeParams.server_id params) ;;
         match server with
         | None => ret (server_not_found (AttachVolumeParams.server_id params))
         | Some server =>
             action <-
               client_volumes_attach volume server
                 (AttachVolumeParams.automount params) ;;
             success_action action
         end
     end)
    (failed "Failed to attach volume").

Definition detach_volume (params : VolumeIdParam.t) : M value :=
  try_except
    (volume <- client_volumes_get_by_id (VolumeIdParam.volume_id params) ;;
     match volume with
     | None => ret (volume_not_found (VolumeIdParam.volume_id params))
     | Some volume =>
         if negb (is_some (Volume.server volume))
         then ret (error_envelope
                ("Volume with ID " ++ show_Z (VolumeIdParam.volume_id params) ++
                 " is not attached to any server"))
         else
           action <- client_volumes_detach volume ;;
           success_action action
     end)
    (failed "Failed to detach volume").

Definition resize_volume (params : ResizeVolumeParams.t) : M value :=
  try_except
    (volume <- client_volumes_get_by_id (ResizeVolumeParams.volume_id params) ;;
     match volume with
     | None => ret (volume_not_found (ResizeVolumeParams.volume_id params))
     | Some volume =>
         if ResizeVolumeParams.size params <=? Volume.size volume
         then ret (error_envelope
                ("New size (" ++ show_Z (ResizeVolumeParams.size params) ++
                 " GB) must be greater than current size (" ++
                 show_Z (Volume.size volume) ++ " GB)"))
         else
           action <-
             client_volumes_resize volume (ResizeVolumeParams.size params) ;;
           success_action action
     end)
    (failed "Failed to resize volume").

(** ** Tool handlers: SSH keys *)

Definition list_ssh_keys : M value :=
  try_except
    (ssh_keys <- client_ssh_keys_get_all ;;
     ds <- lift (mapM ssh_key_to_dict ssh_keys) ;;
     ret (VDict [("ssh_keys", VList ds)]))
    (failed "Failed to list SSH keys").

Definition get_ssh_key (params : SSHKeyIdParam.t) : M value :=
  try_except
    (ssh_key <- client_ssh_keys_get_by_id (SSHKeyIdParam.ssh_key_id params) ;;
     match ssh_key with
     | None => ret (ssh_key_not_found (SSHKeyIdParam.ssh_key_id params))
     | Some ssh_key =>
         d <- lift (ssh_key_to_dict ssh_key) ;;
         ret (VDict [("ssh_key", d)])
     end)
    (failed "Failed to get SSH key").

Definition create_ssh_key (params : CreateSSHKeyParams.t) : M value :=
  try_except
    (ssh_key <-
       client_ssh_keys_create (CreateSSHKeyParams.name params)
         (CreateSSHKeyParams.public_key params)
         (CreateSSHKeyParams.labels params) ;;
     d <- lift (ssh_key_to_dict ssh_key) ;;
     ret (VDict [("ssh_key", d)]))
    (failed "Failed to create SSH key").

Definition update_ssh_key (params : UpdateSSHKeyParams.t) : M value :=
  try_except
    (ssh_key <- client_ssh_keys_get_by_id (UpdateSSHKeyParams.ssh_key_id params) ;;
     match ssh_key with
     | None => ret (ssh_key_not_found (UpdateSSHKeyParams.ssh_key_id params))
     | Some ssh_key =>
         updated_ssh_key <-
           client_ssh_keys_update ssh_key (UpdateSSHKeyParams.name params)
             (UpdateSSHKeyParams.labels params) ;;
         d <- lift (ssh_key_to_dict updated_ssh_key) ;;
         ret (VDict [("ssh_key", d)])
     end)
    (failed "Failed to update SSH key").

Definition delete_ssh_key (params : SSHKeyIdParam.t) : M value :=
  try_except
    (ssh_key <- client_ssh_keys_get_by_id (SSHKeyIdParam.ssh_key_id params) ;;
     match ssh_key with
     | None => ret (ssh_key_not_found (SSHKeyIdParam.ssh_key_id params))
     | Some ssh_key =>
         success <- client_ssh_keys_delete ssh_key ;;
         ret (VDict [("success", VBool success)])
     end)
    (failed "Failed to delete SSH key").

(** ** The tools the module registers *)

Inductive tool : Type :=
| ListServers
| GetServer (params : ServerIdParam.t)
| CreateServer (params : CreateServerParams.t)
| DeleteServer (params : ServerIdParam.t)
| ListImages
| ListServerTypes
| ListLocations
| PowerOn (params : ServerIdParam.t)
| PowerOff (params : ServerIdParam.t)
| Reboot (params : ServerIdParam.t)
| ListFirewalls
| GetFirewall (params : FirewallIdParam.t)
| CreateFirewall (params : CreateFirewallParams.t)
| UpdateFirewall (params : UpdateFirewallParams.t)
| DeleteFirewall (params : FirewallIdParam.t)
| SetFirewallRules (params : SetFirewallRulesParams.t)
| ApplyFirewallToResources (params : FirewallResourcesParams.t)
| RemoveFirewallFromResources (params : FirewallResourcesParams.t)
| ListVolumes
| GetVolume (params : VolumeIdParam.t)
| CreateVolume (params : CreateVolumeParams.t)
| DeleteVolume (params : VolumeIdParam.t)
| AttachVolume (params : AttachVolumeParams.t)
| DetachVolume (params : VolumeIdParam.t)
| ResizeVolume (params : ResizeVolumeParams.t)
| ListSSHKeys
| GetSSHKey (params : SSHKeyIdParam.t)
| CreateSSHKey (params : CreateSSHKeyParams.t)
| UpdateSSHKey (params : UpdateSSHKeyParams.t)
| DeleteSSHKey (params : SSHKeyIdParam.t).

(** The handler behind each [@mcp.tool()]. *)
Definition handler (t : tool) : M value :=
  match t with
  | ListServers => list_servers
  | GetServer p => get_server p
  | CreateServer p => create_server p
  | DeleteServer p => delete_server p
  | ListImages => list_images
  | ListServerTypes => list_server_types
  | ListLocations => list_locations
  | PowerOn p => power_on p
  | PowerOff p => power_off p
  | Reboot p => reboot p
  | ListFirewalls => list_firewalls
  | GetFirewall p => get_firewall p
  | CreateFirewall p => create_firewall p
  | UpdateFirewall p => update_firewall p
  | DeleteFirewall p => delete_firewall p
  | SetFirewallRules p => set_firewall_rules p
  | ApplyFirewallToResources p => apply_firewall_to_resources p
  | RemoveFirewallFromResources p => remove_firewall_from_resources p
  | ListVolumes => list_volumes
  | GetVolume p => get_volume p
  | CreateVolume p => create_volume p
  | DeleteVolume p => delete_volume p
  | AttachVolume p => attach_volume p
  | DetachVolume p => detach_volume p
  | ResizeVolume p => resize_volume p
  | ListSSHKeys => list_ssh_keys
  | GetSSHKey p => get_ssh_key p
  | CreateSSHKey p => create_ssh_key p
  | UpdateSSHKey p => update_ssh_key p
  | DeleteSSHKey p => delete_ssh_key p
  end.

(** ** Credential resolution *)

(** What [toml.load] hands back: strings, integers, booleans, arrays and
    tables (floats and dates do not occur in the CLI configuration). *)
#[warnings="-register-all"]
Inductive toml : Type :=
| TStr (s : string)
| TInt (z : Z)
| TBool (b : bool)
| TArray (l : list toml)
| TTable (d : list (string * toml)).

(** Truthiness of what [dict.get] returns ([None] when the key is missing). *)
Definition truthy (o : option toml) : bool :=
  match o with
  | None => false
  | Some (TStr s) => truthy_str s
  | Some (TInt z) => negb (z =? 0)
  | Some (TBool b) => b
  | Some (TArray l) => nonempty l
  | Some (TTable d) => nonempty d
  end.

Definition Z_of_bool (b : bool) : Z := if b then 1 else 0.

(** Python's [==] on loaded values: booleans compare as integers, arrays
    item by item, tables key by key whatever the order. *)
Fixpoint py_eq (a b : toml) : bool :=
  match a, b with
  | TStr x, TStr y => String.eqb x y
  | TInt x, TInt y => x =? y
  | TInt x, TBool y => x =? Z_of_bool y
  | TBool x, TInt y => Z_of_bool x =? y
  | TBool x, TBool y => Bool.eqb x y
  | TArray l, TArray l' =>
      (fix go (l : list toml) (l' : list toml) : bool :=
         match l, l' with
         | [], [] => true
         | x :: r, y :: r' => py_eq x y && go r r'
         | _, _ => false
         end) l l'
  | TTable d, TTable d' =>
      (Nat.eqb (List.length d) (List.length d')) &&
      (fix go (d : list (string * toml)) : bool :=
         match d with
         | [] => true
         | (k, v) :: r =>
             match lookup k d' with
             | Some v' => py_eq v v' && go r
             | None => false
             end
         end) d
  | _, _ => false
  end.

(** [x == y] where [x] came out of [dict.get]. *)
Definition opt_py_eq (x : option toml) (y : toml) : bool :=
  match x with Some v => py_eq v y | None => false end.

(** [repr] of a loaded value. *)
Fixpoint toml_repr (v : toml) : string :=
  match v with
  | TStr s => repr_str s
  | TInt z => show_Z z
  | TBool b => if b then "True" else "False"
  | TArray l => repr_list (map toml_repr l)
  | TTable d =>
      "{" ++ join_comma
               ((fix go (d : list (string * toml)) : list string :=
                   match d with
                   | [] => []
                   | (k, v) :: r => (repr_str k ++ ": " ++ toml_repr v) :: go r
                   end) d) ++ "}"
  end.

(** [f"{v}"] *)
Definition toml_str (v : toml) : string :=
  match v with TStr s => s | _ => toml_repr v end.

(** The CLI configuration file as [authenticate] meets it: missing, or
    present with whatever [toml.load] does on it (a [TomlDecodeError] on
    bad syntax, the top-level table otherwise). *)
Inductive config_file : Type :=
| Absent
| Present (load : result (list (string * toml))).

(** [context.get(key)]: only a table has [get]. *)
Definition context_get (context : toml) (key : string) : result (option toml) :=
  match context with
  | TTable d => Ok (lookup key d)
  | _ => Raise (AttributeError "object has no attribute 'get'")
  end.

Fixpoint chars (s : string) : list toml :=
  match s with
  | EmptyString => []
  | String c s' => TStr (String c EmptyString) :: chars s'
  end.

(** What [for context in contexts] walks over. *)
Definition iterate (contexts : toml) : result (list toml) :=
  match contexts with
  | TArray l => Ok l
  | TTable d => Ok (map TStr (keys d))
  | TStr s => Ok (chars s)
  | TInt _ | TBool _ => Raise (TypeError "object is not iterable")
  end.

(** The [for context in contexts] loop and the [raise] after it. *)
Fixpoint find_token (contexts : list toml) (active_context : toml)
  : result toml :=
  match contexts with
  | [] =>
      Raise (ValueError ("Active context '" ++ toml_str active_context ++
                         "' not found in contexts"))
  | context :: rest =>
      name <- context_get context "name" ;;
      if opt_py_eq name active_context
      then
        token <- context_get context "token" ;;
        match token with
        | Some t =>
            if truthy token then ret t
            else Raise (ValueError ("No token found for context '" ++
                                    toml_str active_context ++ "'"))
        | None =>
            Raise (ValueError ("No token found for context '" ++
                               toml_str active_context ++ "'"))
        end
      else find_token rest active_context
  end.

(** The [try] block of [authenticate]. *)
Definition read_token (load : result (list (string * toml))) : result toml :=
  config <- load ;;
  match lookup "active_context" config with
  | Some active_context =>
      if truthy (Some active_context)
      then
        let contexts :=
          match lookup "contexts" config with
          | Some v => v
          | None => TArray []
          end in
        items <- iterate contexts ;;
        find_token items active_context
      else Raise (ValueError "No active context found in hcloud configuration")
  | None => Raise (ValueError "No active context found in hcloud configuration")
  end.

Definition authenticate (file : config_file) : result toml :=
  match file with
  | Absent =>
      Raise (FileNotFoundError
        "hcloud CLI configuration not found. Please run login to hcloud to setup the hcloud CLI first.")
  | Present load =>
      match read_token load with
      | Ok token => Ok token
      | Raise (TomlDecodeError m) =>
          Raise (ValueError ("Invalid TOML format in hcloud configuration: " ++ m))
      | Raise e =>
          Raise (RuntimeError ("Error reading hcloud configuration: " ++ str_exn e))
      end
  end.

(** The provider client object built at import time. *)
Record hcloud_client : Type := { token : toml }.

(** [client = Client(token=authenticate())], the module-level statement
    that runs before any tool is registered. *)
Definition module_client (file : config_file) : result hcloud_client :=
  t <- authenticate file ;;
  ret {| token := t |}.

(** ** Vocabulary of the properties *)

(** [{"error": <message>}] and nothing else. *)
Definition is_error (v : value) : bool :=
  match v with
  | VDict [(k, VStr _)] => String.eqb k "error"
  | _ => false
  end.

(** A dict without an ["error"] key. *)
Definition is_success (v : value) : bool :=
  match v with
  | VDict d => negb (has_key "error" d)
  | _ => false
  end.

(** A protection mapping that is present and non-empty carries the flags
    [ks], as the SDK's typed dict does. *)
Definition protection_complete (ks : list string)
  (p : option (list (string * bool))) : bool :=
  match p with
  | Some (e :: d) => forallb (fun k => has_key k (e :: d)) ks
  | _ => true
  end.

Definition rules_of (firewall : Firewall.t) : list FirewallRule.t :=
  match Firewall.rules firewall with Some l => l | None => [] end.

(** What the record of one rule must hold: the three mandatory fields, and
    each optional field exactly when it is truthy on the rule, with the
    rule's value. *)
Definition rule_record (rule : FirewallRule.t) (r : value) : Prop :=
  exists d, r = VDict d /\
    lookup "direction" d = Some (VStr (FirewallRule.direction rule)) /\
    lookup "protocol" d = Some (VStr (FirewallRule.protocol rule)) /\
    lookup "source_ips" d = Some (str_list (FirewallRule.source_ips rule)) /\
    lookup "port" d =
      (if truthy_opt_str (FirewallRule.port rule)
       then option_map VStr (FirewallRule.port rule) else None) /\
    lookup "destination_ips" d =
      (if truthy_opt_list (FirewallRule.destination_ips rule)
       then option_map str_list (FirewallRule.destination_ips rule) else None) /\
    lookup "description" d =
      (if truthy_opt_str (FirewallRule.description rule)
       then option_map VStr (FirewallRule.description rule) else None) /\
    (forall k, lookup k d <> Some VNone).

(** A rule whose description was given as the empty string. *)
Definition rule_empty_description : FirewallRule.t :=
  FirewallRule.mk "in" "tcp" ["0.0.0.0/0"] (Some "80") None (Some "").

Definition firewall_empty_description : Firewall.t :=
  Firewall.mk 7 "web" (Some [rule_empty_description]) None VNone None.

(** A server, a volume and an SSH key with every optional part absent. *)
Definition bare_server : Server.t :=
  Server.mk 1 "s" (VStr "running") None None None None None
    VNone VNone VNone VNone (VBool false) (VBool false) None VNone None.

Definition bare_volume : Volume.t :=
  Volume.mk 2 "v" 10 None None VNone None VNone VNone None (VStr "available").

Definition bare_ssh_key : SSHKey.t :=
  SSHKey.mk 3 "k" (VStr "aa:bb") (VStr "ssh-rsa AAAA") VNone None.

Definition bare_firewall : Firewall.t :=
  Firewall.mk 4 "f" None None VNone None.

(** Field [k] of what a converter returned. *)
Definition result_field (k : string) (r : result value) : option value :=
  match r with Ok v => field k v | Raise _ => None end.

Definition raises {A : Type} (r : result A) : Prop := exists e, r = Raise e.

(** The records of the [contexts] list of a configuration. *)
Definition context_records (config : list (string * toml)) : list toml :=
  match lookup "contexts" config with
  | Some (TArray l) => l
  | _ => []
  end.

(** [context] is a record whose [name] equals the active context name. *)
Definition names (active_context : toml) (context : toml) : bool :=
  match context with
  | TTable d => opt_py_eq (lookup "name" d) active_context
  | _ => false
  end.

(** The record of the active context: the first one that carries its name. *)
Definition active_record (config : list (string * toml)) (active_context : toml)
  : option toml :=
  find (names active_context) (context_records config).

Definition token_of (context : toml) : option toml :=
  match context with
  | TTable d => lookup "token" d
  | _ => None
  end.

(** A configuration with two contexts, the second one active. *)
Definition sample_config : list (string * toml) :=
  [("active_context", TStr "prod");
   ("contexts", TArray [
      TTable [("name", TStr "dev"); ("token", TStr "t0k-dev")];
      TTable [("name", TStr "prod"); ("token", TStr "t0k-prod")]])].

(** Calls that follow an action up after it was handed out. *)
Definition about_action (c : call) : bool :=
  match c with
  | ActionsGetById _ | ActionWaitUntilFinished _ => true
  | _ => false
  end.

(** Calls that only read: the [get_all], [get_by_id] and [get_by_name]
    of every collection. *)
Definition is_lookup (c : call) : bool :=
  match c with
  | ServersGetAll | ServersGetById _
  | ServerTypesGetAll | ServerTypesGetByName _
  | ImagesGetAll | ImagesGetByName _
  | LocationsGetAll | LocationsGetByName _
  | SSHKeysGetAll | SSHKeysGetById _ | SSHKeysGetByName _
  | FirewallsGetAll | FirewallsGetById _
  | VolumesGetAll | VolumesGetById _ => true
  | _ => false
  end.


(** A list split into its front and its last item. *)
Fixpoint split_last {A : Type} (l : list A) : option (list A * A) :=
  match l with
  | [] => None
  | [x] => Some ([], x)
  | x :: l' =>
      match split_last l' with
      | Some (front, y) => Some (x :: front, y)
      | None => None
      end
  end.

(** The trace of a handler: lookups, then at most one other call, which is
    not about an action. *)
Definition lookups_then_one (tr : trace) : Prop :=
  Forall (fun c => is_lookup c = true) tr \/
  exists front c, tr = (front ++ [c])%list /\
                  Forall (fun c => is_lookup c = true) front /\
                  about_action c = false.

(** The ID a [get_by_id] call asks for. *)
Definition lookup_id (c : call) : option Z :=
  match c with
  | ServersGetById id | VolumesGetById id | FirewallsGetById id
  | SSHKeysGetById id => Some id
  | _ => None
  end.

(** The lookup by ID [c], made after [tr], found no match. *)
Definition missed (cl : Client.t) (tr : trace) (c : call) : Prop :=
  match c with
  | ServersGetById id => Client.servers_get_by_id cl tr id = Ok None
  | VolumesGetById id => Client.volumes_get_by_id cl tr id = Ok None
  | FirewallsGetById id => Client.firewalls_get_by_id cl tr id = Ok None
  | SSHKeysGetById id => Client.ssh_keys_get_by_id cl tr id = Ok None
  | _ => False
  end.

(** The one place where a lookup by ID that finds nothing is passed over:
    the keys of [create_server]. *)
Definition skips_missing (t : tool) (c : call) : bool :=
  match t with
  | CreateServer _ =>
      match c with SSHKeysGetById _ => true | _ => false end
  | _ => false
  end.

(** No call of [ext], made after [base], is a lookup by ID that found
    nothing, the calls [skip] singles out apart. *)
Definition quiet_from (skip : call -> bool) (cl : Client.t)
  (base ext : trace) : Prop :=
  forall e0 c e1, ext = (e0 ++ c :: e1)%list -> skip c = false ->
                  ~ missed cl (base ++ e0)%list c.

(** Either every lookup by ID found its resource, or the last call is a
    lookup by ID and the outcome is the error envelope that names the ID. *)
Definition reports_miss (skip : call -> bool) (cl : Client.t)
  (r : result value) (tr : trace) : Prop :=
  quiet_from skip cl [] tr \/
  exists front c id msg,
    tr = (front ++ [c])%list /\ quiet_from skip cl [] front /\
    lookup_id c = Some id /\
    r = Ok (error_envelope msg) /\ contains (show_Z id) msg.

(** ** Sample provider *)

Definition sample_action : Action.t :=
  Action.mk 42 (VStr "running") (VStr "start_server") (VInt 0) VNone
    (Some {| isoformat := "2024-05-01T10:00:00+00:00" |}) None.

Definition sample_location : Location.t :=
  Location.mk 1 "nbg1" (VStr "Nuremberg DC Park 1") (VStr "DE")
    (VStr "Nuremberg") VNone VNone (VStr "eu-central").

Definition sample_server_type : ServerType.t :=
  ServerType.mk 1 "cx11" (VStr "CX11") (VInt 1) (VInt 2) (VInt 20)
    (VStr "local") (VStr "shared") None.

Definition sample_image : Image.t :=
  Image.mk 1 (Some "ubuntu-22.04") (VStr "Ubuntu 22.04") (VStr "system")
    (VStr "available") (VStr "ubuntu") (VStr "22.04") (VStr "x86") (VInt 5)
    None.

(** A provider that knows server 1, volume 2 (10 GB, attached nowhere),
    SSH key 3 and firewall 4, resolves every name, and answers every
    request for a change with [sample_action], still running. *)
Definition sample_client : Client.t :=
  Client.mk
    (fun _ => Ok [bare_server])
    (fun _ id => Ok (if id =? 1 then Some bare_server else None))
    (fun _ _ _ _ _ _ =>
       Ok (CreateServerResponse.mk bare_server (Some sample_action)
             (Some "s3cret")))
    (fun _ _ => Ok (Some sample_action))
    (fun _ _ => Ok (Some sample_action))
    (fun _ _ => Ok (Some sample_action))
    (fun _ _ => Ok (Some sample_action))
    (fun _ => Ok [sample_server_type])
    (fun _ _ => Ok (Some sample_server_type))
    (fun _ => Ok [sample_image])
    (fun _ _ => Ok (Some sample_image))
    (fun _ => Ok [sample_location])
    (fun _ _ => Ok (Some sample_location))
    (fun _ => Ok [bare_ssh_key])
    (fun _ id => Ok (if id =? 3 then Some bare_ssh_key else None))
    (fun _ _ => Ok None)
    (fun _ _ _ _ => Ok bare_ssh_key)
    (fun _ _ _ _ => Ok bare_ssh_key)
    (fun _ _ => Ok true)
    (fun _ => Ok [bare_firewall])
    (fun _ id => Ok (if id =? 4 then Some bare_firewall else None))
    (fun _ _ _ _ _ =>
       Ok (CreateFirewallResponse.mk bare_firewall (Some [sample_action])))
    (fun _ _ _ _ => Ok bare_firewall)
    (fun _ _ => Ok true)
    (fun _ _ _ => Ok (Some [sample_action]))
    (fun _ _ _ => Ok (Some [sample_action]))
    (fun _ _ _ => Ok (Some [sample_action]))
    (fun _ => Ok [bare_volume])
    (fun _ id => Ok (if id =? 2 then Some bare_volume else None))
    (fun _ _ _ _ _ _ _ _ =>
       Ok (CreateVolumeResponse.mk bare_volume (Some sample_action) None))
    (fun _ _ => Ok true)
    (fun _ _ _ _ => Ok (Some sample_action))
    (fun _ _ => Ok (Some sample_action))
    (fun _ _ _ => Ok (Some sample_action)).

(** A create request that names SSH key 123, which the sample provider
    does not know. *)
Definition create_with_unknown_key : CreateServerParams.t :=
  CreateServerParams.mk "web" "cx11" "ubuntu-22.04" (Some "nbg1")
    (Some [KeyId 123]).

(** A resource entry of type ["server"] without [server_id], and one of
    type ["label_selector"] without [label_selector]. *)
Definition lacks_server_id (p : FirewallResourceParam.t) : bool :=
  String.eqb (FirewallResourceParam.type p) "server" &&
  negb (is_some (FirewallResourceParam.server_id p)).

Definition lacks_label_selector (p : FirewallResourceParam.t) : bool :=
  String.eqb (FirewallResourceParam.type p) "label_selector" &&
  negb (is_some (FirewallResourceParam.label_selector p)).

(** Apply firewall 4 to server 1 and to a server entry without an ID. *)
Definition apply_with_late_gap : FirewallResourcesParams.t :=
  FirewallResourcesParams.mk 4
    [FirewallResourceParam.mk "server" (Some 1) None;
     FirewallResourceParam.mk "server" None None].

(** Apply firewall 4 to a server entry without an ID, first in the list. *)
Definition apply_with_gap_first : FirewallResourcesParams.t :=
  FirewallResourcesParams.mk 4
    [FirewallResourceParam.mk "server" None None;
     FirewallResourceParam.mk "server" (Some 1) None].

(** A create request without SSH keys. *)
Definition create_without_keys : CreateServerParams.t :=
  CreateServerParams.mk "web" "cx11" "ubuntu-22.04" (Some "nbg1") None.

(** ** Vocabulary of the further properties *)

Definition exn_of {A : Type} (r : result A) : option exn :=
  match r with Ok _ => None | Raise e => Some e end.

(** The exception the provider raises on the call [c] made after [tr],
    if it raises. *)
Definition raised (cl : Client.t) (tr : trace) (c : call) : option exn :=
  match c with
  | ServersGetAll => exn_of (Client.servers_get_all cl tr)
  | ServersGetById id => exn_of (Client.servers_get_by_id cl tr id)
  | ServersCreate n st i l ks =>
      exn_of (Client.servers_create cl tr n st i l ks)
  | ServersDelete s => exn_of (Client.servers_delete cl tr s)
  | ServersPowerOn s => exn_of (Client.servers_power_on cl tr s)
  | ServersPowerOff s => exn_of (Client.servers_power_off cl tr s)
  | ServersReboot s => exn_of (Client.servers_reboot cl tr s)
  | ServerTypesGetAll => exn_of (Client.server_types_get_all cl tr)
  | ServerTypesGetByName n => exn_of (Client.server_types_get_by_name cl tr n)
  | ImagesGetAll => exn_of (Client.images_get_all cl tr)
  | ImagesGetByName n => exn_of (Client.images_get_by_name cl tr n)
  | LocationsGetAll => exn_of (Client.locations_get_all cl tr)
  | LocationsGetByName n => exn_of (Client.locations_get_by_name cl tr n)
  | SSHKeysGetAll => exn_of (Client.ssh_keys_get_all cl tr)
  | SSHKeysGetById id => exn_of (Client.ssh_keys_get_by_id cl tr id)
  | SSHKeysGetByName n => exn_of (Client.ssh_keys_get_by_name cl tr n)
  | SSHKeysCreate n k ls => exn_of (Client.ssh_keys_create cl tr n k ls)
  | SSHKeysUpdate k n ls => exn_of (Client.ssh_keys_update cl tr k n ls)
  | SSHKeysDelete k => exn_of (Client.ssh_keys_delete cl tr k)
  | FirewallsGetAll => exn_of (Client.firewalls_get_all cl tr)
  | FirewallsGetById id => exn_of (Client.firewalls_get_by_id cl tr id)
  | FirewallsCreate n rs ls res =>
      exn_of (Client.firewalls_create cl tr n rs ls res)
  | FirewallsUpdate f n ls => exn_of (Client.firewalls_update cl tr f n ls)
  | FirewallsDelete f => exn_of (Client.firewalls_delete cl tr f)
  | FirewallsSetRules f rs => exn_of (Client.firewalls_set_rules cl tr f rs)
  | FirewallsApplyToResources f res =>
      exn_of (Client.firewalls_apply_to_resources cl tr f res)
  | FirewallsRemoveFromResources f res =>
      exn_of (Client.firewalls_remove_from_resources cl tr f res)
  | VolumesGetAll => exn_of (Client.volumes_get_all cl tr)
  | VolumesGetById id => exn_of (Client.volumes_get_by_id cl tr id)
  | VolumesCreate n sz l s am fm ls =>
      exn_of (Client.volumes_create cl tr n sz l s am fm ls)
  | VolumesDelete v => exn_of (Client.volumes_delete cl tr v)
  | VolumesAttach v s am => exn_of (Client.volumes_attach cl tr v s am)
  | VolumesDetach v => exn_of (Client.volumes_detach cl tr v)
  | VolumesResize v sz => exn_of (Client.volumes_resize cl tr v sz)
  | ActionsGetById _ | ActionWaitUntilFinished _ => None
  end.

(** The text each handler puts in front of the provider's message. *)
Definition failure_prefix (t : tool) : string :=
  match t with
  | ListServers => "Failed to list servers"
  | GetServer _ => "Failed to get server"
  | CreateServer _ => "Failed to create server"
  | DeleteServer _ => "Failed to delete server"
  | ListImages => "Failed to list images"
  | ListServerTypes => "Failed to list server types"
  | ListLocations => "Failed to list locations"
  | PowerOn _ => "Failed to power on server"
  | PowerOff _ => "Failed to power off server"
  | Reboot _ => "Failed to reboot server"
  | ListFirewalls => "Failed to list firewalls"
  | GetFirewall _ => "Failed to get firewall"
  | CreateFirewall _ => "Failed to create firewall"
  | UpdateFirewall _ => "Failed to update firewall"
  | DeleteFirewall _ => "Failed to delete firewall"
  | SetFirewallRules _ => "Failed to set firewall rules"
  | ApplyFirewallToResources _ => "Failed to apply firewall to resources"
  | RemoveFirewallFromResources _ =>
      "Failed to remove firewall from resources"
  | ListVolumes => "Failed to list volumes"
  | GetVolume _ => "Failed to get volume"
  | CreateVolume _ => "Failed to create volume"
  | DeleteVolume _ => "Failed to delete volume"
  | AttachVolume _ => "Failed to attach volume"
  | DetachVolume _ => "Failed to detach volume"
  | ResizeVolume _ => "Failed to resize volume"
  | ListSSHKeys => "Failed to list SSH keys"
  | GetSSHKey _ => "Failed to get SSH key"
  | CreateSSHKey _ => "Failed to create SSH key"
  | UpdateSSHKey _ => "Failed to update SSH key"
  | DeleteSSHKey _ => "Failed to delete SSH key"
  end.

(** No call of [ext], made after [base], raised. *)
Definition calm_from (cl : Client.t) (base ext : trace) : Prop :=
  forall e0 c e1, ext = (e0 ++ c :: e1)%list ->
                  raised cl (base ++ e0)%list c = None.

(** Either no call raised, or the last call raised and the outcome is the
    error envelope that carries its message behind [prefix]. *)
Definition reports_failure (prefix : string) (cl : Client.t)
  (r : result value) (tr : trace) : Prop :=
  calm_from cl [] tr \/
  exists front c e,
    tr = (front ++ [c])%list /\ calm_from cl [] front /\
    raised cl front c = Some e /\
    r = Ok (error_envelope (prefix ++ ": " ++ str_exn e)).

(** The tools that only read. *)
Definition read_only (t : tool) : bool :=
  match t with
  | ListServers | GetServer _ | ListImages | ListServerTypes | ListLocations
  | ListFirewalls | GetFirewall _ | ListVolumes | GetVolume _
  | ListSSHKeys | GetSSHKey _ => true
  | _ => false
  end.

(** A provider that is down: every call raises. *)
Definition down : exn := APIException "service unavailable".

Definition down_client : Client.t :=
  Client.mk
    (fun _ => Raise down) (fun _ _ => Raise down)
    (fun _ _ _ _ _ _ => Raise down)
    (fun _ _ => Raise down) (fun _ _ => Raise down) (fun _ _ => Raise down)
    (fun _ _ => Raise down)
    (fun _ => Raise down) (fun _ _ => Raise down)
    (fun _ => Raise down) (fun _ _ => Raise down)
    (fun _ => Raise down) (fun _ _ => Raise down)
    (fun _ => Raise down) (fun _ _ => Raise down) (fun _ _ => Raise down)
    (fun _ _ _ _ => Raise down) (fun _ _ _ _ => Raise down)
    (fun _ _ => Raise down)
    (fun _ => Raise down) (fun _ _ => Raise down)
    (fun _ _ _ _ _ => Raise down)
    (fun _ _ _ _ => Raise down) (fun _ _ => Raise down)
    (fun _ _ _ => Raise down) (fun _ _ _ => Raise down)
    (fun _ _ _ => Raise down)
    (fun _ => Raise down) (fun _ _ => Raise down)
    (fun _ _ _ _ _ _ _ _ => Raise down)
    (fun _ _ => Raise down) (fun _ _ _ _ => Raise down)
    (fun _ _ => Raise down) (fun _ _ _ => Raise down).

(** The sample provider, except that it answers every delete request with
    [False]. *)
Definition refusing_client : Client.t :=
  Client.mk
    (fun _ => Ok [bare_server])
    (fun _ id => Ok (if id =? 1 then Some bare_server else None))
    (fun _ _ _ _ _ _ =>
       Ok (CreateServerResponse.mk bare_server (Some sample_action)
             (Some "s3cret")))
    (fun _ _ => Ok (Some sample_action))
    (fun _ _ => Ok (Some sample_action))
    (fun _ _ => Ok (Some sample_action))
    (fun _ _ => Ok (Some sample_action))
    (fun _ => Ok [sample_server_type])
    (fun _ _ => Ok (Some sample_server_type))
    (fun _ => Ok [sample_image])
    (fun _ _ => Ok (Some sample_image))
    (fun _ => Ok [sample_location])
    (fun _ _ => Ok (Some sample_location))
    (fun _ => Ok [bare_ssh_key])
    (fun _ id => Ok (if id =? 3 then Some bare_ssh_key else None))
    (fun _ _ => Ok None)
    (fun _ _ _ _ => Ok bare_ssh_key)
    (fun _ _ _ _ => Ok bare_ssh_key)
    (fun _ _ => Ok false)
    (fun _ => Ok [bare_firewall])
    (fun _ id => Ok (if id =? 4 then Some bare_firewall else None))
    (fun _ _ _ _ _ =>
       Ok (CreateFirewallResponse.mk bare_firewall (Some [sample_action])))
    (fun _ _ _ _ => Ok bare_firewall)
    (fun _ _ => Ok false)
    (fun _ _ _ => Ok (Some [sample_action]))
    (fun _ _ _ => Ok (Some [sample_action]))
    (fun _ _ _ => Ok (Some [sample_action]))
    (fun _ => Ok [bare_volume])
    (fun _ id => Ok (if id =? 2 then Some bare_volume else None))
    (fun _ _ _ _ _ _ _ _ =>
       Ok (CreateVolumeResponse.mk bare_volume (Some sample_action) None))
    (fun _ _ => Ok false)
    (fun _ _ _ _ => Ok (Some sample_action))
    (fun _ _ => Ok (Some sample_action))
    (fun _ _ _ => Ok (Some sample_action)).

(** The envelope the resource loop returns for an entry it turns down
    without asking the provider: a ["server"] entry whose [server_id] is
    [None] or [0], a ["label_selector"] entry whose selector is [None] or
    empty, an entry of any other type. *)
Definition turned_down (p : FirewallResourceParam.t) : option value :=
  let type := FirewallResourceParam.type p in
  if String.eqb type "server" then
    if truthy_opt_Z (FirewallResourceParam.server_id p) then None
    else Some server_id_required
  else if String.eqb type "label_selector" then
    if truthy_opt_str (FirewallResourceParam.label_selector p) then None
    else Some label_selector_required
  else Some (invalid_resource_type type).

(** The server IDs a resource list asks the provider for, in order. *)
Definition server_ids (ps : list FirewallResourceParam.t) : list Z :=
  flat_map
    (fun p =>
       if String.eqb (FirewallResourceParam.type p) "server"
       then match FirewallResourceParam.server_id p with
            | Some id => [id]
            | None => []
            end
       else [])
    ps.

(** The lookup a key reference stands for. *)
Definition ref_call (r : ssh_key_ref) : call :=
  match r with
  | KeyId id => SSHKeysGetById id
  | KeyName name => SSHKeysGetByName name
  end.

Definition key_refs (params : CreateServerParams.t) : list ssh_key_ref :=
  match CreateServerParams.ssh_keys params with Some l => l | None => [] end.

(** The six lookups that open [create_server]. *)
Definition opening_lookups (params : CreateServerParams.t) : trace :=
  [ServerTypesGetAll; ImagesGetAll; LocationsGetAll;
   ServerTypesGetByName (CreateServerParams.server_type params);
   ImagesGetByName (CreateServerParams.image params);
   LocationsGetByName (CreateServerParams.location params)].

(** A create request with one known key between two unknown ones. *)
Definition create_with_mixed_keys : CreateServerParams.t :=
  CreateServerParams.mk "web" "cx11" "ubuntu-22.04" (Some "nbg1")
    (Some [KeyId 8; KeyId 3; KeyName "laptop"]).

(** A firewall request whose first resource entry names server 0. *)
Definition resources_with_zero_id : list FirewallResourceParam.t :=
  [FirewallResourceParam.mk "server" (Some 0) None;
   FirewallResourceParam.mk "server" (Some 1) None].

(** A firewall request for server 1, a label selector and server 1 again. *)
Definition resources_mixed : list FirewallResourceParam.t :=
  [FirewallResourceParam.mk "server" (Some 1) None;
   FirewallResourceParam.mk "label_selector" None (Some "env=prod");
   FirewallResourceParam.mk "server" (Some 1) (Some "ignored")].

(** The sample provider, except that it knows no server type, image or
    location by name. *)
Definition nameless_client : Client.t :=
  Client.mk
    (Client.servers_get_all sample_client)
    (Client.servers_get_by_id sample_client)
    (Client.servers_create sample_client)
    (Client.servers_delete sample_client)
    (Client.servers_power_on sample_client)
    (Client.servers_power_off sample_client)
    (Client.servers_reboot sample_client)
    (Client.server_types_get_all sample_client)
    (fun _ _ => Ok None)
    (Client.images_get_all sample_client)
    (fun _ _ => Ok None)
    (Client.locations_get_all sample_client)
    (fun _ _ => Ok None)
    (Client.ssh_keys_get_all sample_client)
    (Client.ssh_keys_get_by_id sample_client)
    (Client.ssh_keys_get_by_name sample_client)
    (Client.ssh_keys_create sample_client)
    (Client.ssh_keys_update sample_client)
    (Client.ssh_keys_delete sample_client)
    (Client.firewalls_get_all sample_client)
    (Client.firewalls_get_by_id sample_client)
    (Client.firewalls_create sample_client)
    (Client.firewalls_update sample_client)
    (Client.firewalls_delete sample_client)
    (Client.firewalls_set_rules sample_client)
    (Client.firewalls_apply_to_resources sample_client)
    (Client.firewalls_remove_from_resources sample_client)
    (Client.volumes_get_all sample_client)
    (Client.volumes_get_by_id sample_client)
    (Client.volumes_create sample_client)
    (Client.volumes_delete sample_client)
    (Client.volumes_attach sample_client)
    (Client.volumes_detach sample_client)
    (Client.volumes_resize sample_client).

(** A volume request with an empty location and server 0. *)
Definition volume_with_falsy_fields : CreateVolumeParams.t :=
  CreateVolumeParams.mk "data" (-5) (Some "") (Some 0) (Some false) None None.

(** A volume request for a location by name. *)
Definition volume_in_location : CreateVolumeParams.t :=
  CreateVolumeParams.mk "data" 10 (Some "mars1") None (Some false) None None.

(** A configuration whose active context has two records, and one with a
    stray string in front of the record. *)
Definition config_with_duplicates : list (string * toml) :=
  [("active_context", TStr "prod");
   ("contexts", TArray [
      TTable [("name", TStr "dev"); ("token", TStr "t0k-dev")];
      TTable [("name", TStr "prod"); ("token", TStr "t0k-first")];
      TTable [("name", TStr "prod"); ("token", TStr "t0k-second")]])].

Definition config_with_stray_item : list (string * toml) :=
  [("active_context", TStr "prod");
   ("contexts", TArray [
      TStr "prod";
      TTable [("name", TStr "prod"); ("token", TStr "t0k-prod")]])].

(** A record of the contexts list that does not carry the name [a]. *)
Definition other_record (a : toml) (c : toml) : Prop :=
  exists d, c = TTable d /\ opt_py_eq (lookup "name" d) a = false.

(** ** Start-up

    [int] on a string of the environment is Python's own; the start-up
    code is taken over any such function. *)

Definition environ : Type := string -> option string.

(** The dispatcher object [FastMCP("Hetzner Cloud", host=..., port=...)]. *)
Record FastMCP : Type := { mcp_name : string; mcp_host : string; mcp_port : Z }.

(** What [start_server] does: the line it prints, the value it assigns to
    [mcp.port], and the dispatcher (as it was constructed) that it runs,
    on which transport.  What the dispatcher makes of the assignment is
    its own business. *)
Record started : Type := {
  printed : string; port_assigned : Z; running : FastMCP;
  transport : string }.

Section Bootstrap.

Variable int_of_str : string -> result Z.

(** [os.environ.get("MCP_HOST", "localhost")] *)
Definition env_host (env : environ) : string :=
  match env "MCP_HOST" with Some h => h | None => "localhost" end.

(** [int(os.environ.get("MCP_PORT", default))] *)
Definition env_port (env : environ) (default : Z) : result Z :=
  match env "MCP_PORT" with Some s => int_of_str s | None => Ok default end.

(** The module-level [mcp = FastMCP(...)]. *)
Definition module_mcp (env : environ) : result FastMCP :=
  port <- env_port env 8089 ;;
  ret {| mcp_name := "Hetzner Cloud"; mcp_host := env_host env;
         mcp_port := port |}.

(** Importing the module: the client is built first, then the dispatcher. *)
Definition import_module (file : config_file) (env : environ)
  : result (hcloud_client * FastMCP) :=
  client <- module_client file ;;
  mcp <- module_mcp env ;;
  ret (client, mcp).

(** [start_server(transport, port)], with [port] the integer [--port]
    parsed, or [None]. *)
Definition start_server (env : environ) (mcp : FastMCP)
  (transport : string) (port : option Z) : result started :=
  let host := env_host env in
  port <- (match port with
           | None => env_port env 8080
           | Some p => ret p
           end) ;;
  ret {| printed := "Starting Hetzner Cloud MCP server on " ++ host ++ ":" ++
                    show_Z port ++ " using " ++ transport ++ " transport";
         port_assigned := port;
         running := mcp;
         transport := transport |}.

(** [main()], with [--transport] and [--port] as [argparse] parsed them. *)
Definition main (env : environ) (mcp : FastMCP)
  (args_transport : string) (args_port : option Z) : result started :=
  start_server env mcp args_transport args_port.

(** Running the module as a program: the import, then [main()]. *)
Definition program (file : config_file) (env : environ)
  (args_transport : string) (args_port : option Z) : result started :=
  m <- import_module file env ;;
  main env (snd m) args_transport args_port.

End Bootstrap.

(** Decimal digits only: enough of [int] for the examples. *)
Definition int_of_digits (s : string) : result Z :=
  match NilZero.uint_of_string s with
  | Some u => Ok (Z.of_uint u)
  | None => Raise (ValueError ("invalid literal for int() with base 10: " ++
                               repr_str s))
  end.

Definition env_with_port (port : string) : environ :=
  fun k => if String.eqb k "MCP_PORT" then Some port else None.

(** ** The descriptor of an action, field by field

    What a caller must find in an envelope for an action the provider
    handed back: the action's own [id], [status], [command], [progress]
    and [error], unchanged, and its two timestamps as text, or null when
    the action has none yet.  A status of ["running"] stays ["running"]. *)







(** * Properties *)

(** ** Shape converters *)

Lemma result_bind_Ok (A B : Type) (a : A) (k : A -> result B) :
  (x <- Ok a ;; k x) = k a.
Proof. reflexivity. Qed.

Ltac step_ok := rewrite result_bind_Ok; cbv beta.

(** Split a conjunction goal, and only a conjunction. *)
Ltac splits := repeat match goal with |- _ /\ _ => split end.

Lemma attr_or_none_ok (A : Type) (o : option A) (f : A -> value) :
  attr_or_none o f = Ok (opt_value f o).
Proof. destruct o; reflexivity. Qed.

Lemma attr2_or_none_ok (A B : Type) (o : option A) (g : A -> option B)
  (f : B -> value) :
  attr2_or_none o g f =
  Ok (match o with Some a => opt_value f (g a) | None => VNone end).
Proof.
  destruct o as [a|]; [|reflexivity].
  unfold attr2_or_none; simpl. destruct (g a); reflexivity.
Qed.

Lemma iso_or_none_ok (o : option datetime) :
  iso_or_none o = Ok (opt_value (fun d => VStr (isoformat d)) o).
Proof. apply attr_or_none_ok. Qed.

Lemma volume_ids_ok (o : option (list BoundVolume.t)) :
  volume_ids o =
  Ok (VList (map (fun v => VInt (BoundVolume.id v))
               (match o with Some l => l | None => [] end))).
Proof. destruct o as [[|v l]|]; reflexivity. Qed.

Lemma protection_flag_ok (ks : list string) (p : option (list (string * bool)))
  (k : string) :
  protection_complete ks p = true -> In k ks ->
  exists b, protection_flag p k = Ok (VBool b) /\
            (truthy_opt_list p = false -> b = false).
Proof.
  intros Hp Hk. destruct p as [[|e d]|].
  - exists false; split; [reflexivity|trivial].
  - simpl in Hp. rewrite forallb_forall in Hp. specialize (Hp k Hk).
    unfold has_key in Hp. unfold protection_flag, subscript; simpl deref.
    cbn [truthy_opt_list nonempty bind result_Monad].
    destruct (lookup k (e :: d)) as [b|]; [|discriminate].
    exists b; split; [reflexivity|discriminate].
  - exists false; split; [reflexivity|trivial].
Qed.

Lemma mapM_result_total (A B : Type) (f : A -> result B) (P : A -> B -> Prop) :
  (forall x, exists y, f x = Ok y /\ P x y) ->
  forall l, exists ys, mapM f l = Ok ys /\ Forall2 P l ys.
Proof.
  intros Hf l. induction l as [|x l IH].
  - exists []; split; [reflexivity|constructor].
  - destruct (Hf x) as [y [Hy HP]]. destruct IH as [ys [Hys HF]].
    exists (y :: ys); split; [|constructor; assumption].
    simpl. rewrite Hy; simpl. rewrite Hys; reflexivity.
Qed.

Lemma rule_to_dict_ok (rule : FirewallRule.t) :
  exists r, rule_to_dict rule = Ok r /\ rule_record rule r.
Proof.
  destruct rule as [dir proto src port dst descr].
  unfold rule_record.
  destruct port as [[|c p]|]; destruct dst as [[|i l]|];
    destruct descr as [[|c' d']|]; simpl;
    (eexists; split; [reflexivity|]; eexists; split; [reflexivity|]);
    repeat (split; [reflexivity|]);
    intro k; simpl;
    repeat (match goal with
            | |- context [String.eqb ?x ?s] => destruct (String.eqb x s)
            end; try discriminate).
Qed.

Lemma applied_resource_to_dict_total (r : AppliedResource.t) :
  exists d, applied_resource_to_dict r = Ok d /\ True.
Proof.
  destruct r as [t [s|]]; eexists; split; try reflexivity; trivial.
Qed.

Lemma resource_to_dict_total (r : FirewallResource.t) :
  exists d, resource_to_dict r = Ok d /\ True.
Proof.
  destruct r as [t s ls ar]. unfold resource_to_dict.
  cbn [FirewallResource.type FirewallResource.server
       FirewallResource.label_selector FirewallResource.applied_to_resources].
  assert (Hs : exists d1,
             (if is_some s
              then x <- server_ref_dict s ;;
                   ret (dict_set "server" x [("type", VStr t)])
              else ret [("type", VStr t)]) = Ok d1).
  { destruct s; eexists; reflexivity. }
  destruct Hs as [d1 ->]. cbn [bind result_Monad].
  destruct ls as [l|]; cbn [is_some deref bind ret result_Monad].
  - destruct ar as [[|a ar]|]; cbn [truthy_opt_list nonempty deref bind ret result_Monad];
      try (eexists; split; [reflexivity|trivial]).
    destruct (mapM_result_total applied_resource_to_dict (fun _ _ => True)
                applied_resource_to_dict_total (a :: ar)) as [ys [-> _]].
    eexists; split; [reflexivity|trivial].
  - destruct ar as [[|a ar]|]; cbn [truthy_opt_list nonempty deref bind ret result_Monad];
      try (eexists; split; [reflexivity|trivial]).
    destruct (mapM_result_total applied_resource_to_dict (fun _ _ => True)
                applied_resource_to_dict_total (a :: ar)) as [ys [-> _]].
    eexists; split; [reflexivity|trivial].
Qed.

Lemma firewall_to_dict_ok (firewall : Firewall.t) :
  exists rs ap,
    firewall_to_dict firewall =
    Ok (VDict [
      ("id", VInt (Firewall.id firewall));
      ("name", VStr (Firewall.name firewall));
      ("rules", VList rs);
      ("applied_to", VList ap);
      ("labels", Firewall.labels firewall);
      ("created",
       opt_value (fun d => VStr (isoformat d)) (Firewall.created firewall))])
    /\ Forall2 rule_record (rules_of firewall) rs
    /\ (Firewall.applied_to firewall = None -> ap = []).
Proof.
  unfold firewall_to_dict, rules_of.
  destruct (mapM_result_total rule_to_dict rule_record rule_to_dict_ok
              (match Firewall.rules firewall with Some l => l | None => [] end))
    as [rs [Hrs HF]].
  assert (Hr : (if truthy_opt_list (Firewall.rules firewall)
                then l <- deref (Firewall.rules firewall) ;; mapM rule_to_dict l
                else ret []) = Ok rs).
  { destruct (Firewall.rules firewall) as [[|r l]|]; simpl in *;
      try assumption; inversion Hrs; reflexivity. }
  rewrite Hr; step_ok.
  assert (Ha : exists ap,
             (if truthy_opt_list (Firewall.applied_to firewall)
              then l <- deref (Firewall.applied_to firewall) ;;
                   mapM resource_to_dict l
              else ret []) = Ok ap /\
             (Firewall.applied_to firewall = None -> ap = [])).
  { destruct (Firewall.applied_to firewall) as [[|r l]|].
    - exists []; split; [reflexivity|trivial].
    - destruct (mapM_result_total resource_to_dict (fun _ _ => True)
                  resource_to_dict_total (r :: l)) as [ys [Hys _]].
      exists ys; split; [exact Hys|discriminate].
    - exists []; split; [reflexivity|trivial]. }
  destruct Ha as [ap [-> Hap]]. step_ok.
  rewrite iso_or_none_ok. step_ok. cbn [ret result_Monad].
  exists rs, ap. repeat split; assumption.
Qed.

(** C8 (as amended).  For every firewall the converter returns a record
    whose ["rules"] list has one record per rule of the firewall, in order;
    each holds [direction], [protocol] and [source_ips], and holds [port],
    [destination_ips] or [description] exactly when that field is truthy on
    the rule (neither [None] nor empty), with the rule's value; no field of
    a rule record is null. *)
Theorem firewall_rule_records (firewall : Firewall.t) :
  exists d rs,
    firewall_to_dict firewall = Ok (VDict d) /\
    lookup "rules" d = Some (VList rs) /\
    Forall2 rule_record (rules_of firewall) rs.
Proof.
  destruct (firewall_to_dict_ok firewall) as [rs [ap [H [HF _]]]].
  eexists; exists rs. split; [exact H|]. split; [reflexivity|exact HF].
Qed.

(** C8 (as stated) fails: a rule whose description was set to the empty
    string converts to a record without a [description]. *)
Lemma empty_description_is_omitted :
  FirewallRule.description rule_empty_description = Some "" /\
  firewall_to_dict firewall_empty_description =
  Ok (VDict [
    ("id", VInt 7); ("name", VStr "web");
    ("rules", VList [VDict [
       ("direction", VStr "in"); ("protocol", VStr "tcp");
       ("source_ips", VList [VStr "0.0.0.0/0"]); ("port", VStr "80")]]);
    ("applied_to", VList []); ("labels", VNone); ("created", VNone)]).
Proof. split; reflexivity. Qed.

Lemma server_to_dict_ok (server : Server.t) :
  protection_complete ["delete"; "rebuild"] (Server.protection server) = true ->
  exists pd pr,
    server_to_dict server =
    Ok (VDict [
      ("id", VInt (Server.id server));
      ("name", VStr (Server.name server));
      ("status", Server.status server);
      ("created",
       opt_value (fun d => VStr (isoformat d)) (Server.created server));
      ("server_type",
       opt_value (fun st => VStr (ServerType.name st))
         (Server.server_type server));
      ("image",
       opt_value (fun i => opt_value VStr (Image.name i)) (Server.image server));
      ("datacenter",
       opt_value (fun d => VStr (Datacenter.name d)) (Server.datacenter server));
      ("location",
       match Server.datacenter server with
       | Some d => opt_value (fun l => VStr (Location.name l))
                     (Datacenter.location d)
       | None => VNone
       end);
      ("public_net", VDict [
         ("ipv4",
          match Server.public_net server with
          | Some n => opt_value (fun a => VStr (IPAddress.ip a))
                        (PublicNetwork.ipv4 n)
          | None => VNone
          end);
         ("ipv6",
          match Server.public_net server with
          | Some n => opt_value (fun a => VStr (IPAddress.ip a))
                        (PublicNetwork.ipv6 n)
          | None => VNone
          end)]);
      ("included_traffic", Server.included_traffic server);
      ("outgoing_traffic", Server.outgoing_traffic server);
      ("ingoing_traffic", Server.ingoing_traffic server);
      ("backup_window", Server.backup_window server);
      ("rescue_enabled", Server.rescue_enabled server);
      ("locked", Server.locked server);
      ("protection", VDict [("delete", VBool pd); ("rebuild", VBool pr)]);
      ("labels", Server.labels server);
      ("volumes",
       VList (map (fun v => VInt (BoundVolume.id v))
                (match Server.volumes server with Some l => l | None => [] end)))])
    /\ (truthy_opt_list (Server.protection server) = false ->
        pd = false /\ pr = false).
Proof.
  intro Hp.
  destruct (protection_flag_ok ["delete"; "rebuild"] (Server.protection server)
              "delete" Hp) as [pd [Hd Hd']]; [simpl; auto|].
  destruct (protection_flag_ok ["delete"; "rebuild"] (Server.protection server)
              "rebuild" Hp) as [pr [Hr Hr']]; [simpl; auto|].
  exists pd, pr. split; [|auto].
  unfold server_to_dict.
  rewrite iso_or_none_ok; step_ok.
  rewrite attr_or_none_ok; step_ok.
  rewrite attr_or_none_ok; step_ok.
  rewrite attr_or_none_ok; step_ok.
  rewrite attr2_or_none_ok; step_ok.
  rewrite attr2_or_none_ok; step_ok.
  rewrite attr2_or_none_ok; step_ok.
  rewrite Hd; step_ok. rewrite Hr; step_ok.
  rewrite volume_ids_ok; step_ok.
  reflexivity.
Qed.

Lemma volume_to_dict_ok (volume : Volume.t) :
  protection_complete ["delete"] (Volume.protection volume) = true ->
  exists pd,
    volume_to_dict volume =
    Ok (VDict [
      ("id", VInt (Volume.id volume));
      ("name", VStr (Volume.name volume));
      ("size", VInt (Volume.size volume));
      ("location",
       opt_value (fun l => VStr (Location.name l)) (Volume.location volume));
      ("server", opt_value (fun s => VInt (Server.id s)) (Volume.server volume));
      ("linux_device", Volume.linux_device volume);
      ("protection", VDict [("delete", VBool pd)]);
      ("labels", Volume.labels volume);
      ("format", Volume.format volume);
      ("created",
       opt_value (fun d => VStr (isoformat d)) (Volume.created volume));
      ("status", Volume.status volume)])
    /\ (truthy_opt_list (Volume.protection volume) = false -> pd = false).
Proof.
  intro Hp.
  destruct (protection_flag_ok ["delete"] (Volume.protection volume)
              "delete" Hp) as [pd [Hd Hd']]; [simpl; auto|].
  exists pd. split; [|auto].
  unfold volume_to_dict.
  rewrite attr_or_none_ok; step_ok.
  rewrite attr_or_none_ok; step_ok.
  rewrite Hd; step_ok.
  rewrite iso_or_none_ok; step_ok.
  reflexivity.
Qed.

Lemma ssh_key_to_dict_ok (ssh_key : SSHKey.t) :
  ssh_key_to_dict ssh_key =
  Ok (VDict [
    ("id", VInt (SSHKey.id ssh_key));
    ("name", VStr (SSHKey.name ssh_key));
    ("fingerprint", SSHKey.fingerprint ssh_key);
    ("public_key", SSHKey.public_key ssh_key);
    ("labels", SSHKey.labels ssh_key);
    ("created",
     opt_value (fun d => VStr (isoformat d)) (SSHKey.created ssh_key))]).
Proof.
  unfold ssh_key_to_dict. rewrite iso_or_none_ok; step_ok. reflexivity.
Qed.

(** C7 (as amended).  Every shape converter returns a record, whatever
    optional sub-objects are absent, on inputs whose protection mapping,
    when present and non-empty, carries its flags.  An absent [created],
    [server_type], [image], [datacenter], datacenter location, public
    address, volume [location] or volume [server] converts to null; an
    absent [protection] converts to flags that are [False], an absent
    [volumes], [rules] or [applied_to] to the empty list. *)
Theorem converters_total
  (server : Server.t) (volume : Volume.t) (ssh_key : SSHKey.t)
  (firewall : Firewall.t)
  (Hs : protection_complete ["delete"; "rebuild"] (Server.protection server)
        = true)
  (Hv : protection_complete ["delete"] (Volume.protection volume) = true) :
  (exists d, server_to_dict server = Ok (VDict d) /\
     (Server.created server = None -> lookup "created" d = Some VNone) /\
     (Server.server_type server = None ->
      lookup "server_type" d = Some VNone) /\
     (Server.image server = None -> lookup "image" d = Some VNone) /\
     (Server.datacenter server = None ->
      lookup "datacenter" d = Some VNone /\ lookup "location" d = Some VNone) /\
     (forall dc, Server.datacenter server = Some dc ->
      Datacenter.location dc = None -> lookup "location" d = Some VNone) /\
     (Server.public_net server = None ->
      lookup "public_net" d = Some (VDict [("ipv4", VNone); ("ipv6", VNone)])) /\
     (Server.protection server = None ->
      lookup "protection" d =
      Some (VDict [("delete", VBool false); ("rebuild", VBool false)])) /\
     (Server.volumes server = None -> lookup "volumes" d = Some (VList []))) /\
  (exists d, volume_to_dict volume = Ok (VDict d) /\
     (Volume.location volume = None -> lookup "location" d = Some VNone) /\
     (Volume.server volume = None -> lookup "server" d = Some VNone) /\
     (Volume.created volume = None -> lookup "created" d = Some VNone) /\
     (Volume.protection volume = None ->
      lookup "protection" d = Some (VDict [("delete", VBool false)]))) /\
  (exists d, ssh_key_to_dict ssh_key = Ok (VDict d) /\
     (SSHKey.created ssh_key = None -> lookup "created" d = Some VNone)) /\
  (exists d, firewall_to_dict firewall = Ok (VDict d) /\
     (Firewall.rules firewall = None -> lookup "rules" d = Some (VList [])) /\
     (Firewall.applied_to firewall = None ->
      lookup "applied_to" d = Some (VList [])) /\
     (Firewall.created firewall = None -> lookup "created" d = Some VNone)).
Proof.
  split; [|split; [|split]].
  - destruct (server_to_dict_ok server Hs) as [pd [pr [H Hp]]].
    eexists; split; [exact H|]. cbn [lookup String.eqb Ascii.eqb Bool.eqb].
    splits; try (intros ->; reflexivity).
    + intros ->; split; reflexivity.
    + intros dc -> ->; reflexivity.
    + intros E; rewrite E in Hp. destruct Hp as [-> ->]; reflexivity.
  - destruct (volume_to_dict_ok volume Hv) as [pd [H Hp]].
    eexists; split; [exact H|]. cbn [lookup String.eqb Ascii.eqb Bool.eqb].
    splits; try (intros ->; reflexivity).
    intros E; rewrite E in Hp. rewrite Hp; reflexivity.
  - eexists; split; [apply ssh_key_to_dict_ok|].
    cbn [lookup String.eqb Ascii.eqb Bool.eqb]. intros ->; reflexivity.
  - destruct (firewall_to_dict_ok firewall) as [rs [ap [H [HF Hap]]]].
    eexists; split; [exact H|]. cbn [lookup String.eqb Ascii.eqb Bool.eqb].
    splits.
    + intros E. unfold rules_of in HF. rewrite E in HF. inversion HF; reflexivity.
    + intros E. rewrite (Hap E); reflexivity.
    + intros ->; reflexivity.
Qed.

Lemma converters_total_witness :
  result_field "location" (server_to_dict bare_server) = Some VNone /\
  result_field "server" (volume_to_dict bare_volume) = Some VNone.
Proof.
  destruct (converters_total bare_server bare_volume bare_ssh_key bare_firewall
              eq_refl eq_refl)
    as [[ds [Hs [_ [_ [_ [Hl _]]]]]] [[dv [Hv [_ [Hsrv _]]]] _]].
  rewrite Hs, Hv. simpl. split.
  - apply Hl; reflexivity.
  - apply Hsrv; reflexivity.
Defined.

(** C7 (as stated) fails: a server without [protection] converts with
    protection flags [False], which is neither null nor a missing key. *)
Lemma absent_protection_is_false :
  Server.protection bare_server = None /\
  result_field "protection" (server_to_dict bare_server) =
  Some (VDict [("delete", VBool false); ("rebuild", VBool false)]).
Proof. split; reflexivity. Qed.

(** ** Credential resolution *)

Lemma find_token_no_record (items : list toml) (a : toml) :
  find (names a) items = None -> raises (find_token items a).
Proof.
  induction items as [|c rest IH]; intro H.
  - eexists; reflexivity.
  - simpl in H. destruct c as [s|z|b|l|d]; try (eexists; reflexivity).
    simpl in *. destruct (opt_py_eq (lookup "name" d) a); [discriminate|].
    apply IH, H.
Qed.

Lemma find_token_no_token (items : list toml) (a ctx : toml) :
  find (names a) items = Some ctx -> truthy (token_of ctx) = false ->
  raises (find_token items a).
Proof.
  induction items as [|c rest IH]; intros H Ht.
  - discriminate.
  - simpl in H. destruct c as [s|z|b|l|d]; try (eexists; reflexivity).
    simpl in *. destruct (opt_py_eq (lookup "name" d) a).
    + inversion H; subst ctx. simpl in Ht.
      destruct (lookup "token" d) as [t|]; [|eexists; reflexivity].
      rewrite Ht. eexists; reflexivity.
    + apply IH; assumption.
Qed.

Lemma find_token_returns (items : list toml) (a t : toml) :
  find_token items a = Ok t ->
  exists ctx, find (names a) items = Some ctx /\ token_of ctx = Some t /\
              truthy (Some t) = true.
Proof.
  induction items as [|c rest IH]; intro H.
  - discriminate.
  - simpl in H. destruct c as [s|z|b|l|d]; try discriminate.
    simpl in *. destruct (opt_py_eq (lookup "name" d) a).
    + exists (TTable d). simpl.
      destruct (lookup "token" d) as [t'|]; [|discriminate].
      destruct (truthy (Some t')) eqn:E; [|discriminate].
      inversion H; subst t'. auto.
    + apply IH, H.
Qed.

Lemma find_token_strings (l : list string) (a : toml) :
  raises (find_token (map TStr l) a).
Proof. destruct l; eexists; reflexivity. Qed.

Lemma find_token_chars (s : string) (a : toml) :
  raises (find_token (chars s) a).
Proof. destruct s; eexists; reflexivity. Qed.

(** The loop has an outcome on the records only when [contexts] is an
    array; on anything else it raises. *)
Lemma walk_contexts (config : list (string * toml)) (a : toml) :
  let contexts :=
    match lookup "contexts" config with Some v => v | None => TArray [] end in
  (items <- iterate contexts ;; find_token items a) =
    find_token (context_records config) a \/
  (raises (items <- iterate contexts ;; find_token items a) /\
   context_records config = []).
Proof.
  unfold context_records.
  destruct (lookup "contexts" config) as [[s|z|b|l|d]|]; simpl.
  - right; split; [apply find_token_chars|reflexivity].
  - right; split; [eexists; reflexivity|reflexivity].
  - right; split; [eexists; reflexivity|reflexivity].
  - left; reflexivity.
  - right; split; [apply find_token_strings|reflexivity].
  - left; reflexivity.
Qed.

Lemma authenticate_raises (load : result (list (string * toml))) :
  raises (read_token load) -> raises (authenticate (Present load)).
Proof.
  intros [e H]. unfold authenticate. rewrite H.
  destruct e; eexists; reflexivity.
Qed.

Lemma read_token_config (config : list (string * toml)) (a : toml) :
  lookup "active_context" config = Some a -> truthy (Some a) = true ->
  read_token (Ok config) = find_token (context_records config) a \/
  (raises (read_token (Ok config)) /\ context_records config = []).
Proof.
  intros Ha Ht. unfold read_token. step_ok. rewrite Ha, Ht.
  apply walk_contexts.
Qed.

(** C9.  [authenticate] raises when the configuration file is absent, when
    its syntax is malformed, when the active context name is missing, when
    no record of the contexts list carries that name, and when the matched
    record has no token; whenever it raises, the module-level construction
    of the provider client raises with it, so no client exists; and it
    returns a token only when none of these conditions hold. *)
Theorem credential_resolution (file : config_file) :
  (file = Absent -> raises (authenticate file)) /\
  (forall m, file = Present (Raise (TomlDecodeError m)) ->
     raises (authenticate file)) /\
  (forall config, file = Present (Ok config) ->
     truthy (lookup "active_context" config) = false ->
     raises (authenticate file)) /\
  (forall config a, file = Present (Ok config) ->
     lookup "active_context" config = Some a ->
     active_record config a = None ->
     raises (authenticate file)) /\
  (forall config a ctx, file = Present (Ok config) ->
     lookup "active_context" config = Some a ->
     active_record config a = Some ctx ->
     truthy (token_of ctx) = false ->
     raises (authenticate file)) /\
  (forall e, authenticate file = Raise e -> module_client file = Raise e) /\
  (forall t, authenticate file = Ok t ->
     exists config a ctx,
       file = Present (Ok config) /\
       lookup "active_context" config = Some a /\
       truthy (Some a) = true /\
       active_record config a = Some ctx /\
       token_of ctx = Some t /\
       truthy (Some t) = true).
Proof.
  splits.
  - intros ->. eexists; reflexivity.
  - intros m ->. eexists; reflexivity.
  - intros config -> H. apply authenticate_raises.
    unfold read_token; step_ok.
    destruct (lookup "active_context" config) as [a|]; [|eexists; reflexivity].
    rewrite H. eexists; reflexivity.
  - intros config a -> Ha Hr. apply authenticate_raises.
    destruct (truthy (Some a)) eqn:Ht.
    + destruct (read_token_config config Ha Ht) as [E|[E _]]; [|exact E].
      rewrite E. apply find_token_no_record, Hr.
    + unfold read_token; step_ok. rewrite Ha, Ht. eexists; reflexivity.
  - intros config a ctx -> Ha Hr Htok. apply authenticate_raises.
    destruct (truthy (Some a)) eqn:Ht.
    + destruct (read_token_config config Ha Ht) as [E|[E _]]; [|exact E].
      rewrite E. apply find_token_no_token with ctx; assumption.
    + unfold read_token; step_ok. rewrite Ha, Ht. eexists; reflexivity.
  - intros e H. unfold module_client. rewrite H. reflexivity.
  - intros t H. destruct file as [|[config|e]]; try discriminate.
    + unfold authenticate in H.
      destruct (read_token (Ok config)) as [t'|e] eqn:E;
        [|destruct e; discriminate].
      inversion H; subst t'. clear H.
      assert (Ha : exists a, lookup "active_context" config = Some a /\
                             truthy (Some a) = true).
      { unfold read_token in E. rewrite result_bind_Ok in E.
        destruct (lookup "active_context" config) as [a|]; [|discriminate].
        exists a. split; [reflexivity|].
        destruct (truthy (Some a)); [reflexivity|discriminate]. }
      destruct Ha as [a [Ha Ht]].
      destruct (read_token_config config Ha Ht) as [E'|[[e E'] _]].
      * rewrite E' in E. destruct (find_token_returns _ _ E) as [ctx [Hc [Hk Htr]]].
        exists config, a, ctx. auto 10.
      * rewrite E' in E; discriminate.
    + unfold authenticate in H. simpl in H. destruct e; discriminate.
Qed.

Lemma credential_resolution_witness :
  authenticate (Present (Ok sample_config)) = Ok (TStr "t0k-prod") /\
  raises (authenticate Absent) /\
  raises (authenticate (Present (Ok [("active_context", TStr "prod")]))).
Proof.
  split; [reflexivity|]. split.
  - apply (credential_resolution Absent). reflexivity.
  - apply (proj1 (proj2 (proj2 (proj2
             (credential_resolution
                (Present (Ok [("active_context", TStr "prod")]))))))
           [("active_context", TStr "prod")] (TStr "prod"));
      reflexivity.
Defined.

(** ** Running a handler symbolically *)

(** Unfold a handler down to the provider calls, the converters and the
    loops, which stay folded. *)
Ltac unfold_handler :=
  cbv beta iota zeta delta
    [run handler
     list_servers get_server create_server create_server_request delete_server
     list_images list_server_types list_locations power_on power_off reboot
     list_firewalls get_firewall create_firewall update_firewall
     delete_firewall set_firewall_rules apply_firewall_to_resources
     remove_firewall_from_resources
     list_volumes get_volume create_volume create_volume_resolve delete_volume
     attach_volume detach_volume resize_volume
     list_ssh_keys get_ssh_key create_ssh_key update_ssh_key delete_ssh_key
     try_except failed success_action success_actions invoke lift
     bind ret M_Monad
     client_servers_get_all client_servers_get_by_id client_servers_create
     client_servers_delete client_servers_power_on client_servers_power_off
     client_servers_reboot client_server_types_get_all
     client_server_types_get_by_name client_images_get_all
     client_images_get_by_name client_locations_get_all
     client_locations_get_by_name client_ssh_keys_get_all
     client_ssh_keys_get_by_id client_ssh_keys_get_by_name
     client_ssh_keys_create client_ssh_keys_update client_ssh_keys_delete
     client_firewalls_get_all client_firewalls_get_by_id
     client_firewalls_create client_firewalls_update client_firewalls_delete
     client_firewalls_set_rules client_firewalls_apply_to_resources
     client_firewalls_remove_from_resources client_volumes_get_all
     client_volumes_get_by_id client_volumes_create client_volumes_delete
     client_volumes_attach client_volumes_detach client_volumes_resize];
  cbn [app fst snd].

(** Split on the innermost scrutinee the goal is stuck on. *)
Ltac split_stuck :=
  match goal with
  | |- context [match ?x with _ => _ end] =>
      lazymatch x with
      | context [match _ with _ => _ end] => fail
      | _ => destruct x eqn:?
      end
  end.

Ltac exec := unfold_handler; repeat (split_stuck; cbn [app fst snd]).

Lemma convert_resources_early (ps : list FirewallResourceParam.t)
  (acc : list FirewallResource.t) (cl : Client.t) (tr tr' : trace)
  (envelope : value) :
  convert_resources ps acc cl tr = (Ok (inl envelope), tr') ->
  is_error envelope = true.
Proof.
  revert acc tr. induction ps as [|p ps IH]; intros acc tr H.
  - discriminate.
  - simpl in H.
    repeat match type of H with
           | context [match ?x with _ => _ end] =>
               lazymatch x with
               | context [match _ with _ => _ end] => fail
               | _ => destruct x eqn:?
               end
           end;
      try discriminate;
      try (inversion H; subst; reflexivity);
      try (eapply IH; eassumption).
Qed.

(** ** Handlers are failure boundaries *)

(** C1.  Whatever the provider client answers or raises (any Python
    [Exception]), every tool handler returns: its outcome is a value, and
    that value is either a success envelope (a dict without ["error"]) or
    [{"error": <message>}]. *)
Theorem handlers_never_raise (t : tool) (cl : Client.t) :
  exists v tr, run (handler t) cl = (Ok v, tr) /\
               (is_success v = true \/ is_error v = true).
Proof.
  destruct t; exec;
    (eexists; eexists; split; [reflexivity|];
     first [ left; reflexivity
           | right; reflexivity
           | right; eapply convert_resources_early; eassumption ]).
Qed.

(** ** Traces *)

Local Open Scope list_scope.


Lemma split_last_sound (A : Type) (l front : list A) (x : A) :
  split_last l = Some (front, x) -> l = (front ++ [x])%list.
Proof.
  revert front. induction l as [|y l IH]; intros front H; [discriminate|].
  destruct l as [|z l].
  - inversion H; reflexivity.
  - change (match split_last (z :: l) with
            | Some (f, w) => Some (y :: f, w)
            | None => None
            end = Some (front, x)) in H.
    destruct (split_last (z :: l)) as [[f w]|]; [|discriminate].
    inversion H; subst. simpl. f_equal. apply IH. reflexivity.
Qed.

Lemma convert_resources_trace (ps : list FirewallResourceParam.t)
  (acc : list FirewallResource.t) (cl : Client.t) (tr : trace) :
  exists ext,
    snd (convert_resources ps acc cl tr) = (tr ++ ext)%list /\
    Forall (fun c => is_lookup c = true) ext.
Proof.
  revert acc tr. induction ps as [|p ps IH]; intros acc tr.
  - exists []; split; [symmetry; apply app_nil_r|constructor].
  - simpl; unfold_handler.
    repeat (split_stuck; cbn [app fst snd]);
      try (exists []; split; [symmetry; apply app_nil_r|constructor]);
      try (eexists [_]; split; [reflexivity|repeat constructor]).
    + match goal with
      | |- context [convert_resources ps ?a cl ?t] =>
          destruct (IH a t) as [ext [E F]]
      end.
      exists (ServersGetById z :: ext). split.
      * rewrite E, <- app_assoc. reflexivity.
      * constructor; [reflexivity|exact F].
    + apply IH.
Qed.

Lemma resolve_ssh_keys_trace (refs : list ssh_key_ref) (acc : list SSHKey.t)
  (cl : Client.t) (tr : trace) :
  exists ext,
    snd (resolve_ssh_keys refs acc cl tr) = (tr ++ ext)%list /\
    Forall (fun c => is_lookup c = true) ext.
Proof.
  revert acc tr. induction refs as [|r refs IH]; intros acc tr.
  - exists []; split; [symmetry; apply app_nil_r|constructor].
  - destruct r as [id|name]; simpl; unfold_handler;
      repeat (split_stuck; cbn [app fst snd]);
      try (eexists [_]; split; [reflexivity|repeat constructor]);
      match goal with
      | |- context [resolve_ssh_keys refs ?a cl (tr ++ [?c])%list] =>
          destruct (IH a (tr ++ [c])%list) as [ext [E F]];
          exists (c :: ext); split;
          [rewrite E, <- app_assoc; reflexivity
          |constructor; [reflexivity|exact F]]
      end.
Qed.

Ltac solve_lookups :=
  first
    [ assumption
    | apply Forall_nil
    | apply Forall_cons; [reflexivity|solve_lookups]
    | apply Forall_app; split; solve_lookups ].

(** Replace the trace a loop returned by the trace it started from followed
    by lookups. *)
Ltac loop_traces :=
  repeat match goal with
    | H : convert_resources ?ps ?acc ?cl ?tr = (_, ?tr') |- _ =>
        is_var tr';
        let ext := fresh "ext" in
        let E := fresh "E" in
        let F := fresh "F" in
        destruct (convert_resources_trace ps acc cl tr) as [ext [E F]];
        rewrite H in E; cbn [snd] in E; subst tr'
    | H : resolve_ssh_keys ?refs ?acc ?cl ?tr = (_, ?tr') |- _ =>
        is_var tr';
        let ext := fresh "ext" in
        let E := fresh "E" in
        let F := fresh "F" in
        destruct (resolve_ssh_keys_trace refs acc cl tr) as [ext [E F]];
        rewrite H in E; cbn [snd] in E; subst tr'
    end.

Ltac solve_shape :=
  first
    [ left; solve_lookups
    | right; eexists; eexists; split;
      [ first [reflexivity | apply split_last_sound; reflexivity]
      | split; [solve_lookups|reflexivity] ] ].

Lemma handler_trace_shape (t : tool) (cl : Client.t) :
  lookups_then_one (snd (run (handler t) cl)).
Proof.
  destruct t; exec; loop_traces; solve_shape.
Qed.




Lemma shape_other_call_last (tr : trace) :
  lookups_then_one tr ->
  forall tr0 c tr1, tr = (tr0 ++ c :: tr1)%list -> is_lookup c = false ->
                    tr1 = [].
Proof.
  intros Hs tr0 c tr1 E Hc.
  assert (Hin : forall front, Forall (fun c => is_lookup c = true) front ->
                              ~ In c front).
  { intros front HF Hi. rewrite Forall_forall in HF.
    rewrite (HF c Hi) in Hc. discriminate. }
  destruct Hs as [H|[front [m [E' [H Hm]]]]].
  - exfalso. apply (Hin tr H). rewrite E. apply in_elt.
  - destruct tr1 as [|x tr1]; [reflexivity|exfalso].
    destruct (exists_last (l := x :: tr1)) as [l' [y El]]; [discriminate|].
    rewrite El in E. rewrite E in E'.
    change (tr0 ++ c :: l' ++ [y])%list with (tr0 ++ (c :: l') ++ [y])%list in E'.
    rewrite app_assoc in E'. apply app_inj_tail in E'. destruct E' as [E' _].
    apply (Hin front H). rewrite <- E'. apply in_elt.
Qed.




(** ** Lookups that find nothing *)

Lemma quiet_from_nil (skip : call -> bool) (cl : Client.t) (base : trace) :
  quiet_from skip cl base [].
Proof. intros e0 c e1 E. destruct e0; discriminate. Qed.

Lemma quiet_from_cons (skip : call -> bool) (cl : Client.t) (base : trace)
  (c : call) (ext : trace) :
  (skip c = false -> ~ missed cl base c) ->
  quiet_from skip cl (base ++ [c]) ext ->
  quiet_from skip cl base (c :: ext).
Proof.
  intros Hc Hext e0 c' e1 E Hs. destruct e0 as [|x e0].
  - inversion E; subst. rewrite app_nil_r. auto.
  - inversion E; subst.
    replace (base ++ x :: e0)%list with ((base ++ [x]) ++ e0)%list
      by (rewrite <- app_assoc; reflexivity).
    eapply Hext; [reflexivity|assumption].
Qed.

Lemma quiet_from_app (skip : call -> bool) (cl : Client.t)
  (base e1 e2 : trace) :
  quiet_from skip cl base e1 ->
  quiet_from skip cl (base ++ e1) e2 ->
  quiet_from skip cl base (e1 ++ e2).
Proof.
  revert base. induction e1 as [|x e1 IH]; intros base H1 H2.
  - rewrite app_nil_r in H2. exact H2.
  - simpl. apply quiet_from_cons.
    + intros Hs. pose proof (H1 [] x e1 eq_refl Hs) as H.
      rewrite app_nil_r in H. exact H.
    + apply IH.
      * intros e0 c e3 E Hs. rewrite <- app_assoc.
        apply (H1 (x :: e0) c e3); [rewrite E; reflexivity|assumption].
      * rewrite <- app_assoc. exact H2.
Qed.

Lemma convert_resources_misses (skip : call -> bool)
  (ps : list FirewallResourceParam.t) (acc : list FirewallResource.t)
  (cl : Client.t) (tr : trace) :
  exists ext,
    snd (convert_resources ps acc cl tr) = (tr ++ ext)%list /\
    (quiet_from skip cl tr ext \/
     exists front id,
       ext = (front ++ [ServersGetById id])%list /\
       quiet_from skip cl tr front /\
       fst (convert_resources ps acc cl tr) = Ok (inl (server_not_found id))).
Proof.
  revert acc tr. induction ps as [|p ps IH]; intros acc tr.
  - exists []; split; [symmetry; apply app_nil_r|left; apply quiet_from_nil].
  - simpl; unfold_handler.
    repeat (split_stuck; cbn [app fst snd]);
      try (exists []; split;
           [symmetry; apply app_nil_r|left; apply quiet_from_nil]).
    + match goal with
      | |- context [convert_resources ps ?a cl ?t] =>
          destruct (IH a t) as [ext [E [Q|[front [id [Ex [Q R]]]]]]]
      end.
      * exists (ServersGetById z :: ext). split.
        { rewrite E, <- app_assoc. reflexivity. }
        left. apply quiet_from_cons; [|exact Q].
        intros _ Hm. simpl in Hm. congruence.
      * exists (ServersGetById z :: ext). split.
        { rewrite E, <- app_assoc. reflexivity. }
        right. exists (ServersGetById z :: front), id. split; [|split].
        { rewrite Ex. reflexivity. }
        { apply quiet_from_cons; [|exact Q].
          intros _ Hm. simpl in Hm. congruence. }
        { exact R. }
    + exists [ServersGetById z]. split; [reflexivity|].
      right. exists [], z. split; [reflexivity|].
      split; [apply quiet_from_nil|reflexivity].
    + exists [ServersGetById z]. split; [reflexivity|].
      left. apply quiet_from_cons; [|apply quiet_from_nil].
      intros _ Hm. simpl in Hm. congruence.
    + apply IH.
Qed.

Lemma resolve_ssh_keys_misses (p : CreateServerParams.t)
  (refs : list ssh_key_ref) (acc : list SSHKey.t) (cl : Client.t) (tr : trace) :
  exists ext,
    snd (resolve_ssh_keys refs acc cl tr) = (tr ++ ext)%list /\
    quiet_from (skips_missing (CreateServer p)) cl tr ext.
Proof.
  revert acc tr. induction refs as [|r refs IH]; intros acc tr.
  - exists []; split; [symmetry; apply app_nil_r|apply quiet_from_nil].
  - destruct r as [id|name]; simpl; unfold_handler;
      repeat (split_stuck; cbn [app fst snd]);
      try (eexists [_]; split; [reflexivity|];
           apply quiet_from_cons; [|apply quiet_from_nil];
           simpl; intros; (discriminate || tauto));
      match goal with
      | |- context [resolve_ssh_keys refs ?a cl (tr ++ [?c])%list] =>
          destruct (IH a (tr ++ [c])%list) as [ext [E Q]];
          exists (c :: ext); split;
          [rewrite E, <- app_assoc; reflexivity
          |apply quiet_from_cons; [|exact Q];
           simpl; intros; (discriminate || tauto)]
      end.
Qed.

Lemma contains_middle (pre sub post : string) :
  contains sub (pre ++ sub ++ post)%string.
Proof. exists pre, post. reflexivity. Qed.

(** A call that is not a missed lookup, by the equations of the run. *)
Ltac not_missed :=
  let Hs := fresh "Hs" in
  let Hm := fresh "Hm" in
  intros Hs Hm; cbn [missed skips_missing] in Hs, Hm;
  first [contradiction | discriminate Hs | congruence].

Ltac solve_quiet :=
  cbn [app] in *;
  first
    [ assumption
    | apply quiet_from_nil
    | apply quiet_from_cons; [not_missed|solve_quiet]
    | apply quiet_from_app; [solve_quiet|solve_quiet] ].

(** Bring in what the loops say about lookups that found nothing. *)
Ltac loop_misses :=
  repeat match goal with
    | H : convert_resources ?ps ?acc ?cl ?tr = (_, ?tr')
      |- reports_miss ?skip _ _ _ =>
        is_var tr';
        let ext := fresh "ext" in
        let E := fresh "E" in
        let D := fresh "D" in
        destruct (convert_resources_misses skip ps acc cl tr) as [ext [E D]];
        rewrite H in E, D; cbn [fst snd] in E, D; subst tr';
        destruct D as [D|[?front [?id [?Ex [D ?R]]]]]
    | H : resolve_ssh_keys ?refs ?acc ?cl ?tr = (_, ?tr')
      |- reports_miss (skips_missing (CreateServer ?p)) _ _ _ =>
        is_var tr';
        let ext := fresh "ext" in
        let E := fresh "E" in
        let D := fresh "D" in
        destruct (resolve_ssh_keys_misses p refs acc cl tr) as [ext [E D]];
        rewrite H in E; cbn [snd] in E; subst tr'
    end.

Ltac solve_reports :=
  first
    [ left; solve_quiet
    | right; rewrite ?app_assoc; do 4 eexists;
      split; [first [reflexivity | apply split_last_sound; reflexivity]|];
      split; [solve_quiet|];
      split; [reflexivity|];
      split; [reflexivity|apply contains_middle] ].

Lemma handler_reports_miss (t : tool) (cl : Client.t) :
  reports_miss (skips_missing t) cl
    (fst (run (handler t) cl)) (snd (run (handler t) cl)).
Proof.
  destruct t; exec; loop_misses;
    try match goal with
        | R : Ok _ = Ok _ |- _ => inversion R; subst
        | R : Raise _ = Ok _ |- _ => discriminate R
        end;
    solve_reports.
Qed.








(** C2 (as amended).  Whenever a handler looks a resource up by ID and the
    provider finds no match, that lookup is the last call the handler
    makes and the handler returns an error envelope whose message contains
    the ID, hence no success envelope; the lookups of [create_server]'s
    [ssh_keys] are left out of this statement. *)
Theorem unresolved_id_is_reported (t : tool) (cl : Client.t)
  (r : result value) (tr tr0 tr1 : trace) (c : call) (id : Z) :
  run (handler t) cl = (r, tr) ->
  tr = tr0 ++ c :: tr1 ->
  lookup_id c = Some id ->
  missed cl tr0 c ->
  skips_missing t c = false ->
  tr1 = [] /\
  exists msg, r = Ok (error_envelope msg) /\ contains (show_Z id) msg /\
              is_success (error_envelope msg) = false.
Proof.
  intros H E Hid Hm Hs.
  pose proof (handler_reports_miss t cl) as Hr.
  rewrite H in Hr. cbn [fst snd] in Hr.
  destruct Hr as [Q|[front [c' [id' [msg [E' [Q [Hid' [Hr Hc]]]]]]]]].
  - exfalso. apply (Q tr0 c tr1 E Hs). exact Hm.
  - destruct tr1 as [|x tr1].
    + rewrite E in E'. apply app_inj_tail in E'. destruct E' as [_ <-].
      rewrite Hid in Hid'. inversion Hid'; subst id'.
      split; [reflexivity|]. exists msg. auto.
    + exfalso.
      destruct (exists_last (l := x :: tr1)) as [l' [y El]]; [discriminate|].
      rewrite El in E. rewrite E in E'.
      change (tr0 ++ c :: l' ++ [y]) with (tr0 ++ (c :: l') ++ [y]) in E'.
      rewrite app_assoc in E'. apply app_inj_tail in E'. destruct E' as [E' _].
      apply (Q tr0 c l'); [symmetry; exact E'|exact Hs|exact Hm].
Qed.

Lemma unresolved_id_is_reported_witness :
  exists msg,
    fst (run (get_volume (VolumeIdParam.mk 77)) sample_client)
      = Ok (error_envelope msg) /\
    contains (show_Z 77) msg /\
    is_success (error_envelope msg) = false.
Proof.
  refine (proj2
    (@unresolved_id_is_reported (GetVolume (VolumeIdParam.mk 77)) sample_client
       _ _ [] [] (VolumesGetById 77) 77 eq_refl eq_refl eq_refl eq_refl
       eq_refl)).
Defined.

(** What [create_server] does with a key ID that finds no match: the loop
    goes on with the remaining references and the keys collected so far. *)
Lemma unresolved_ssh_key_is_skipped (refs : list ssh_key_ref)
  (acc : list SSHKey.t) (cl : Client.t) (tr : trace) (id : Z) :
  Client.ssh_keys_get_by_id cl tr id = Ok None ->
  resolve_ssh_keys (KeyId id :: refs) acc cl tr =
  resolve_ssh_keys refs acc cl (tr ++ [SSHKeysGetById id]).
Proof.
  intros H. cbn [resolve_ssh_keys]. unfold_handler. rewrite H. reflexivity.
Qed.

(** C2 (as stated) fails: [create_server] asked for SSH key 123, which
    does not resolve, and still returns a success envelope. *)
Lemma unknown_ssh_key_is_passed_over :
  Client.ssh_keys_get_by_id sample_client
    [ServerTypesGetAll; ImagesGetAll; LocationsGetAll;
     ServerTypesGetByName "cx11"; ImagesGetByName "ubuntu-22.04";
     LocationsGetByName (Some "nbg1"%string)] 123 = Ok None /\
  snd (run (create_server create_with_unknown_key) sample_client) =
    [ServerTypesGetAll; ImagesGetAll; LocationsGetAll;
     ServerTypesGetByName "cx11"; ImagesGetByName "ubuntu-22.04";
     LocationsGetByName (Some "nbg1"%string); SSHKeysGetById 123;
     ServersCreate "web" sample_server_type sample_image sample_location []] /\
  match fst (run (create_server create_with_unknown_key) sample_client) with
  | Ok v => is_success v
  | Raise _ => false
  end = true.
Proof. repeat split. Qed.

(** ** Volumes *)

(** C4.  When the volume resolves and the requested size does not exceed
    the size the provider just reported for it, [resize_volume] returns an
    error envelope and the lookup is its only provider call; whenever the
    provider's resize is invoked, it is on the volume just fetched, with
    the requested size, and that size is strictly greater than the
    volume's. *)
Theorem resize_requires_growth (cl : Client.t) (params : ResizeVolumeParams.t)
  (r : result value) (tr : trace) :
  run (resize_volume params) cl = (r, tr) ->
  (forall volume,
     Client.volumes_get_by_id cl [] (ResizeVolumeParams.volume_id params)
       = Ok (Some volume) ->
     ResizeVolumeParams.size params <= Volume.size volume ->
     r = Ok (error_envelope
               ("New size (" ++ show_Z (ResizeVolumeParams.size params) ++
                " GB) must be greater than current size (" ++
                show_Z (Volume.size volume) ++ " GB)")%string) /\
     tr = [VolumesGetById (ResizeVolumeParams.volume_id params)]) /\
  (forall v s, In (VolumesResize v s) tr ->
     Client.volumes_get_by_id cl [] (ResizeVolumeParams.volume_id params)
       = Ok (Some v) /\
     s = ResizeVolumeParams.size params /\
     Volume.size v < ResizeVolumeParams.size params).
Proof.
  intros H.
  assert (Hr : r = fst (run (resize_volume params) cl)) by (rewrite H; reflexivity).
  assert (Ht : tr = snd (run (resize_volume params) cl)) by (rewrite H; reflexivity).
  clear H. subst r tr. split.
  - intros volume Hv Hle. apply Z.leb_le in Hle.
    unfold_handler. rewrite Hv. cbn [app fst snd]. rewrite Hle.
    split; reflexivity.
  - exec; intros v' s' Hin; cbn [In] in Hin;
      repeat match goal with
             | H : _ \/ _ |- _ => destruct H
             | H : False |- _ => contradiction
             end;
      try discriminate;
      match goal with
      | H : VolumesResize _ _ = VolumesResize _ _ |- _ =>
          inversion H; subst; clear H
      end;
      (split; [reflexivity|]; split; [reflexivity|]);
      match goal with
      | H : (_ <=? _) = false |- _ => apply Z.leb_gt in H; exact H
      end.
Qed.

Lemma resize_requires_growth_witness :
  fst (run (resize_volume (ResizeVolumeParams.mk 2 10)) sample_client) =
    Ok (error_envelope
          "New size (10 GB) must be greater than current size (10 GB)") /\
  snd (run (resize_volume (ResizeVolumeParams.mk 2 10)) sample_client) =
    [VolumesGetById 2].
Proof.
  refine (proj1
    (@resize_requires_growth sample_client (ResizeVolumeParams.mk 2 10)
       _ _ eq_refl) bare_volume eq_refl _).
  simpl. lia.
Defined.

(** C5.  When the volume resolves and has no server attached,
    [detach_volume] returns an error envelope whose message contains the
    volume's ID, and the lookup is its only provider call: the provider's
    detach is not invoked. *)
Theorem detach_requires_attachment (cl : Client.t) (params : VolumeIdParam.t)
  (r : result value) (tr : trace) (volume : Volume.t) :
  run (detach_volume params) cl = (r, tr) ->
  Client.volumes_get_by_id cl [] (VolumeIdParam.volume_id params)
    = Ok (Some volume) ->
  Volume.server volume = None ->
  (exists msg, r = Ok (error_envelope msg) /\
               contains (show_Z (VolumeIdParam.volume_id params)) msg) /\
  tr = [VolumesGetById (VolumeIdParam.volume_id params)] /\
  (forall v, ~ In (VolumesDetach v) tr).
Proof.
  intros H Hv Hs. revert H. unfold_handler. rewrite Hv. cbn [app fst snd].
  rewrite Hs. cbn [is_some negb]. intros H. inversion H; subst r tr; clear H.
  split; [|split].
  - exists ("Volume with ID " ++ show_Z (VolumeIdParam.volume_id params) ++
            " is not attached to any server")%string.
    split; [reflexivity|apply contains_middle].
  - reflexivity.
  - intros v [E|[]]. discriminate E.
Qed.

Lemma detach_requires_attachment_witness :
  (exists msg,
     fst (run (detach_volume (VolumeIdParam.mk 2)) sample_client)
       = Ok (error_envelope msg) /\
     contains (show_Z 2) msg) /\
  snd (run (detach_volume (VolumeIdParam.mk 2)) sample_client)
    = [VolumesGetById 2] /\
  (forall v,
     ~ In (VolumesDetach v)
         (snd (run (detach_volume (VolumeIdParam.mk 2)) sample_client))).
Proof.
  exact (@detach_requires_attachment sample_client (VolumeIdParam.mk 2)
           _ _ bare_volume eq_refl eq_refl eq_refl).
Defined.

(** ** Firewall resources *)

Lemma error_envelope_inv (v : value) :
  is_error v = true -> exists msg, v = error_envelope msg.
Proof.
  destruct v as [| | | | |d]; try discriminate.
  destruct d as [|[k x] [|? ?]]; try discriminate;
    destruct x; try discriminate.
  simpl. intro H. apply String.eqb_eq in H. subst k. eexists; reflexivity.
Qed.

(** A list with an entry that lacks its ID or its selector never makes it
    through the loop. *)
Lemma convert_resources_invalid (ps : list FirewallResourceParam.t)
  (acc : list FirewallResource.t) (cl : Client.t) (tr : trace)
  (p : FirewallResourceParam.t) :
  In p ps -> lacks_server_id p = true \/ lacks_label_selector p = true ->
  forall resources, fst (convert_resources ps acc cl tr) <> Ok (inr resources).
Proof.
  intros Hin Hp. revert acc tr.
  induction ps as [|q ps IH]; intros acc tr resources; [contradiction|].
  destruct Hin as [->|Hin].
  - unfold lacks_server_id, lacks_label_selector in Hp.
    destruct p as [type sid sel]; simpl in *.
    destruct (String.eqb type "server") eqn:Et.
    + destruct sid; simpl in Hp; [|discriminate].
      destruct Hp as [Hp|Hp]; [discriminate|].
      apply andb_prop in Hp. destruct Hp as [Hp _].
      apply String.eqb_eq in Et, Hp. congruence.
    + destruct (String.eqb type "label_selector") eqn:El; [|discriminate].
      destruct sel; simpl in Hp; [|discriminate].
      destruct Hp as [Hp|Hp]; discriminate.
  - specialize (IH Hin). simpl; unfold_handler.
    repeat (split_stuck; cbn [app fst snd]); try discriminate; apply IH.
Qed.

(** The loop over a list in two parts is the loop over the first part
    followed, when that one comes through, by the loop over the second. *)
Lemma convert_resources_app (pre rest : list FirewallResourceParam.t)
  (acc : list FirewallResource.t) (cl : Client.t) (tr : trace) :
  convert_resources (pre ++ rest) acc cl tr =
  match convert_resources pre acc cl tr with
  | (Ok (inr resources), tr') => convert_resources rest resources cl tr'
  | (Ok (inl envelope), tr') => (Ok (inl envelope), tr')
  | (Raise e, tr') => (Raise e, tr')
  end.
Proof.
  revert acc tr. induction pre as [|q pre IH]; intros acc tr; [reflexivity|].
  cbn [app convert_resources]. unfold_handler.
  repeat (match goal with
          | |- context [match ?x with _ => _ end] =>
              lazymatch x with
              | context [convert_resources] => fail
              | context [match _ with _ => _ end] => fail
              | _ => destruct x eqn:?
              end
          end; cbn [app fst snd]);
    try reflexivity; apply IH.
Qed.

(** C6 (as amended).  When the resource list of an
    [apply_firewall_to_resources] request has an entry of type ["server"]
    without [server_id], or of type ["label_selector"] without
    [label_selector], the handler returns an error envelope and every
    provider call it makes is a lookup: nothing is applied.  When the
    firewall resolves and the entries before that one all come through the
    loop, the error is the validation error and the provider calls are the
    firewall lookup and the lookups those earlier entries made: the
    firewall lookup alone when the entry comes first. *)
Theorem invalid_resource_is_rejected (cl : Client.t)
  (params : FirewallResourcesParams.t) (r : result value) (tr : trace)
  (p : FirewallResourceParam.t) :
  run (apply_firewall_to_resources params) cl = (r, tr) ->
  In p (FirewallResourcesParams.resources params) ->
  lacks_server_id p = true \/ lacks_label_selector p = true ->
  (exists msg, r = Ok (error_envelope msg)) /\
  Forall (fun c => is_lookup c = true) tr /\
  (forall firewall pre rest resources tr',
     Client.firewalls_get_by_id cl []
       (FirewallResourcesParams.firewall_id params) = Ok (Some firewall) ->
     FirewallResourcesParams.resources params = pre ++ p :: rest ->
     convert_resources pre [] cl
       [FirewallsGetById (FirewallResourcesParams.firewall_id params)]
       = (Ok (inr resources), tr') ->
     tr = tr' /\
     r = Ok (if lacks_server_id p then server_id_required
             else label_selector_required)) /\
  (forall firewall rest,
     Client.firewalls_get_by_id cl []
       (FirewallResourcesParams.firewall_id params) = Ok (Some firewall) ->
     FirewallResourcesParams.resources params = p :: rest ->
     tr = [FirewallsGetById (FirewallResourcesParams.firewall_id params)]).
Proof.
  intros H Hin Hp.
  assert (Hr : r = fst (run (apply_firewall_to_resources params) cl))
    by (rewrite H; reflexivity).
  assert (Ht : tr = snd (run (apply_firewall_to_resources params) cl))
    by (rewrite H; reflexivity).
  clear H. subst r tr.
  assert (Hgen : forall firewall pre rest resources tr',
     Client.firewalls_get_by_id cl []
       (FirewallResourcesParams.firewall_id params) = Ok (Some firewall) ->
     FirewallResourcesParams.resources params = pre ++ p :: rest ->
     convert_resources pre [] cl
       [FirewallsGetById (FirewallResourcesParams.firewall_id params)]
       = (Ok (inr resources), tr') ->
     snd (run (apply_firewall_to_resources params) cl) = tr' /\
     fst (run (apply_firewall_to_resources params) cl) =
       Ok (if lacks_server_id p then server_id_required
           else label_selector_required)).
  { intros firewall pre rest resources tr' Hf Hrest Hpre. unfold_handler.
    rewrite Hf, Hrest. cbn [app fst snd].
    rewrite convert_resources_app, Hpre.
    unfold lacks_server_id, lacks_label_selector in *.
    destruct p as [type sid sel]; cbn [convert_resources] in *.
    cbn [FirewallResourceParam.type FirewallResourceParam.server_id
         FirewallResourceParam.label_selector] in *.
    destruct (String.eqb type "server") eqn:Et.
    + destruct sid; simpl in Hp.
      * destruct Hp as [Hp|Hp]; [discriminate|].
        apply andb_prop in Hp. destruct Hp as [Hp _].
        apply String.eqb_eq in Et, Hp. congruence.
      * unfold_handler. split; reflexivity.
    + destruct (String.eqb type "label_selector") eqn:El;
        [|destruct Hp; discriminate].
      destruct sel; simpl in Hp; [destruct Hp; discriminate|].
      unfold_handler. split; reflexivity. }
  split; [|split; [|split]].
  - exec;
      try (eexists; reflexivity);
      try (match goal with
           | H : convert_resources _ _ _ _ = (Ok (inl _), _) |- _ =>
               apply convert_resources_early, error_envelope_inv in H;
               destruct H as [? ->]; eexists; reflexivity
           end);
      exfalso;
      match goal with
      | H : convert_resources ?ps ?acc ?c ?t = (Ok (inr ?res), _) |- _ =>
          apply (@convert_resources_invalid ps acc c t p Hin Hp res);
          rewrite H; reflexivity
      end.
  - exec; loop_traces;
      try solve_lookups;
      exfalso;
      match goal with
      | H : convert_resources ?ps ?acc ?c ?t = (Ok (inr ?res), _) |- _ =>
          apply (@convert_resources_invalid ps acc c t p Hin Hp res);
          rewrite H; reflexivity
      end.
  - exact Hgen.
  - intros firewall rest Hf Hrest.
    apply (Hgen firewall [] rest [] _ Hf Hrest eq_refl).
Qed.

Lemma invalid_resource_is_rejected_witness :
  snd (run (apply_firewall_to_resources apply_with_gap_first) sample_client)
    = [FirewallsGetById 4] /\
  fst (run (apply_firewall_to_resources apply_with_gap_first) sample_client)
    = Ok server_id_required.
Proof.
  refine (proj1 (proj2 (proj2
    (@invalid_resource_is_rejected sample_client apply_with_gap_first _ _
       (FirewallResourceParam.mk "server" None None)
       eq_refl (or_introl eq_refl) (or_introl eq_refl))))
    bare_firewall [] _ [] _ eq_refl eq_refl eq_refl).
Defined.

(** C6 (as stated) fails: with the entry that lacks its [server_id] second
    in the list, the server of the first entry is resolved before the
    validation error is returned. *)
Lemma server_resolved_before_validation_error :
  run (apply_firewall_to_resources apply_with_late_gap) sample_client =
  (Ok server_id_required, [FirewallsGetById 4; ServersGetById 1]).
Proof. reflexivity. Qed.

(** ** The envelope of [create_server] *)

Lemma create_server_envelope (cl : Client.t) (params : CreateServerParams.t) :
  forall v_out,
    fst (run (create_server params) cl) = Ok v_out ->
    is_success v_out = true ->
    exists tr0 st img loc ssh_keys response s a,
      snd (run (create_server params) cl) =
        tr0 ++ [ServersCreate (CreateServerParams.name params) st img loc
                  ssh_keys] /\
      Client.servers_create cl tr0 (CreateServerParams.name params) st img loc
        ssh_keys = Ok response /\
      server_to_dict (CreateServerResponse.server response) = Ok s /\
      action_or_none (CreateServerResponse.action response) = Ok a /\
      v_out = VDict [
        ("server", s);
        ("action", a);
        ("root_password",
         opt_value VStr (CreateServerResponse.root_password response))].
Proof.
  exec; intros v_out HR HS; inversion HR; subst v_out; clear HR;
    try (simpl in HS; discriminate HS);
    do 8 eexists;
    (split; [first [reflexivity | apply split_last_sound; reflexivity]|]);
    (split; [eassumption|]);
    (split; [eassumption|]);
    (split; [eassumption|reflexivity]).
Qed.

(** C10.  A success envelope of [create_server] is exactly
    [{"server": ..., "action": ..., "root_password": ...}]: the converted
    server and the converted action (or null) of the provider's create
    response, and that response's [root_password] as the provider gave it
    (null when it gave none). *)
Theorem create_server_returns_root_password (cl : Client.t)
  (params : CreateServerParams.t) (v : value) (tr : trace) :
  run (create_server params) cl = (Ok v, tr) ->
  is_success v = true ->
  exists tr0 st img loc ssh_keys response s a,
    tr = tr0 ++ [ServersCreate (CreateServerParams.name params) st img loc
                   ssh_keys] /\
    Client.servers_create cl tr0 (CreateServerParams.name params) st img loc
      ssh_keys = Ok response /\
    server_to_dict (CreateServerResponse.server response) = Ok s /\
    action_or_none (CreateServerResponse.action response) = Ok a /\
    v = VDict [
      ("server", s);
      ("action", a);
      ("root_password",
       opt_value VStr (CreateServerResponse.root_password response))].
Proof.
  intros H Hs. pose proof (@create_server_envelope cl params v) as E.
  rewrite H in E. cbn [fst snd] in E. apply E; [reflexivity|exact Hs].
Qed.

Lemma create_server_returns_root_password_witness :
  field "root_password"
    (match fst (run (create_server create_without_keys) sample_client) with
     | Ok v => v
     | Raise _ => VNone
     end) = Some (VStr "s3cret").
Proof.
  destruct (@create_server_returns_root_password sample_client
              create_without_keys _ _ eq_refl eq_refl)
    as [tr0 [st [img [loc [ks [resp [s [a [_ [_ [_ [_ E]]]]]]]]]]]].
  reflexivity.
Defined.

(** * Further properties of the handlers *)

(** ** Provider failures *)

Lemma calm_from_nil (cl : Client.t) (base : trace) : calm_from cl base [].
Proof. intros e0 c e1 E. destruct e0; discriminate. Qed.

Lemma calm_from_cons (cl : Client.t) (base : trace) (c : call) (ext : trace) :
  raised cl base c = None ->
  calm_from cl (base ++ [c]) ext ->
  calm_from cl base (c :: ext).
Proof.
  intros Hc Hext e0 c' e1 E. destruct e0 as [|x e0].
  - inversion E; subst. rewrite app_nil_r. exact Hc.
  - inversion E; subst.
    replace (base ++ x :: e0) with ((base ++ [x]) ++ e0)
      by (rewrite <- app_assoc; reflexivity).
    eapply Hext; reflexivity.
Qed.

Lemma calm_from_app (cl : Client.t) (base e1 e2 : trace) :
  calm_from cl base e1 ->
  calm_from cl (base ++ e1) e2 ->
  calm_from cl base (e1 ++ e2).
Proof.
  revert base. induction e1 as [|x e1 IH]; intros base H1 H2.
  - rewrite app_nil_r in H2. exact H2.
  - simpl. apply calm_from_cons.
    + pose proof (H1 [] x e1 eq_refl) as H.
      rewrite app_nil_r in H. exact H.
    + apply IH.
      * intros e0 c e3 E. rewrite <- app_assoc.
        apply (H1 (x :: e0) c e3). rewrite E; reflexivity.
      * rewrite <- app_assoc. exact H2.
Qed.

(** A call that did not raise, by the equations of the run. *)
Ltac not_raised :=
  cbn [raised];
  repeat match goal with
         | H : ?l = _ |- context [?l] => rewrite H
         end;
  reflexivity.

Ltac solve_calm :=
  cbn [app] in *;
  first
    [ assumption
    | apply calm_from_nil
    | apply calm_from_cons; [not_raised|solve_calm]
    | apply calm_from_app; [solve_calm|solve_calm] ].

Lemma convert_resources_failures (ps : list FirewallResourceParam.t)
  (acc : list FirewallResource.t) (cl : Client.t) (tr : trace) :
  exists ext,
    snd (convert_resources ps acc cl tr) = tr ++ ext /\
    (calm_from cl tr ext \/
     exists front c e,
       ext = front ++ [c] /\ calm_from cl tr front /\
       raised cl (tr ++ front) c = Some e /\
       fst (convert_resources ps acc cl tr) = Raise e).
Proof.
  revert acc tr. induction ps as [|p ps IH]; intros acc tr.
  - exists []; split; [symmetry; apply app_nil_r|left; apply calm_from_nil].
  - simpl; unfold_handler.
    repeat (split_stuck; cbn [app fst snd]);
      try (exists []; split;
           [symmetry; apply app_nil_r|left; apply calm_from_nil]).
    + match goal with
      | |- context [convert_resources ps ?a cl ?t] =>
          destruct (IH a t) as [ext [E [Q|[front [c [e [Ex [Q [R F]]]]]]]]]
      end.
      * exists (ServersGetById z :: ext). split.
        { rewrite E, <- app_assoc. reflexivity. }
        left. apply calm_from_cons; [not_raised|exact Q].
      * exists (ServersGetById z :: ext). split.
        { rewrite E, <- app_assoc. reflexivity. }
        right. exists (ServersGetById z :: front), c, e.
        split; [rewrite Ex; reflexivity|].
        split; [apply calm_from_cons; [not_raised|exact Q]|].
        split; [|exact F].
        rewrite <- app_assoc in R. exact R.
    + exists [ServersGetById z]. split; [reflexivity|].
      left. apply calm_from_cons; [not_raised|apply calm_from_nil].
    + exists [ServersGetById z]. split; [reflexivity|].
      right. exists [], (ServersGetById z), e. rewrite app_nil_r.
      split; [reflexivity|]. split; [apply calm_from_nil|].
      split; [cbn [raised]; rewrite Heqr; reflexivity|reflexivity].
    + apply IH.
Qed.

Lemma resolve_ssh_keys_failures (refs : list ssh_key_ref) (acc : list SSHKey.t)
  (cl : Client.t) (tr : trace) :
  exists ext,
    snd (resolve_ssh_keys refs acc cl tr) = tr ++ ext /\
    (calm_from cl tr ext \/
     exists front c e,
       ext = front ++ [c] /\ calm_from cl tr front /\
       raised cl (tr ++ front) c = Some e /\
       fst (resolve_ssh_keys refs acc cl tr) = Raise e).
Proof.
  revert acc tr. induction refs as [|r refs IH]; intros acc tr.
  - exists []; split; [symmetry; apply app_nil_r|left; apply calm_from_nil].
  - destruct r as [id|name]; simpl; unfold_handler;
      repeat (split_stuck; cbn [app fst snd]);
      try (eexists [_]; split; [reflexivity|];
           right; eexists [], _, _; rewrite app_nil_r;
           split; [reflexivity|]; split; [apply calm_from_nil|];
           split; [cbn [raised]; rewrite Heqr; reflexivity|reflexivity]);
      match goal with
      | |- context [resolve_ssh_keys refs ?a cl (tr ++ [?c])] =>
          destruct (IH a (tr ++ [c]))
            as [ext [E [Q|[front [c' [e [Ex [Q [R F]]]]]]]]];
          exists (c :: ext);
          (split; [rewrite E, <- app_assoc; reflexivity|]);
          [ left; apply calm_from_cons; [not_raised|exact Q]
          | right; exists (c :: front), c', e;
            split; [rewrite Ex; reflexivity|];
            split; [apply calm_from_cons; [not_raised|exact Q]|];
            split; [rewrite <- app_assoc in R; exact R|exact F] ]
      end.
Qed.

(** Bring in what the loops say about calls that raised. *)
Ltac loop_failures :=
  repeat match goal with
    | H : convert_resources ?ps ?acc ?cl ?tr = (_, ?tr') |- _ =>
        is_var tr';
        let ext := fresh "ext" in
        let E := fresh "E" in
        let D := fresh "D" in
        destruct (convert_resources_failures ps acc cl tr) as [ext [E D]];
        rewrite H in E, D; cbn [fst snd] in E, D; subst tr';
        destruct D as [D|[?front [?c [?e [?Ex [D [?R ?F]]]]]]]
    | H : resolve_ssh_keys ?refs ?acc ?cl ?tr = (_, ?tr') |- _ =>
        is_var tr';
        let ext := fresh "ext" in
        let E := fresh "E" in
        let D := fresh "D" in
        destruct (resolve_ssh_keys_failures refs acc cl tr) as [ext [E D]];
        rewrite H in E, D; cbn [fst snd] in E, D; subst tr';
        destruct D as [D|[?front [?c [?e [?Ex [D [?R ?F]]]]]]]
    end.

Ltac solve_failure :=
  first
    [ left; solve_calm
    | right; rewrite ?app_assoc; do 3 eexists;
      split; [first [reflexivity | apply split_last_sound; reflexivity]|];
      split; [solve_calm|];
      split; [first [eassumption | not_raised]|reflexivity] ].

Lemma handler_reports_failure (t : tool) (cl : Client.t) :
  reports_failure (failure_prefix t) cl
    (fst (run (handler t) cl)) (snd (run (handler t) cl)).
Proof.
  destruct t; exec; loop_failures;
    try match goal with
        | R : Raise _ = Raise _ |- _ => inversion R; subst
        | R : Ok _ = Raise _ |- _ => discriminate R
        end;
    cbn [failure_prefix];
    solve_failure.
Qed.

(** X1.  When a provider call raises, whichever handler made it and
    whichever call it is, that call is the last one the handler makes (no
    retry, nothing after it) and the handler returns [{"error": "<its own
    prefix>: <the exception's message>"}]. *)
Theorem provider_failure_is_reported (t : tool) (cl : Client.t)
  (r : result value) (tr tr0 tr1 : trace) (c : call) (e : exn) :
  run (handler t) cl = (r, tr) ->
  tr = tr0 ++ c :: tr1 ->
  raised cl tr0 c = Some e ->
  tr1 = [] /\
  r = Ok (error_envelope (failure_prefix t ++ ": " ++ str_exn e)).
Proof.
  intros H E He.
  pose proof (handler_reports_failure t cl) as Hr.
  rewrite H in Hr. cbn [fst snd] in Hr.
  destruct Hr as [Q|[front [c' [e' [E' [Q [He' Hr]]]]]]].
  - pose proof (Q tr0 c tr1 E) as Hq. cbn [app] in Hq.
    rewrite Hq in He. discriminate.
  - destruct tr1 as [|x tr1].
    + rewrite E in E'. apply app_inj_tail in E'. destruct E' as [<- <-].
      rewrite He in He'. inversion He'; subst e'. auto.
    + exfalso.
      destruct (exists_last (l := x :: tr1)) as [l' [y El]]; [discriminate|].
      rewrite El in E. rewrite E in E'.
      change (tr0 ++ c :: l' ++ [y]) with (tr0 ++ (c :: l') ++ [y]) in E'.
      rewrite app_assoc in E'. apply app_inj_tail in E'. destruct E' as [E' _].
      pose proof (Q tr0 c l' (eq_sym E')) as Hq. cbn [app] in Hq.
      rewrite Hq in He. discriminate.
Qed.

Lemma provider_failure_is_reported_witness :
  fst (run (resize_volume (ResizeVolumeParams.mk 2 50)) down_client) =
    Ok (error_envelope "Failed to resize volume: service unavailable").
Proof.
  exact (proj2
    (@provider_failure_is_reported
       (ResizeVolume (ResizeVolumeParams.mk 2 50)) down_client
       _ _ [] [] (VolumesGetById 2) down eq_refl eq_refl eq_refl)).
Defined.

(** ** How many calls, and of what kind *)

(** X2.  The handlers that list or get make exactly one provider call, and
    it is a lookup: they never change anything at the provider. *)
Theorem read_only_tools_look_up_once (t : tool) (cl : Client.t)
  (r : result value) (tr : trace) :
  run (handler t) cl = (r, tr) ->
  read_only t = true ->
  exists c, tr = [c] /\ is_lookup c = true.
Proof.
  intros H Hro.
  assert (Ht : tr = snd (run (handler t) cl)) by (rewrite H; reflexivity).
  clear H. subst tr.
  destruct t; try discriminate Hro; exec; eexists; split; reflexivity.
Qed.

Lemma read_only_tools_look_up_once_witness :
  exists c,
    snd (run (get_firewall (FirewallIdParam.mk 4)) sample_client) = [c] /\
    is_lookup c = true.
Proof.
  exact (@read_only_tools_look_up_once
           (GetFirewall (FirewallIdParam.mk 4)) sample_client _ _
           eq_refl eq_refl).
Defined.

(** X3.  A handler makes at most one call that is not a lookup, and makes
    it last: every call before it is a lookup and none follows it. *)
Theorem at_most_one_change (t : tool) (cl : Client.t)
  (r : result value) (tr tr0 tr1 : trace) (c : call) :
  run (handler t) cl = (r, tr) ->
  tr = tr0 ++ c :: tr1 ->
  is_lookup c = false ->
  tr1 = [] /\ Forall (fun c => is_lookup c = true) tr0.
Proof.
  intros H E Hc.
  pose proof (handler_trace_shape t cl) as Hs. rewrite H in Hs.
  cbn [snd] in Hs.
  pose proof (shape_other_call_last Hs tr0 c tr1 E Hc) as ->.
  split; [reflexivity|].
  destruct Hs as [HF|[front [m [E' [HF _]]]]].
  - rewrite E in HF. apply Forall_app in HF. tauto.
  - rewrite E in E'. apply app_inj_tail in E'. destruct E' as [-> _].
    exact HF.
Qed.

Lemma at_most_one_change_witness :
  ([] : trace) = [] /\
  Forall (fun c => is_lookup c = true) [VolumesGetById 2; ServersGetById 1].
Proof.
  exact (@at_most_one_change
           (AttachVolume (AttachVolumeParams.mk 2 1 (Some true))) sample_client
           _ _ [VolumesGetById 2; ServersGetById 1] []
           (VolumesAttach bare_volume bare_server (Some true))
           eq_refl eq_refl eq_refl).
Defined.

(** ** The [success] flag *)

Lemma error_has_no_success (v : value) :
  is_error v = true -> field "success" v = None.
Proof.
  intros H. destruct (error_envelope_inv v H) as [msg ->]. reflexivity.
Qed.

Lemma false_success_source (t : tool) (cl : Client.t) :
  forall v_out,
    fst (run (handler t) cl) = Ok v_out ->
    field "success" v_out = Some (VBool false) ->
    is_success v_out = true /\
    exists front c,
      snd (run (handler t) cl) = front ++ [c] /\
      ((exists f, c = FirewallsDelete f /\
                  Client.firewalls_delete cl front f = Ok false) \/
       (exists v, c = VolumesDelete v /\
                  Client.volumes_delete cl front v = Ok false) \/
       (exists k, c = SSHKeysDelete k /\
                  Client.ssh_keys_delete cl front k = Ok false)).
Proof.
  destruct t; exec; intros v_out HR HS; inversion HR; subst v_out; clear HR;
    try (cbn in HS; discriminate HS);
    try (match goal with
         | H : convert_resources _ _ _ _ = (Ok (inl _), _) |- _ =>
             apply convert_resources_early, error_has_no_success in H;
             rewrite H in HS; discriminate HS
         end);
    cbn in HS; inversion HS; subst;
    (split; [reflexivity|]);
    eexists; eexists; (split; [apply split_last_sound; reflexivity|]);
    first [ left; eexists; split; [reflexivity|eassumption]
          | right; left; eexists; split; [reflexivity|eassumption]
          | right; right; eexists; split; [reflexivity|eassumption] ].
Qed.

(** X4.  An envelope with ["success": false] can only come from
    [delete_firewall], [delete_volume] or [delete_ssh_key], and only when
    the provider's delete call, the last call made, answered [False]:
    these three pass the provider's flag on (without an ["error"] key),
    every other handler that reports [success] reports [True]. *)
Theorem false_success_is_the_providers (t : tool) (cl : Client.t)
  (v : value) (tr : trace) :
  run (handler t) cl = (Ok v, tr) ->
  field "success" v = Some (VBool false) ->
  is_success v = true /\
  exists front c,
    tr = front ++ [c] /\
    ((exists f, c = FirewallsDelete f /\
                Client.firewalls_delete cl front f = Ok false) \/
     (exists x, c = VolumesDelete x /\
                Client.volumes_delete cl front x = Ok false) \/
     (exists k, c = SSHKeysDelete k /\
                Client.ssh_keys_delete cl front k = Ok false)).
Proof.
  intros H Hf. pose proof (@false_success_source t cl v) as E.
  rewrite H in E. cbn [fst snd] in E. apply E; [reflexivity|exact Hf].
Qed.

Lemma false_success_is_the_providers_witness :
  is_success (VDict [("success", VBool false)]) = true /\
  exists front c,
    [VolumesGetById 2; VolumesDelete bare_volume] = front ++ [c] /\
    ((exists f, c = FirewallsDelete f /\
                Client.firewalls_delete refusing_client front f = Ok false) \/
     (exists x, c = VolumesDelete x /\
                Client.volumes_delete refusing_client front x = Ok false) \/
     (exists k, c = SSHKeysDelete k /\
                Client.ssh_keys_delete refusing_client front k = Ok false)).
Proof.
  exact (@false_success_is_the_providers
           (DeleteVolume (VolumeIdParam.mk 2)) refusing_client _ _
           eq_refl eq_refl).
Defined.

(** ** Listings *)

Lemma mapM_result_Forall (A B : Type) (f : A -> result B) (l : list A) :
  Forall (fun x => exists y, f x = Ok y) l ->
  exists ys, mapM f l = Ok ys /\ List.length ys = List.length l.
Proof.
  induction 1 as [|x l [y Hy] _ [ys [Hys Hl]]].
  - exists []; split; reflexivity.
  - exists (y :: ys). split; [|simpl; congruence].
    simpl. rewrite Hy; simpl. rewrite Hys; reflexivity.
Qed.

Lemma mapM_result_all (A B : Type) (f : A -> result B) (l : list A) :
  (forall x, exists y, f x = Ok y) ->
  exists ys, mapM f l = Ok ys /\ List.length ys = List.length l.
Proof.
  intros H. apply mapM_result_Forall. apply Forall_forall. intros x _. apply H.
Qed.

Lemma image_to_dict_total (i : Image.t) : exists d, image_to_dict i = Ok d.
Proof.
  unfold image_to_dict. rewrite iso_or_none_ok. eexists; reflexivity.
Qed.

Lemma price_to_dict_total (p : Price.t) : exists d, price_to_dict p = Ok d.
Proof.
  destruct p as [h m [[[n|]]|]]; eexists; reflexivity.
Qed.

Lemma server_type_to_dict_total (st : ServerType.t) :
  exists d, server_type_to_dict st = Ok d.
Proof.
  unfold server_type_to_dict.
  destruct (ServerType.prices st) as [[|p ps]|];
    try (eexists; reflexivity).
  destruct (mapM_result_all price_to_dict (p :: ps) price_to_dict_total)
    as [ys [Hys _]].
  cbn [truthy_opt_list nonempty deref]. step_ok. rewrite Hys. step_ok.
  eexists; reflexivity.
Qed.

(** X5.  A listing handler whose provider call answers returns one record
    per item the provider listed, under the handler's key, after that
    single call; for servers and volumes this needs every protection
    mapping that is present and non-empty to carry its flags. *)
Theorem listings_keep_count (cl : Client.t) :
  (forall l, Client.servers_get_all cl [] = Ok l ->
     Forall (fun s => protection_complete ["delete"; "rebuild"]
                        (Server.protection s) = true) l ->
     exists ds, run list_servers cl =
                  (Ok (VDict [("servers", VList ds)]), [ServersGetAll]) /\
                List.length ds = List.length l) /\
  (forall l, Client.volumes_get_all cl [] = Ok l ->
     Forall (fun v => protection_complete ["delete"]
                        (Volume.protection v) = true) l ->
     exists ds, run list_volumes cl =
                  (Ok (VDict [("volumes", VList ds)]), [VolumesGetAll]) /\
                List.length ds = List.length l) /\
  (forall l, Client.ssh_keys_get_all cl [] = Ok l ->
     exists ds, run list_ssh_keys cl =
                  (Ok (VDict [("ssh_keys", VList ds)]), [SSHKeysGetAll]) /\
                List.length ds = List.length l) /\
  (forall l, Client.firewalls_get_all cl [] = Ok l ->
     exists ds, run list_firewalls cl =
                  (Ok (VDict [("firewalls", VList ds)]), [FirewallsGetAll]) /\
                List.length ds = List.length l) /\
  (forall l, Client.images_get_all cl [] = Ok l ->
     exists ds, run list_images cl =
                  (Ok (VDict [("images", VList ds)]), [ImagesGetAll]) /\
                List.length ds = List.length l) /\
  (forall l, Client.server_types_get_all cl [] = Ok l ->
     exists ds, run list_server_types cl =
                  (Ok (VDict [("server_types", VList ds)]),
                   [ServerTypesGetAll]) /\
                List.length ds = List.length l) /\
  (forall l, Client.locations_get_all cl [] = Ok l ->
     exists ds, run list_locations cl =
                  (Ok (VDict [("locations", VList ds)]), [LocationsGetAll]) /\
                List.length ds = List.length l).
Proof.
  splits.
  - intros l H HF.
    destruct (@mapM_result_Forall _ _ server_to_dict l) as [ds [Hd Hl]].
    { eapply Forall_impl; [|exact HF]. intros s Hs.
      destruct (server_to_dict_ok s Hs) as [pd [pr [E _]]].
      eexists; exact E. }
    exists ds. split; [|exact Hl]. unfold_handler. rewrite H, Hd. reflexivity.
  - intros l H HF.
    destruct (@mapM_result_Forall _ _ volume_to_dict l) as [ds [Hd Hl]].
    { eapply Forall_impl; [|exact HF]. intros s Hs.
      destruct (volume_to_dict_ok s Hs) as [pd [E _]].
      eexists; exact E. }
    exists ds. split; [|exact Hl]. unfold_handler. rewrite H, Hd. reflexivity.
  - intros l H.
    destruct (@mapM_result_all _ _ ssh_key_to_dict l) as [ds [Hd Hl]].
    { intros k. eexists. apply ssh_key_to_dict_ok. }
    exists ds. split; [|exact Hl]. unfold_handler. rewrite H, Hd. reflexivity.
  - intros l H.
    destruct (@mapM_result_all _ _ firewall_to_dict l) as [ds [Hd Hl]].
    { intros f. destruct (firewall_to_dict_ok f) as [rs [ap [E _]]].
      eexists; exact E. }
    exists ds. split; [|exact Hl]. unfold_handler. rewrite H, Hd. reflexivity.
  - intros l H.
    destruct (@mapM_result_all _ _ image_to_dict l image_to_dict_total)
      as [ds [Hd Hl]].
    exists ds. split; [|exact Hl]. unfold_handler. rewrite H, Hd. reflexivity.
  - intros l H.
    destruct (@mapM_result_all _ _ server_type_to_dict l
                server_type_to_dict_total) as [ds [Hd Hl]].
    exists ds. split; [|exact Hl]. unfold_handler. rewrite H, Hd. reflexivity.
  - intros l H. exists (map location_to_dict l).
    split; [|apply List.length_map]. unfold_handler. rewrite H. reflexivity.
Qed.

Lemma listings_keep_count_witness :
  exists ds, run list_servers sample_client =
               (Ok (VDict [("servers", VList ds)]), [ServersGetAll]) /\
             List.length ds = 1%nat.
Proof.
  refine (proj1 (listings_keep_count sample_client) [bare_server] eq_refl _).
  repeat constructor.
Defined.

(** ** Firewall resources *)

(** Run a handler on a request written out field by field. *)
Ltac exec_fields :=
  unfold_handler;
  cbn [CreateFirewallParams.name CreateFirewallParams.rules
       CreateFirewallParams.resources CreateFirewallParams.labels
       FirewallResourcesParams.firewall_id FirewallResourcesParams.resources
       SetFirewallRulesParams.firewall_id SetFirewallRulesParams.rules
       CreateVolumeParams.name CreateVolumeParams.size
       CreateVolumeParams.location CreateVolumeParams.server
       CreateVolumeParams.automount CreateVolumeParams.format
       CreateVolumeParams.labels];
  repeat (split_stuck; cbn [app fst snd]).

Lemma convert_resources_turned_down (p : FirewallResourceParam.t)
  (rest : list FirewallResourceParam.t) (acc : list FirewallResource.t)
  (cl : Client.t) (tr : trace) (envelope : value) :
  turned_down p = Some envelope ->
  convert_resources (p :: rest) acc cl tr = (Ok (inl envelope), tr).
Proof.
  unfold turned_down. destruct p as [type sid sel].
  cbn [convert_resources FirewallResourceParam.type
       FirewallResourceParam.server_id FirewallResourceParam.label_selector].
  destruct (String.eqb type "server").
  - destruct sid as [id|]; cbn [truthy_opt_Z].
    + destruct (id =? 0); cbn [negb]; [|discriminate].
      intros H; inversion H; reflexivity.
    + intros H; inversion H; reflexivity.
  - destruct (String.eqb type "label_selector").
    + destruct sel as [s|]; cbn [truthy_opt_str].
      * destruct (truthy_str s); cbn [negb]; [discriminate|].
        intros H; inversion H; reflexivity.
      * intros H; inversion H; reflexivity.
    + intros H; inversion H; reflexivity.
Qed.

(** X6.  A first resource entry of type ["server"] whose [server_id] is
    missing or [0], of type ["label_selector"] whose selector is missing
    or empty, or of any other type, is turned down before any server is
    looked up: [apply_firewall_to_resources] and
    [remove_firewall_from_resources] return its error after the firewall
    lookup alone, [create_firewall] without any provider call. *)
Theorem first_entry_turned_down (cl : Client.t)
  (p : FirewallResourceParam.t) (rest : list FirewallResourceParam.t)
  (envelope : value) :
  turned_down p = Some envelope ->
  (forall id firewall,
     Client.firewalls_get_by_id cl [] id = Ok (Some firewall) ->
     run (apply_firewall_to_resources
            (FirewallResourcesParams.mk id (p :: rest))) cl
       = (Ok envelope, [FirewallsGetById id]) /\
     run (remove_firewall_from_resources
            (FirewallResourcesParams.mk id (p :: rest))) cl
       = (Ok envelope, [FirewallsGetById id])) /\
  (forall name rules labels,
     run (create_firewall
            (CreateFirewallParams.mk name rules (Some (p :: rest)) labels)) cl
       = (Ok envelope, [])) /\
  is_error envelope = true.
Proof.
  intros H. splits.
  - intros id firewall Hf. split; unfold_handler;
      cbn [FirewallResourcesParams.firewall_id
           FirewallResourcesParams.resources];
      rewrite Hf; cbn [app fst snd];
      rewrite (convert_resources_turned_down _ _ _ _ _ H); reflexivity.
  - intros name rules labels. unfold_handler.
    cbn [CreateFirewallParams.resources].
    rewrite (convert_resources_turned_down _ _ _ _ _ H). reflexivity.
  - eapply convert_resources_early.
    apply (convert_resources_turned_down p rest [] cl [] H).
Qed.

Lemma first_entry_turned_down_witness :
  run (create_firewall
         (CreateFirewallParams.mk "web" None (Some resources_with_zero_id)
            None)) sample_client
    = (Ok server_id_required, []).
Proof.
  exact (proj1 (proj2
    (@first_entry_turned_down sample_client
       (FirewallResourceParam.mk "server" (Some 0) None)
       [FirewallResourceParam.mk "server" (Some 1) None]
       server_id_required eq_refl))
    "web"%string None None).
Defined.

(** X7.  [create_firewall] and [remove_firewall_from_resources], like
    [apply_firewall_to_resources], change nothing when the resource list
    has an entry of type ["server"] without [server_id] or of type
    ["label_selector"] without [label_selector], wherever it stands: they
    return an error envelope and every provider call they make is a
    lookup, so no firewall is created and none is removed. *)
Theorem invalid_resource_changes_nothing (cl : Client.t)
  (ps : list FirewallResourceParam.t) (p : FirewallResourceParam.t) :
  In p ps ->
  lacks_server_id p = true \/ lacks_label_selector p = true ->
  (forall name rules labels,
     let out := run (create_firewall
                       (CreateFirewallParams.mk name rules (Some ps) labels))
                  cl in
     (exists msg, fst out = Ok (error_envelope msg)) /\
     Forall (fun c => is_lookup c = true) (snd out)) /\
  (forall id,
     let out := run (remove_firewall_from_resources
                       (FirewallResourcesParams.mk id ps)) cl in
     (exists msg, fst out = Ok (error_envelope msg)) /\
     Forall (fun c => is_lookup c = true) (snd out)).
Proof.
  intros Hin Hp.
  assert (Hne : ps <> []) by (destruct ps; [contradiction|discriminate]).
  split.
  - intros name rules labels out. subst out.
    destruct ps as [|q qs]; [contradiction|]. split.
    + exec_fields;
        try (eexists; reflexivity);
        try (match goal with
             | H : convert_resources _ _ _ _ = (Ok (inl _), _) |- _ =>
                 apply convert_resources_early, error_envelope_inv in H;
                 destruct H as [? ->]; eexists; reflexivity
             end);
        exfalso;
        match goal with
        | H : convert_resources ?l ?acc ?c ?t = (Ok (inr ?res), _) |- _ =>
            apply (@convert_resources_invalid l acc c t p Hin Hp res);
            rewrite H; reflexivity
        end.
    + exec_fields; loop_traces;
        try solve_lookups;
        exfalso;
        match goal with
        | H : convert_resources ?l ?acc ?c ?t = (Ok (inr ?res), _) |- _ =>
            apply (@convert_resources_invalid l acc c t p Hin Hp res);
            rewrite H; reflexivity
        end.
  - intros id out. subst out. split.
    + exec_fields;
        try (eexists; reflexivity);
        try (match goal with
             | H : convert_resources _ _ _ _ = (Ok (inl _), _) |- _ =>
                 apply convert_resources_early, error_envelope_inv in H;
                 destruct H as [? ->]; eexists; reflexivity
             end);
        exfalso;
        match goal with
        | H : convert_resources ?l ?acc ?c ?t = (Ok (inr ?res), _) |- _ =>
            apply (@convert_resources_invalid l acc c t p Hin Hp res);
            rewrite H; reflexivity
        end.
    + exec_fields; loop_traces;
        try solve_lookups;
        exfalso;
        match goal with
        | H : convert_resources ?l ?acc ?c ?t = (Ok (inr ?res), _) |- _ =>
            apply (@convert_resources_invalid l acc c t p Hin Hp res);
            rewrite H; reflexivity
        end.
Qed.

Lemma invalid_resource_changes_nothing_witness :
  (exists msg,
     fst (run (remove_firewall_from_resources apply_with_late_gap)
            sample_client) = Ok (error_envelope msg)) /\
  Forall (fun c => is_lookup c = true)
    (snd (run (remove_firewall_from_resources apply_with_late_gap)
            sample_client)).
Proof.
  exact (proj2
    (@invalid_resource_changes_nothing sample_client
       (FirewallResourcesParams.resources apply_with_late_gap)
       (FirewallResourceParam.mk "server" None None)
       (or_intror (or_introl eq_refl)) (or_introl eq_refl)) 4).
Defined.

Lemma convert_resources_built (ps : list FirewallResourceParam.t)
  (acc : list FirewallResource.t) (cl : Client.t) (tr tr' : trace)
  (resources : list FirewallResource.t) :
  convert_resources ps acc cl tr = (Ok (inr resources), tr') ->
  tr' = tr ++ map ServersGetById (server_ids ps) /\
  exists built,
    resources = acc ++ built /\
    map FirewallResource.type built = map FirewallResourceParam.type ps.
Proof.
  revert acc tr. induction ps as [|p ps IH]; intros acc tr H.
  - inversion H; subst. rewrite !app_nil_r. split; [reflexivity|].
    exists []; split; [symmetry; apply app_nil_r|reflexivity].
  - cbn [convert_resources] in H. unfold server_ids in *.
    cbn [flat_map map]. revert H. unfold_handler.
    destruct (String.eqb (FirewallResourceParam.type p) "server").
    + destruct (FirewallResourceParam.server_id p) as [id|]; [|discriminate].
      destruct (id =? 0); [discriminate|].
      destruct (Client.servers_get_by_id cl tr id) as [[s|]|e];
        try discriminate.
      cbn [app fst snd]. intros H. apply IH in H.
      destruct H as [-> [built [-> Hb]]]. split.
      * rewrite <- app_assoc. reflexivity.
      * eexists (_ :: built). rewrite <- app_assoc. split; [reflexivity|].
        cbn [map FirewallResource.type]. rewrite Hb. reflexivity.
    + destruct (String.eqb (FirewallResourceParam.type p) "label_selector");
        [|discriminate].
      destruct (FirewallResourceParam.label_selector p) as [sel|];
        [|discriminate].
      destruct (truthy_str sel); cbn [negb]; [|discriminate].
      intros H. apply IH in H.
      destruct H as [-> [built [-> Hb]]]. split; [reflexivity|].
      eexists (_ :: built). rewrite <- app_assoc. split; [reflexivity|].
      cbn [map FirewallResource.type]. rewrite Hb. reflexivity.
Qed.

(** X8.  Whenever [apply_firewall_to_resources] reaches the provider's
    apply call, it is for the firewall just fetched, with one resource per
    entry of the request, in order and of the entry's type, and the calls
    before it are the firewall lookup followed by one server lookup per
    ["server"] entry, in order (a server named twice is looked up twice). *)
Theorem applied_resources_follow_request (cl : Client.t)
  (params : FirewallResourcesParams.t) (r : result value) (tr : trace)
  (firewall : Firewall.t) (resources : list FirewallResource.t) :
  run (apply_firewall_to_resources params) cl = (r, tr) ->
  In (FirewallsApplyToResources firewall resources) tr ->
  Client.firewalls_get_by_id cl []
    (FirewallResourcesParams.firewall_id params) = Ok (Some firewall) /\
  map FirewallResource.type resources =
    map FirewallResourceParam.type (FirewallResourcesParams.resources params) /\
  tr = FirewallsGetById (FirewallResourcesParams.firewall_id params)
       :: map ServersGetById
            (server_ids (FirewallResourcesParams.resources params))
       ++ [FirewallsApplyToResources firewall resources].
Proof.
  intros H Hin.
  assert (Ht : tr = snd (run (apply_firewall_to_resources params) cl))
    by (rewrite H; reflexivity).
  clear H. subst tr. revert Hin.
  exec; intros Hin;
    try (cbn [In] in Hin;
         repeat match goal with
                | H : _ \/ _ |- _ => destruct H
                | H : False |- _ => contradiction
                end; discriminate);
    try (loop_traces; exfalso;
         apply in_app_or in Hin; destruct Hin as [Hin|Hin];
         [ destruct Hin as [Hin|[]]; discriminate Hin
         | match goal with
           | F : Forall _ ?ext |- _ =>
               rewrite Forall_forall in F; apply F in Hin; discriminate Hin
           end ]);
    match goal with
    | H : convert_resources _ _ _ _ = (Ok (inr _), _) |- _ =>
        apply convert_resources_built in H;
        destruct H as [-> [built [-> Hb]]]
    end;
    cbn [app] in *;
    (destruct Hin as [Hin|Hin]; [discriminate Hin|]);
    apply in_app_or in Hin;
    (destruct Hin as [Hin|[Hin|[]]];
     [ apply in_map_iff in Hin; destruct Hin as [? [Hin _]]; discriminate Hin
     | inversion Hin; subst; auto ]).
Qed.

Lemma applied_resources_follow_request_witness :
  snd (run (apply_firewall_to_resources
              (FirewallResourcesParams.mk 4 resources_mixed)) sample_client) =
  FirewallsGetById 4
  :: map ServersGetById [1; 1]
  ++ [FirewallsApplyToResources bare_firewall
        [FirewallResource.mk "server" (Some bare_server) None None;
         FirewallResource.mk "label_selector" None
           (Some (FirewallResourceLabelSelector.mk "env=prod")) None;
         FirewallResource.mk "server" (Some bare_server) None None]].
Proof.
  exact (proj2 (proj2
    (@applied_resources_follow_request sample_client
       (FirewallResourcesParams.mk 4 resources_mixed) _ _ bare_firewall _
       eq_refl
       (or_intror (or_intror (or_intror (or_introl eq_refl))))))).
Defined.

(** ** Creating a server *)

Lemma resolve_ssh_keys_built (refs : list ssh_key_ref) (acc : list SSHKey.t)
  (cl : Client.t) (tr tr' : trace) (ssh_keys : list SSHKey.t) :
  resolve_ssh_keys refs acc cl tr = (Ok ssh_keys, tr') ->
  tr' = tr ++ map ref_call refs /\
  exists found,
    ssh_keys = acc ++ found /\ (List.length found <= List.length refs)%nat.
Proof.
  revert acc tr. induction refs as [|r refs IH]; intros acc tr H.
  - inversion H; subst. rewrite !app_nil_r. split; [reflexivity|].
    exists []; split; [symmetry; apply app_nil_r|reflexivity].
  - cbn [resolve_ssh_keys] in H. revert H. unfold_handler.
    destruct r as [id|name]; cbn [map ref_call].
    + destruct (Client.ssh_keys_get_by_id cl tr id) as [[k|]|e];
        try discriminate; cbn [app fst snd]; intros H; apply IH in H;
        destruct H as [-> [found [-> Hl]]];
        (split; [rewrite <- app_assoc; reflexivity|]).
      * exists (k :: found). rewrite <- app_assoc. split; [reflexivity|].
        simpl. lia.
      * exists found. split; [reflexivity|]. simpl. lia.
    + destruct (Client.ssh_keys_get_by_name cl tr name) as [[k|]|e];
        try discriminate; cbn [app fst snd]; intros H; apply IH in H;
        destruct H as [-> [found [-> Hl]]];
        (split; [rewrite <- app_assoc; reflexivity|]).
      * exists (k :: found). rewrite <- app_assoc. split; [reflexivity|].
        simpl. lia.
      * exists found. split; [reflexivity|]. simpl. lia.
Qed.

(** X9.  Whenever [create_server] reaches the provider's create call, it
    has made the three listings and the three lookups by name, then one
    lookup per SSH key reference of the request, in order, and nothing
    else; the call carries the request's name, the objects the lookups by
    name returned, and at most as many keys as the request names. *)
Theorem create_call_follows_lookups (cl : Client.t)
  (params : CreateServerParams.t) (r : result value) (tr : trace)
  (name : string) (st : ServerType.t) (img : Image.t) (loc : Location.t)
  (ssh_keys : list SSHKey.t) :
  run (create_server params) cl = (r, tr) ->
  In (ServersCreate name st img loc ssh_keys) tr ->
  tr = opening_lookups params ++ map ref_call (key_refs params)
       ++ [ServersCreate name st img loc ssh_keys] /\
  name = CreateServerParams.name params /\
  (List.length ssh_keys <= List.length (key_refs params))%nat /\
  Client.server_types_get_by_name cl
    [ServerTypesGetAll; ImagesGetAll; LocationsGetAll]
    (CreateServerParams.server_type params) = Ok (Some st) /\
  Client.images_get_by_name cl
    [ServerTypesGetAll; ImagesGetAll; LocationsGetAll;
     ServerTypesGetByName (CreateServerParams.server_type params)]
    (CreateServerParams.image params) = Ok (Some img) /\
  Client.locations_get_by_name cl
    [ServerTypesGetAll; ImagesGetAll; LocationsGetAll;
     ServerTypesGetByName (CreateServerParams.server_type params);
     ImagesGetByName (CreateServerParams.image params)]
    (CreateServerParams.location params) = Ok (Some loc).
Proof.
  intros H Hin.
  assert (Ht : tr = snd (run (create_server params) cl))
    by (rewrite H; reflexivity).
  clear H. subst tr. revert Hin. unfold opening_lookups, key_refs.
  exec; intros Hin;
    try (cbn [In] in Hin;
         repeat match goal with
                | H : _ \/ _ |- _ => destruct H
                | H : False |- _ => contradiction
                end;
         first [ discriminate
               | match goal with
                 | H : ServersCreate _ _ _ _ _ = ServersCreate _ _ _ _ _ |- _ =>
                     inversion H; subst; clear H
                 end;
                 splits; first [reflexivity | assumption | simpl; lia] ]);
    try (loop_traces; exfalso;
         repeat (destruct Hin as [Hin|Hin]; [discriminate Hin|]);
         match goal with
         | F : Forall _ ?ext |- _ =>
             rewrite Forall_forall in F; apply F in Hin; discriminate Hin
         end);
    match goal with
    | H : resolve_ssh_keys _ _ _ _ = (Ok _, _) |- _ =>
        apply resolve_ssh_keys_built in H;
        destruct H as [-> [found [-> Hl]]]
    end;
    cbn [app] in *;
    repeat (destruct Hin as [Hin|Hin]; [discriminate Hin|]);
    apply in_app_or in Hin;
    (destruct Hin as [Hin|[Hin|[]]];
     [ apply in_map_iff in Hin; destruct Hin as [[?|?] [Hin _]];
       discriminate Hin
     | inversion Hin; subst; splits;
       first [reflexivity | assumption] ]).
Qed.

Lemma create_call_follows_lookups_witness :
  snd (run (create_server create_with_mixed_keys) sample_client) =
    opening_lookups create_with_mixed_keys
    ++ map ref_call [KeyId 8; KeyId 3; KeyName "laptop"]
    ++ [ServersCreate "web" sample_server_type sample_image sample_location
          [bare_ssh_key]].
Proof.
  refine (proj1
    (@create_call_follows_lookups sample_client create_with_mixed_keys _ _
       "web"%string sample_server_type sample_image sample_location
       [bare_ssh_key] eq_refl _)).
  cbn. tauto.
Defined.

(** X10.  [create_server] makes all six opening lookups before it checks
    any of them, then checks server type, image and location in that
    order: the first of the three names that did not resolve is the one
    the error envelope reports, together with the names the matching
    listing returned, and the provider's create is not called. *)
Theorem first_unknown_name_is_reported (cl : Client.t)
  (params : CreateServerParams.t)
  (server_types : list ServerType.t) (images : list Image.t)
  (locations : list Location.t)
  (st : option ServerType.t) (img : option Image.t) (loc : option Location.t) :
  Client.server_types_get_all cl [] = Ok server_types ->
  Client.images_get_all cl [ServerTypesGetAll] = Ok images ->
  Client.locations_get_all cl [ServerTypesGetAll; ImagesGetAll]
    = Ok locations ->
  Client.server_types_get_by_name cl
    [ServerTypesGetAll; ImagesGetAll; LocationsGetAll]
    (CreateServerParams.server_type params) = Ok st ->
  Client.images_get_by_name cl
    [ServerTypesGetAll; ImagesGetAll; LocationsGetAll;
     ServerTypesGetByName (CreateServerParams.server_type params)]
    (CreateServerParams.image params) = Ok img ->
  Client.locations_get_by_name cl
    [ServerTypesGetAll; ImagesGetAll; LocationsGetAll;
     ServerTypesGetByName (CreateServerParams.server_type params);
     ImagesGetByName (CreateServerParams.image params)]
    (CreateServerParams.location params) = Ok loc ->
  st = None \/ img = None \/ loc = None ->
  run (create_server params) cl =
  (Ok (error_envelope
         (match st, img with
          | None, _ =>
              "Server type '" ++ CreateServerParams.server_type params ++
              "' not found. Available types: " ++
              repr_list (map repr_str (map ServerType.name server_types))
          | Some _, None =>
              "Image '" ++ CreateServerParams.image params ++
              "' not found. Available images: " ++
              repr_list (map repr_opt_str (map Image.name images))
          | Some _, Some _ =>
              "Location '" ++
              fmt_opt_str (CreateServerParams.location params) ++
              "' not found. Available locations: " ++
              repr_list (map repr_str (map Location.name locations))
          end)%string),
   opening_lookups params).
Proof.
  intros H1 H2 H3 H4 H5 H6 Hn. unfold opening_lookups. unfold_handler.
  rewrite H1. cbn [app fst snd]. rewrite H2. cbn [app fst snd].
  rewrite H3. cbn [app fst snd]. rewrite H4. cbn [app fst snd].
  rewrite H5. cbn [app fst snd]. rewrite H6. cbn [app fst snd].
  destruct st as [s|]; [|reflexivity].
  destruct img as [i|]; [|reflexivity].
  destruct loc as [l|]; [|reflexivity].
  destruct Hn as [Hn|[Hn|Hn]]; discriminate Hn.
Qed.

Lemma first_unknown_name_is_reported_witness :
  run (create_server create_without_keys) nameless_client =
  (Ok (error_envelope
         "Server type 'cx11' not found. Available types: ['cx11']"),
   opening_lookups create_without_keys).
Proof.
  exact (@first_unknown_name_is_reported nameless_client create_without_keys
           [sample_server_type] [sample_image] [sample_location]
           None None None
           eq_refl eq_refl eq_refl eq_refl eq_refl eq_refl
           (or_introl eq_refl)).
Defined.

(** ** Creating a volume *)

(** X11.  [create_volume] treats an empty [location] like a missing one and
    a [server] of [0] like a missing one: with both falsy it looks nothing
    up and its only provider call is the create, with no location, no
    server and the requested size whatever it is (no bound is checked
    here). *)
Theorem falsy_location_and_server_are_skipped (cl : Client.t)
  (params : CreateVolumeParams.t) (r : result value) (tr : trace) :
  run (create_volume params) cl = (r, tr) ->
  truthy_opt_str (CreateVolumeParams.location params) = false ->
  truthy_opt_Z (CreateVolumeParams.server params) = false ->
  tr = [VolumesCreate (CreateVolumeParams.name params)
          (CreateVolumeParams.size params) None None
          (CreateVolumeParams.automount params)
          (CreateVolumeParams.format params)
          (CreateVolumeParams.labels params)].
Proof.
  intros H Hl Hs.
  assert (Ht : tr = snd (run (create_volume params) cl))
    by (rewrite H; reflexivity).
  clear H. subst tr. unfold_handler. rewrite Hl.
  destruct (CreateVolumeParams.server params) as [id|]; cbn [truthy_opt_Z] in Hs.
  - destruct (id =? 0); [|discriminate Hs].
    repeat (split_stuck; cbn [app fst snd]); reflexivity.
  - repeat (split_stuck; cbn [app fst snd]); reflexivity.
Qed.

Lemma falsy_location_and_server_are_skipped_witness :
  snd (run (create_volume volume_with_falsy_fields) sample_client) =
  [VolumesCreate "data" (-5) None None (Some false) None None].
Proof.
  exact (@falsy_location_and_server_are_skipped sample_client
           volume_with_falsy_fields _ _ eq_refl eq_refl eq_refl).
Defined.

(** X12.  When [create_volume] is given a location that the provider does
    not know, it returns [{"error": "Location '<name>' not found"}] after
    that one lookup: the server is not looked up and no volume is
    created. *)
Theorem unknown_location_creates_nothing (cl : Client.t)
  (params : CreateVolumeParams.t) :
  truthy_opt_str (CreateVolumeParams.location params) = true ->
  Client.locations_get_by_name cl [] (CreateVolumeParams.location params)
    = Ok None ->
  run (create_volume params) cl =
  (Ok (error_envelope
         ("Location '" ++ fmt_opt_str (CreateVolumeParams.location params) ++
          "' not found")%string),
   [LocationsGetByName (CreateVolumeParams.location params)]).
Proof.
  intros Hl Hn. unfold_handler. rewrite Hl, Hn. reflexivity.
Qed.

Lemma unknown_location_creates_nothing_witness :
  run (create_volume volume_in_location) nameless_client =
  (Ok (error_envelope "Location 'mars1' not found"),
   [LocationsGetByName (Some "mars1"%string)]).
Proof.
  exact (@unknown_location_creates_nothing nameless_client volume_in_location
           eq_refl eq_refl).
Defined.

(** X13.  When the volume resolves and the requested size is strictly
    greater than the size the provider reported, [resize_volume] makes the
    provider's resize call on that volume with that size, as its second
    and last call, and when the call answers it returns
    [{"success": True, "action": ...}]; no other bound on the size is
    checked. *)
Theorem growing_resize_goes_through (cl : Client.t)
  (params : ResizeVolumeParams.t) (volume : Volume.t)
  (action : option Action.t) :
  Client.volumes_get_by_id cl [] (ResizeVolumeParams.volume_id params)
    = Ok (Some volume) ->
  Volume.size volume < ResizeVolumeParams.size params ->
  Client.volumes_resize cl
    [VolumesGetById (ResizeVolumeParams.volume_id params)] volume
    (ResizeVolumeParams.size params) = Ok action ->
  exists a,
    action_or_none action = Ok a /\
    run (resize_volume params) cl =
    (Ok (VDict [("success", VBool true); ("action", a)]),
     [VolumesGetById (ResizeVolumeParams.volume_id params);
      VolumesResize volume (ResizeVolumeParams.size params)]).
Proof.
  intros Hv Hlt Hr. apply Z.leb_gt in Hlt.
  assert (Ha : exists a, action_or_none action = Ok a).
  { destruct action as [a|]; [|eexists; reflexivity].
    unfold action_or_none, action_to_dict; cbn [is_some deref]. step_ok.
    rewrite !iso_or_none_ok. eexists; reflexivity. }
  destruct Ha as [a Ha]. exists a. split; [exact Ha|].
  unfold_handler. rewrite Hv. cbn [app fst snd]. rewrite Hlt, Hr.
  cbn [app fst snd]. rewrite Ha. reflexivity.
Qed.

Lemma growing_resize_goes_through_witness :
  exists a,
    action_or_none (Some sample_action) = Ok a /\
    run (resize_volume (ResizeVolumeParams.mk 2 20000)) sample_client =
    (Ok (VDict [("success", VBool true); ("action", a)]),
     [VolumesGetById 2; VolumesResize bare_volume 20000]).
Proof.
  refine (@growing_resize_goes_through sample_client
            (ResizeVolumeParams.mk 2 20000) bare_volume (Some sample_action)
            eq_refl _ eq_refl).
  simpl. lia.
Defined.

(** ** Rules of a firewall *)

(** X14.  [set_firewall_rules] hands the provider one rule per rule of the
    request, in order and field for field, for the firewall just fetched,
    and does so for an empty list too (which clears the rules), whereas
    [create_firewall] turns an empty or missing rule list, and an empty or
    missing resource list, into no argument at all and then makes the
    create call without any lookup. *)
Theorem empty_rule_lists (cl : Client.t) :
  (forall params firewall r tr,
     Client.firewalls_get_by_id cl []
       (SetFirewallRulesParams.firewall_id params) = Ok (Some firewall) ->
     run (set_firewall_rules params) cl = (r, tr) ->
     tr = [FirewallsGetById (SetFirewallRulesParams.firewall_id params);
           FirewallsSetRules firewall
             (map rule_of_param (SetFirewallRulesParams.rules params))]) /\
  (forall params r tr,
     truthy_opt_list (CreateFirewallParams.rules params) = false ->
     truthy_opt_list (CreateFirewallParams.resources params) = false ->
     run (create_firewall params) cl = (r, tr) ->
     tr = [FirewallsCreate (CreateFirewallParams.name params) None
             (CreateFirewallParams.labels params) None]).
Proof.
  split.
  - intros params firewall r tr Hf H.
    assert (Ht : tr = snd (run (set_firewall_rules params) cl))
      by (rewrite H; reflexivity).
    clear H. subst tr. unfold_handler. rewrite Hf. cbn [app fst snd].
    repeat (split_stuck; cbn [app fst snd]); reflexivity.
  - intros params r tr Hr Hs H.
    assert (Ht : tr = snd (run (create_firewall params) cl))
      by (rewrite H; reflexivity).
    clear H. subst tr. unfold_handler. rewrite Hr.
    destruct (CreateFirewallParams.resources params) as [[|p ps]|];
      try discriminate Hs;
      repeat (split_stuck; cbn [app fst snd]); reflexivity.
Qed.

Lemma empty_rule_lists_witness :
  snd (run (set_firewall_rules (SetFirewallRulesParams.mk 4 [])) sample_client)
    = [FirewallsGetById 4; FirewallsSetRules bare_firewall []] /\
  snd (run (create_firewall
              (CreateFirewallParams.mk "web" (Some []) (Some []) None))
         sample_client)
    = [FirewallsCreate "web" None None None].
Proof.
  split.
  - exact (proj1 (empty_rule_lists sample_client)
             (SetFirewallRulesParams.mk 4 []) bare_firewall _ _
             eq_refl eq_refl).
  - exact (proj2 (empty_rule_lists sample_client)
             (CreateFirewallParams.mk "web" (Some []) (Some []) None) _ _
             eq_refl eq_refl eq_refl).
Defined.

(** * Further properties of the credential resolver and of start-up *)

(** X15.  [authenticate] fails in three ways only: [FileNotFoundError]
    when the file is absent, [ValueError] when [toml.load] reports bad
    syntax, [RuntimeError] otherwise.  The [ValueError]s that the body
    raises itself never reach the caller as such: a missing active context
    arrives as a [RuntimeError] whose message wraps the original one. *)
Theorem authenticate_error_classes (file : config_file) (e : exn) :
  authenticate file = Raise e ->
  ((file = Absent /\ exists msg, e = FileNotFoundError msg) \/
   (exists m, file = Present (Raise (TomlDecodeError m)) /\
              e = ValueError
                    ("Invalid TOML format in hcloud configuration: " ++ m)) \/
   (exists load msg, file = Present load /\
                     e = RuntimeError
                           ("Error reading hcloud configuration: " ++ msg)))
  /\
  (forall config, file = Present (Ok config) ->
     truthy (lookup "active_context" config) = false ->
     e = RuntimeError
           "Error reading hcloud configuration: No active context found in hcloud configuration").
Proof.
  intros H. split.
  - destruct file as [|load].
    + left. split; [reflexivity|]. inversion H. eexists; reflexivity.
    + unfold authenticate in H.
      destruct (read_token load) as [t|e'] eqn:E; [discriminate|].
      destruct e'; inversion H; subst;
        try (right; right; eexists; eexists; split; reflexivity).
      right; left. exists msg. split; [|reflexivity].
      destruct load as [config|e0].
      * exfalso. unfold read_token in E. rewrite result_bind_Ok in E.
        destruct (lookup "active_context" config) as [a|]; [|discriminate].
        destruct (truthy (Some a)); [|discriminate].
        destruct (match lookup "contexts" config with
                  | Some v => v
                  | None => TArray []
                  end) as [s|z|b|l|d]; simpl in E; try discriminate.
        -- clear -E. induction (chars s) as [|c l IH] eqn:Ec.
           ++ discriminate.
           ++ destruct s; inversion Ec; subst. discriminate.
        -- clear -E.
           induction l as [|c l IH]; [discriminate|].
           simpl in E. destruct c as [s|z|b|l'|d]; try discriminate.
           simpl in E. destruct (opt_py_eq (lookup "name" d) a).
           ++ destruct (lookup "token" d) as [t|]; [|discriminate].
              destruct (truthy (Some t)); discriminate.
           ++ apply IH, E.
        -- destruct (keys d); discriminate.
      * simpl in E. inversion E; reflexivity.
  - intros config -> Ht. unfold authenticate, read_token in H.
    rewrite result_bind_Ok in H.
    destruct (lookup "active_context" config) as [a|].
    + rewrite Ht in H. inversion H; reflexivity.
    + inversion H; reflexivity.
Qed.

Lemma authenticate_error_classes_witness :
  exists e,
    authenticate (Present (Ok [])) = Raise e /\
    e = RuntimeError
          "Error reading hcloud configuration: No active context found in hcloud configuration".
Proof.
  eexists. split; [reflexivity|].
  exact (proj2 (@authenticate_error_classes (Present (Ok [])) _ eq_refl)
           [] eq_refl eq_refl).
Defined.

Lemma find_token_skips (pre rest : list toml) (a : toml) :
  Forall (other_record a) pre ->
  find_token (pre ++ rest) a = find_token rest a.
Proof.
  induction 1 as [|c pre [d [-> Hd]] _ IH]; [reflexivity|].
  simpl. rewrite Hd. exact IH.
Qed.

(** X16.  The first record of the contexts list that carries the active
    context's name decides alone: when the records before it are records
    of other contexts, [authenticate] returns that record's token if it is
    truthy and fails if it is missing or empty, whatever follows it in the
    list, a second record of the same name included. *)
Theorem first_named_record_decides (config : list (string * toml))
  (a : toml) (pre post : list toml) (d : list (string * toml)) :
  lookup "active_context" config = Some a ->
  truthy (Some a) = true ->
  lookup "contexts" config = Some (TArray (pre ++ TTable d :: post)) ->
  Forall (other_record a) pre ->
  opt_py_eq (lookup "name" d) a = true ->
  authenticate (Present (Ok config)) =
  match lookup "token" d with
  | Some t =>
      if truthy (Some t) then Ok t
      else Raise (RuntimeError
                    ("Error reading hcloud configuration: " ++
                     "No token found for context '" ++ toml_str a ++ "'"))
  | None =>
      Raise (RuntimeError
               ("Error reading hcloud configuration: " ++
                "No token found for context '" ++ toml_str a ++ "'"))
  end.
Proof.
  intros Ha Ht Hc Hpre Hd. unfold authenticate, read_token.
  rewrite result_bind_Ok. rewrite Ha, Ht, Hc. cbn [iterate].
  rewrite result_bind_Ok. rewrite (find_token_skips _ Hpre).
  cbn [find_token context_get]. rewrite result_bind_Ok. rewrite Hd.
  rewrite result_bind_Ok.
  destruct (lookup "token" d) as [t|]; [|reflexivity].
  destruct (truthy (Some t)); reflexivity.
Qed.

Lemma first_named_record_decides_witness :
  authenticate (Present (Ok config_with_duplicates)) = Ok (TStr "t0k-first").
Proof.
  refine (@first_named_record_decides config_with_duplicates (TStr "prod")
            [TTable [("name", TStr "dev"); ("token", TStr "t0k-dev")]]
            [TTable [("name", TStr "prod"); ("token", TStr "t0k-second")]]
            [("name", TStr "prod"); ("token", TStr "t0k-first")]
            eq_refl eq_refl eq_refl _ eq_refl).
  constructor; [|constructor]. eexists; split; reflexivity.
Defined.

(** X17.  An item of the contexts list that is not a table (a string, a
    number, a nested array) makes [authenticate] fail with a
    [RuntimeError] as soon as the loop reaches it, even when the record of
    the active context, with its token, comes later in the list. *)
Theorem stray_item_hides_later_records (config : list (string * toml))
  (a : toml) (pre post : list toml) (c : toml) :
  lookup "active_context" config = Some a ->
  truthy (Some a) = true ->
  lookup "contexts" config = Some (TArray (pre ++ c :: post)) ->
  Forall (other_record a) pre ->
  (forall d, c <> TTable d) ->
  exists msg, authenticate (Present (Ok config)) = Raise (RuntimeError msg).
Proof.
  intros Ha Ht Hc Hpre Hn. unfold authenticate, read_token.
  rewrite result_bind_Ok. rewrite Ha, Ht, Hc. cbn [iterate].
  rewrite result_bind_Ok. rewrite (find_token_skips _ Hpre).
  destruct c as [s|z|b|l|d]; try (eexists; reflexivity).
  exfalso. apply (Hn d). reflexivity.
Qed.

Lemma stray_item_hides_later_records_witness :
  exists msg,
    authenticate (Present (Ok config_with_stray_item))
      = Raise (RuntimeError msg).
Proof.
  refine (@stray_item_hides_later_records config_with_stray_item (TStr "prod")
            [] [TTable [("name", TStr "prod"); ("token", TStr "t0k-prod")]]
            (TStr "prod") eq_refl eq_refl eq_refl _ _).
  - constructor.
  - intros d H. discriminate H.
Defined.

(** X18.  When the program starts, the port it prints and assigns to
    [mcp.port] is the [--port] argument if there is one, else [MCP_PORT]
    if it is set, else 8080, whereas the dispatcher object was constructed
    at import with 8089 when [MCP_PORT] is not set: without [--port] and
    [MCP_PORT] the two defaults differ.  The host is [MCP_HOST], or
    [localhost], in both places, and the transport is the one asked for. *)
Theorem effective_port (int_of_str : string -> result Z)
  (file : config_file) (env : environ) (args_transport : string)
  (args_port : option Z) (s : started) :
  program int_of_str file env args_transport args_port = Ok s ->
  (forall p, args_port = Some p -> port_assigned s = p) /\
  (forall v, args_port = None -> env "MCP_PORT" = Some v ->
             int_of_str v = Ok (port_assigned s)) /\
  (args_port = None -> env "MCP_PORT" = None -> port_assigned s = 8080) /\
  (env "MCP_PORT" = None -> mcp_port (running s) = 8089) /\
  mcp_host (running s) = env_host env /\
  transport s = args_transport /\
  printed s =
    ("Starting Hetzner Cloud MCP server on " ++ env_host env ++ ":" ++
     show_Z (port_assigned s) ++ " using " ++ args_transport ++
     " transport")%string.
Proof.
  unfold program, main, import_module, module_mcp, start_server, env_port.
  intros H.
  destruct (module_client file) as [c|e]; [|discriminate H].
  rewrite result_bind_Ok in H.
  destruct (env "MCP_PORT") as [v|] eqn:Ev.
  - destruct (int_of_str v) as [n|e] eqn:En; [|discriminate H].
    cbn [bind ret result_Monad snd] in H.
    destruct args_port as [p|].
    + inversion H; subst s. cbn. splits; try reflexivity; try discriminate.
      intros p' Hp; inversion Hp; reflexivity.
    + inversion H; subst s. cbn.
      splits; try reflexivity; try discriminate.
      intros v' _ Hv; inversion Hv; subst. exact En.
  - cbn [bind ret result_Monad snd] in H.
    destruct args_port as [p|]; inversion H; subst s; cbn;
      splits; try reflexivity; try discriminate.
    intros p' Hp; inversion Hp; reflexivity.
Qed.

Lemma effective_port_witness :
  exists s,
    program int_of_digits (Present (Ok sample_config)) (fun _ => None)
      "stdio" None = Ok s /\
    port_assigned s = 8080 /\ mcp_port (running s) = 8089.
Proof.
  eexists. split; [reflexivity|]. split.
  - exact (proj1 (proj2 (proj2
      (@effective_port int_of_digits (Present (Ok sample_config))
         (fun _ => None) "stdio"%string None _ eq_refl)))
      eq_refl eq_refl).
  - exact (proj1 (proj2 (proj2 (proj2
      (@effective_port int_of_digits (Present (Ok sample_config))
         (fun _ => None) "stdio"%string None _ eq_refl))))
      eq_refl).
Defined.

(** X19.  Start-up fails before anything is served when the credentials
    cannot be resolved, whatever the environment and the arguments, and,
    once they are resolved, when [MCP_PORT] is set to something [int]
    rejects, even if [--port] is given: the import reads [MCP_PORT] for
    the dispatcher before [main] looks at the arguments. *)
Theorem startup_failures (int_of_str : string -> result Z)
  (file : config_file) (env : environ) (args_transport : string)
  (args_port : option Z) :
  (forall e, authenticate file = Raise e ->
     program int_of_str file env args_transport args_port = Raise e) /\
  (forall t v e, authenticate file = Ok t -> env "MCP_PORT" = Some v ->
     int_of_str v = Raise e ->
     program int_of_str file env args_transport args_port = Raise e).
Proof.
  unfold program, main, import_module, module_client, module_mcp, env_port.
  split.
  - intros e H. rewrite H. reflexivity.
  - intros t v e H Hv He. rewrite H, Hv, He. reflexivity.
Qed.

Lemma startup_failures_witness :
  program int_of_digits (Present (Ok sample_config)) (env_with_port "http")
    "sse" (Some 9000)
  = Raise (ValueError "invalid literal for int() with base 10: 'http'").
Proof.
  exact (proj2
    (@startup_failures int_of_digits (Present (Ok sample_config))
       (env_with_port "http") "sse"%string (Some 9000))
    (TStr "t0k-prod") "http"%string _ eq_refl eq_refl eq_refl).
Defined.
